(** * Post File Generator: record normalisation and enrichment pipeline

    A shallow embedding of [app.py]: the pincode helpers
    ([clean_pincode], [extract_pincode_from_text]), the column matchers
    ([get_matching_columns], [get_single_matching_column]), the reference
    loader ([load_pin_database]), the per-file enrichment and the merge
    loop of [merge_customer_files], and the post-merge pass
    [process_pincodes_and_cities].

    Conventions of the embedding.
    - Text is a [string] of 7-bit characters; the character classes below
      are Python's [str.isspace], [\d] and [\w] on code points below 128.
    - A pandas DataFrame is column-major: a row count and a list of
      labelled columns.  Labels may repeat (pandas allows it), and the
      operations below follow pandas on repeated labels where the program
      can reach them.
    - The file system, the spreadsheet reader and the clock are inputs: a
      [World] records what each read returns.
    - [log_callback] is synchronous; the log is the list of the messages
      delivered so far, oldest first.

    Outside the embedding: floating-point cells; what pandas does with a
    frame that has no rows inside [apply] and with the [.str] accessor
    on a column that holds no string; a failing [to_excel]; exceptions
    raised by [log_callback] itself. *)

From Stdlib Require Import List String Ascii Bool Arith ZArith Lia Permutation.
From Stdlib Require Import DecimalString.
Import ListNotations.
Open Scope string_scope.
Open Scope list_scope.
Open Scope nat_scope.

(* ================================================================== *)
(** ** Characters and strings *)

Definition code (c : ascii) : nat := nat_of_ascii c.

(** [\d] and [str.isdigit] on ASCII. *)
Definition isdigit (c : ascii) : bool := (48 <=? code c) && (code c <=? 57).

(** [str.isspace] and [\s]: TAB, LF, VT, FF, CR, FS, GS, RS, US, SPACE. *)
Definition isspace (c : ascii) : bool :=
  ((9 <=? code c) && (code c <=? 13)) || ((28 <=? code c) && (code c <=? 32)).

Definition isupper (c : ascii) : bool := (65 <=? code c) && (code c <=? 90).
Definition islower (c : ascii) : bool := (97 <=? code c) && (code c <=? 122).

(** [\w]: letters, digits and the underscore. *)
Definition isword (c : ascii) : bool :=
  isdigit c || isupper c || islower c || (code c =? 95).

Definition to_lower (c : ascii) : ascii :=
  if isupper c then ascii_of_nat (code c + 32) else c.
Definition to_upper (c : ascii) : ascii :=
  if islower c then ascii_of_nat (code c - 32) else c.

Fixpoint map_string (f : ascii -> ascii) (s : string) : string :=
  match s with
  | EmptyString => EmptyString
  | String c r => String (f c) (map_string f r)
  end.

Fixpoint filter_string (p : ascii -> bool) (s : string) : string :=
  match s with
  | EmptyString => EmptyString
  | String c r => if p c then String c (filter_string p r) else filter_string p r
  end.

Fixpoint forallb_string (p : ascii -> bool) (s : string) : bool :=
  match s with
  | EmptyString => true
  | String c r => p c && forallb_string p r
  end.

(** [s.lower()], [s.upper()]. *)
Definition lower : string -> string := map_string to_lower.
Definition upper : string -> string := map_string to_upper.

Definition is_empty (s : string) : bool :=
  match s with EmptyString => true | _ => false end.

(** [s.lstrip()], [s.rstrip()], [s.strip()]. *)
Fixpoint lstrip (s : string) : string :=
  match s with
  | EmptyString => EmptyString
  | String c r => if isspace c then lstrip r else s
  end.

Fixpoint rstrip (s : string) : string :=
  match s with
  | EmptyString => EmptyString
  | String c r =>
      let r' := rstrip r in
      if isspace c && is_empty r' then EmptyString else String c r'
  end.

Definition strip (s : string) : string := rstrip (lstrip s).

(** [sep.join(parts)]. *)
Fixpoint join (sep : string) (parts : list string) : string :=
  match parts with
  | [] => ""
  | [p] => p
  | p :: rest => (p ++ sep ++ join sep rest)%string
  end.

(** [s.split(c)[0]] for a one-character separator: the text before the
    first [c], the whole of [s] when there is none. *)
Fixpoint split_head (c : ascii) (s : string) : string :=
  match s with
  | EmptyString => EmptyString
  | String a r => if Ascii.eqb a c then EmptyString else String a (split_head c r)
  end.

(** [s.split('Or')]: the pieces between the non-overlapping occurrences
    of the two characters [Or], found left to right.  [cur] is the piece
    being read, last character first. *)
Fixpoint rev_string (acc s : string) : string :=
  match s with
  | EmptyString => acc
  | String c r => rev_string (String c acc) r
  end.

Fixpoint split_Or_from (cur s : string) : list string :=
  match s with
  | EmptyString => [rev_string "" cur]
  | String "O" (String "r" rest) => rev_string "" cur :: split_Or_from "" rest
  | String c rest => split_Or_from (String c cur) rest
  end.

Definition split_Or (s : string) : list string := split_Or_from "" s.

(** [k in s]: [k] occurs in [s] as a substring. *)
Fixpoint contains (k s : string) : bool :=
  String.prefix k s ||
  match s with
  | EmptyString => false
  | String _ r => contains k r
  end.

(** [s.endswith(suf)]. *)
Fixpoint endswith (s suf : string) : bool :=
  String.eqb s suf ||
  match s with
  | EmptyString => false
  | String _ r => endswith r suf
  end.

Definition endswith_any (s : string) (sufs : list string) : bool :=
  existsb (endswith s) sufs.

(** [s.replace(c, '')] for a one-character [c]. *)
Definition remove_char (c : ascii) (s : string) : string :=
  filter_string (fun a => negb (Ascii.eqb a c)) s.

(** [str(n)] for a Python int. *)
Definition str_of_Z (z : Z) : string := NilZero.string_of_int (Z.to_int z).
Definition str_of_nat (n : nat) : string := NilZero.string_of_uint (Nat.to_uint n).

(* ================================================================== *)
(** ** The two regular expressions of [extract_pincode_from_text]

    A pattern is a sequence of items; [re_match_here] is the
    backtracking matcher of such a sequence at one position, [re_search]
    tries every start position from the left, as [re.search] does. *)

Inductive re_item : Type :=
| Bnd                              (* \b *)
| Cls (p : ascii -> bool)          (* one character of a class *)
| Opt (p : ascii -> bool).         (* class?  (greedy) *)

(** [\b] between [prev] and [next]: exactly one side is a word character;
    the ends of the text count as non-word. *)
Definition at_boundary (prev : option ascii) (s : string) : bool :=
  let before := match prev with Some c => isword c | None => false end in
  let after := match s with String c _ => isword c | EmptyString => false end in
  xorb before after.

Definition take_class (p : ascii -> bool) (s : string) : option (ascii * string) :=
  match s with
  | String c r => if p c then Some (c, r) else None
  | EmptyString => None
  end.

Fixpoint re_match_here (pat : list re_item) (prev : option ascii) (s : string)
  : option string :=
  match pat with
  | [] => Some ""
  | Bnd :: pat' =>
      if at_boundary prev s then re_match_here pat' prev s else None
  | Cls p :: pat' =>
      match take_class p s with
      | Some (c, r) => option_map (String c) (re_match_here pat' (Some c) r)
      | None => None
      end
  | Opt p :: pat' =>
      let with_it :=
        match take_class p s with
        | Some (c, r) => option_map (String c) (re_match_here pat' (Some c) r)
        | None => None
        end in
      match with_it with
      | Some m => Some m
      | None => re_match_here pat' prev s
      end
  end.

(** [re.search(pat, s)]: [match.group(0)] of the leftmost match. *)
Fixpoint re_search_from (pat : list re_item) (prev : option ascii) (s : string)
  : option string :=
  match re_match_here pat prev s with
  | Some m => Some m
  | None =>
      match s with
      | EmptyString => None
      | String c r => re_search_from pat (Some c) r
      end
  end.

Definition re_search (pat : list re_item) (s : string) : option string :=
  re_search_from pat None s.

Definition sep_class (c : ascii) : bool := isspace c || Ascii.eqb c "-".

(** [r'\b\d{6}\b'] *)
Definition re_six_digits : list re_item :=
  [Bnd; Cls isdigit; Cls isdigit; Cls isdigit;
        Cls isdigit; Cls isdigit; Cls isdigit; Bnd].

(** [r'\b\d{3}[\s-]?\d{3}\b'] *)
Definition re_three_three : list re_item :=
  [Bnd; Cls isdigit; Cls isdigit; Cls isdigit; Opt sep_class;
        Cls isdigit; Cls isdigit; Cls isdigit; Bnd].

(* ================================================================== *)
(** ** Cell values *)

(** What a cell of a frame holds: a missing value ([None] or [NaN], the
    values [pd.isna] accepts), a string, or an integer. *)
Inductive cell : Type :=
| NaN
| Str (s : string)
| Num (z : Z).

Definition isna (v : cell) : bool :=
  match v with NaN => true | _ => false end.

(** [str(v)]; on a frame read by pandas a missing cell is [NaN], whose
    text is [nan]. *)
Definition str (v : cell) : string :=
  match v with
  | NaN => "nan"
  | Str s => s
  | Num z => str_of_Z z
  end.

(** Python truth of a cell: the empty string and zero are false; [NaN]
    is a non-zero float, hence true. *)
Definition truthy (v : cell) : bool :=
  match v with
  | NaN => true
  | Str s => negb (is_empty s)
  | Num z => negb (Z.eqb z 0)
  end.

Definition fillna_empty (v : cell) : cell :=
  match v with NaN => Str "" | _ => v end.

Definition cell_eqb (a b : cell) : bool :=
  match a, b with
  | NaN, NaN => true
  | Str s, Str t => String.eqb s t
  | Num x, Num y => Z.eqb x y
  | _, _ => false
  end.

(* ================================================================== *)
(** ** Pincode helpers *)

(** [re.sub(r'\D', '', s)] *)
Definition digits_only_of (s : string) : string := filter_string isdigit s.

Definition clean_pincode (pincode : cell) : string :=
  if isna pincode then ""
  else
    let pincode_str := strip (str pincode) in
    let digits_only := digits_only_of pincode_str in
    if String.length digits_only =? 6 then digits_only else "".

Definition extract_pincode_from_text (text : cell) : string :=
  if isna text then ""
  else
    let text := str text in
    match re_search re_six_digits text with
    | Some pincode => pincode
    | None =>
        match re_search re_three_three text with
        | Some m => remove_char "-" (remove_char " " m)
        | None => ""
        end
    end.

(** A pincode: exactly six characters, all of them digits. *)
Definition is_pincode (s : string) : bool :=
  (String.length s =? 6) && forallb_string isdigit s.

(* ================================================================== *)
(** ** Data frames *)

Record DataFrame : Type := mkDF {
  nrows : nat;                          (* len(df) *)
  cols : list (string * list cell)      (* the labelled columns, in order *)
}.

(** [df.columns] *)
Definition columns (df : DataFrame) : list string := map fst (cols df).

(** [df.empty]: one of the two axes has length zero. *)
Definition df_empty (df : DataFrame) : bool :=
  (nrows df =? 0) || (List.length (cols df) =? 0).

(** [name in df.columns] *)
Definition has_column (name : string) (df : DataFrame) : bool :=
  existsb (String.eqb name) (columns df).

Definition labelled (name : string) (c : string * list cell) : bool :=
  String.eqb (fst c) name.

(** What raising an exception leaves behind. *)
Inductive exn : Type :=
| ReadError (msg : string)     (* raised by a reader, with its [str(e)] *)
| KeyError (key : string)
| TypeError
| ValueError
| AttributeError
| ReError                      (* re.error: the pattern does not compile *)
| InvalidIndexError.

Inductive outcome (A : Type) : Type :=
| Done (a : A)
| Raised (e : exn).
Arguments Done {A} a.
Arguments Raised {A} e.

(** [df[name]] for one label; [KeyError] when it is absent.  The frames
    this is used on come from a reader, which makes labels distinct. *)
Definition getitem (name : string) (df : DataFrame) : outcome (list cell) :=
  match find (labelled name) (cols df) with
  | Some c => Done (snd c)
  | None => Raised (KeyError name)
  end.

(** [df[names]] for a list of labels: for each requested label, in the
    order requested, every column carrying it; [KeyError] when a label is
    absent. *)
Definition getitem_list (names : list string) (df : DataFrame) : outcome DataFrame :=
  match find (fun n => negb (has_column n df)) names with
  | Some n => Raised (KeyError n)
  | None =>
      Done (mkDF (nrows df)
                 (flat_map (fun n => filter (labelled n) (cols df)) names))
  end.

(** [df[name] = values]: every column labelled [name] is replaced; a new
    column is appended when there is none. *)
Definition setitem (name : string) (values : list cell) (df : DataFrame) : DataFrame :=
  if has_column name df
  then mkDF (nrows df)
            (map (fun c => if labelled name c then (name, values) else c) (cols df))
  else mkDF (nrows df) (cols df ++ [(name, values)]).

(** [df[name] = v] for a scalar [v], broadcast over the rows. *)
Definition setitem_scalar (name : string) (v : cell) (df : DataFrame) : DataFrame :=
  setitem name (repeat v (nrows df)) df.

(** The values of row [i], one per column ([NaN] past the end). *)
Definition row_values (i : nat) (df : DataFrame) : list cell :=
  map (fun c => nth i (snd c) NaN) (cols df).

(** [df[mask]] for a boolean mask over the rows. *)
Definition keep_masked {A : Type} (mask : list bool) (l : list A) : list A :=
  map snd (filter fst (combine mask l)).

Definition filter_rows (mask : list bool) (df : DataFrame) : DataFrame :=
  mkDF (List.length (filter (fun b : bool => b) mask))
       (map (fun c => (fst c, keep_masked mask (snd c))) (cols df)).

(** [df.iloc[0]]: the first row as a labelled series, and [series.get]. *)
Definition iloc0 (df : DataFrame) : list (string * cell) :=
  map (fun c => (fst c, nth 0 (snd c) NaN)) (cols df).

Definition series_get (key : string) (default : cell) (ser : list (string * cell)) : cell :=
  match find (fun p => String.eqb (fst p) key) ser with
  | Some p => snd p
  | None => default
  end.

(** A Python dict from strings to strings, in insertion order;
    [d[k] = v] overwrites the value of an existing key in place. *)
Fixpoint dict_set (k v : string) (d : list (string * string)) : list (string * string) :=
  match d with
  | [] => [(k, v)]
  | (k', v') :: rest =>
      if String.eqb k' k then (k', v) :: rest else (k', v') :: dict_set k v rest
  end.

Definition dict_get (k : string) (d : list (string * string)) : option string :=
  option_map snd (find (fun p => String.eqb (fst p) k) d).

(** [df.rename(columns=mapping)]: labels that are keys of [mapping] are
    replaced, the others are kept. *)
Definition rename_label (mapping : list (string * string)) (label : string) : string :=
  match dict_get label mapping with
  | Some target => target
  | None => label
  end.

Definition rename (mapping : list (string * string)) (df : DataFrame) : DataFrame :=
  mkDF (nrows df) (map (fun c => (rename_label mapping (fst c), snd c)) (cols df)).

Definition list_string_eqb (a b : list string) : bool :=
  if list_eq_dec string_dec a b then true else false.

Fixpoint nodupb (l : list string) : bool :=
  match l with
  | [] => true
  | x :: r => negb (existsb (String.eqb x) r) && nodupb r
  end.

(** [pd.concat(frames, ignore_index=True)].  Frames with the same labels
    in the same order are stacked column by column.  Otherwise pandas
    aligns on the union of the labels, in order of first appearance and
    with [NaN] where a frame lacks one, which needs every frame's labels
    distinct and raises [InvalidIndexError] when they are not. *)
Definition stack (f g : DataFrame) : DataFrame :=
  mkDF (nrows f + nrows g)
       (map (fun cd => (fst (fst cd), snd (fst cd) ++ snd (snd cd)))
            (combine (cols f) (cols g))).

Definition column_or_nan (name : string) (df : DataFrame) : list cell :=
  match find (labelled name) (cols df) with
  | Some c => snd c
  | None => repeat NaN (nrows df)
  end.

Fixpoint union_labels (seen : list string) (labels : list string) : list string :=
  match labels with
  | [] => []
  | x :: r =>
      if existsb (String.eqb x) seen then union_labels seen r
      else x :: union_labels (x :: seen) r
  end.

Definition concat (frames : list DataFrame) : outcome DataFrame :=
  match frames with
  | [] => Raised ValueError
  | f :: rest =>
      if forallb (fun g => list_string_eqb (columns g) (columns f)) rest
      then Done (fold_left stack rest f)
      else if forallb (fun g => nodupb (columns g)) frames
      then
        let labels := union_labels [] (flat_map columns frames) in
        Done (mkDF (list_sum (map nrows frames))
                   (map (fun n => (n, flat_map (column_or_nan n) frames)) labels))
      else Raised InvalidIndexError
  end.

(* ================================================================== *)
(** ** Column matching *)

Definition possible_names_of (possible_names : string) : list string :=
  map strip (split_Or possible_names).

(** [col.strip().lower() == name.lower()] *)
Definition col_matches (name col : string) : bool :=
  String.eqb (lower (strip col)) (lower name).

Definition get_matching_columns (df : DataFrame) (possible_names : string) : list string :=
  flat_map (fun name => filter (col_matches name) (columns df))
           (possible_names_of possible_names).

Fixpoint first_match (cols : list string) (names : list string) : option string :=
  match names with
  | [] => None
  | name :: rest =>
      match filter (col_matches name) cols with
      | c :: _ => Some c
      | [] => first_match cols rest
      end
  end.

Definition get_single_matching_column (df : DataFrame) (possible_names : string)
  : option string :=
  first_match (columns df) (possible_names_of possible_names).

(** The constants of [merge_customer_files]. *)
Definition column_mappings : list (string * string) :=
  [ ("SL", "SL Or sr Or srno Or SR. NO. Or sr. no.");
    ("Barcode", "Barcode Or Barcodes Or awb Or QR Post Or POD Or pod Or Bar code  Or Bar code");
    ("REF", "REF Or reference Or code Or Reference No. Or Ref.No. Or Notice Ref. No. Or ref_no Or Ref. No.");
    ("AddrePincode", "AddrePincode Or CustAddrePincode Or CustAddrePincode Or Pincode Or Pin code Or Pin Or Pin.Code Or PIN CODE_DPM Or PIN_CODE");
    ("AddreName", "Name Or CustomerName Or name borower Or Customer Name Or CUSTOMER FULL NAME");
    ("AddreCity", "AddreCity Or CustAddreCity Or City Or district Or Dist_ Or Or CUSTADR_CITY Or DISTRICT Or DISTRICT_DPM") ].

Definition address_columns : string :=
  "add 1 Or add 2 Or add 3 Or add_1 Or add_2 Or add_3 Or add1 Or add2 Or add3 Or CustAddreADD1 Or CustAddre_ADD2 Or CustAddre_ADD3 Or  State Or Customeradd1 Or Customeradd2 Or Customeradd3 Or Customeradd4 Or address1 Or address2 Or address3 Or address4 Or Address Or Customer Address Or Add_1 Or add Or ADD1 Or ADD2 Or CUSTOMER ADDRESS 1 Or CUSTOMER ADDRESS 2 Or add_1 Or CUSTOMER_ADDRESS Or  ADDRESS ".

Definition output_columns : list string :=
  [ "SL"; "Barcode"; "REF"; "SenderCity"; "SenderPincode"; "SenderName"; "SenderADD1";
    "SenderADD2"; "SenderADD3"; "AddreCity"; "AddrePincode"; "AddreName"; "AddreADD1";
    "Addre_ADD2"; "Addre_ADD3"; "ADDREMAIL"; "ADDRMOBILE"; "SENDERMOBILE"; "Weight";
    "InsVal"; "PrPdAmount"; "PrPdType"; "FMLisenceId"; "FMSomNo"; "Input File Name"; "Sheet Name" ].

(* ================================================================== *)
(** ** The log *)

(** One constructor per [log_callback] call site, carrying the values the
    message is formatted from. *)
Inductive LogMsg : Type :=
(* load_pin_database *)
| LoadingPinFrom (pin_file_path : string)   (* Loading PIN database from: .. *)
| LoadedTblpincity                          (* Successfully loaded TBLPINCITY sheet from PIN.xlsx *)
| TblpincityNotFound (e : exn)              (* TBLPINCITY sheet not found: .. *)
| TryingFirstSheet                          (* Trying to read the first sheet instead... *)
| UsingSheet (sheet : string)               (* Using sheet: .. *)
| ErrorLoadingPin (e : exn)                 (* Error loading PIN database: .. *)
| Traceback                                 (* traceback.format_exc() *)
| FoundPinColumns (labels : list string)    (* Found columns in PIN file: .. *)
| UsingAsPincode (col : string)             (* Using '..' as pincode column *)
| UsingAsCity (col : string)                (* Using '..' as city column *)
| UsingFirstTwo (pincode_col city_col : string)
                                            (* Using first column '..' as pincode and second column '..' as city *)
| CouldNotIdentify                          (* Error: Could not identify pincode and city columns in PIN file. .. *)
| PinColumnsMissing (pincode_col city_col : string)
                                            (* Error: Pincode column '..' or City column '..' not found in PIN.xlsx. .. *)
| LoadedValid (n : nat)                     (* Loaded .. valid pincodes from PIN database *)
(* merge_customer_files *)
| BaseDirectory (d : string)                (* Base directory: .. *)
| LookingForPin (f : string)                (* Looking for PIN file at: .. *)
| LookingForSender (f : string)             (* Looking for sender details at: .. *)
| ReadingInputFrom (d : string)             (* Reading input files from: .. *)
| OutputWillBeSavedTo (d : string)          (* Output will be saved to: .. *)
| LoadingPin                                (* Loading PIN database... *)
| PinNotLoaded                              (* Error: PIN database not loaded.  Processing stopped. *)
| LoadedSender (n : nat)                    (* Successfully loaded sender details with .. records *)
| ErrorLoadingSender (e : exn)              (* Error loading sender details: .. *)
| InputDirNotFound (d : string)             (* Input directory not found: .. *)
| FoundInputFiles (n : nat)                 (* Found .. input files to process *)
| ProcessingFile (filename : string)        (* \nProcessing file: .. *)
| ErrorReadingExcel (filename : string) (e : exn)   (* Error reading Excel file ..: .. *)
| ErrorReadingCsv (filename : string) (e : exn)     (* Error reading CSV/TXT file ..: .. *)
| SuccessfullyRead (n_rows n_cols : nat)    (* Successfully read file with .. rows and .. columns *)
| ColumnsFound (first5 : list string) (more : bool) (* Columns found: .. *)
| FoundSender (base_filename : string)      (* Found matching sender details for '..' *)
| Mapped (source_col target_col : string)   (* Mapped '..' to '..' *)
| FoundAddressColumns (cols : list string)  (* Found address columns: .. *)
| NoSenderDetails (filename : string)       (* No sender details found for .. *)
| SuccessfullyProcessed (filename : string) (* Successfully processed: .. *)
| ErrorProcessing (filename : string) (e : exn)     (* Error processing ..: .. *)
| SavingOutput (n : nat)                    (* \nSaving output file with .. total records... *)
| OutputSaved (output_file : string)        (* Output saved to: .. *)
| ProcessingSummary                         (* \nProcessing summary: *)
| TotalProcessed (n : nat)                  (* Total files processed successfully: .. *)
| TotalErrors (n : nat)                     (* Total files with errors: .. *)
| NoFilesProcessed                          (* \nNo files were successfully processed. *)
| UnexpectedError (e : exn)                 (* Unexpected error: .. *)
(* process_pincodes_and_cities *)
| ProcessingPincodesAndCities               (* Processing pincodes and cities for the merged dataframe... *)
| ProcessingPincodes                        (* Processing pincodes... *)
| ExtractedPincodes (n : nat)               (* Extracted .. pincodes from address fields *)
| NoPincodeColumn                           (* No AddrePincode column found in the input data *)
| ProcessingCities                          (* Processing cities... *)
| PincodeNotFound (pincode : string)        (* Pincode .. not found in PIN database. *)
| MappedCities (n : nat)                    (* Mapped .. cities from pincodes *)
| NoCityColumn.                             (* No AddreCity column found in the input data *)

(** Code that logs and may raise: the messages delivered, then the
    result or the exception. *)
Definition M (A : Type) : Type := list LogMsg * outcome A.

Definition ret {A : Type} (a : A) : M A := ([], Done a).
Definition raise {A : Type} (e : exn) : M A := ([], Raised e).
Definition tell (l : list LogMsg) : M unit := (l, Done tt).
Definition lift {A : Type} (o : outcome A) : M A := ([], o).

Definition bind {A B : Type} (m : M A) (k : A -> M B) : M B :=
  match m with
  | (l, Done a) => let (l', r) := k a in (l ++ l', r)
  | (l, Raised e) => (l, Raised e)
  end.

Notation "x <- m ;; k" := (bind m (fun x => k))
  (at level 61, m at next level, right associativity).
Notation "m ;;; k" := (bind m (fun _ => k))
  (at level 61, right associativity).

(** A [for] loop over [l] whose body may raise. *)
Fixpoint for_each {S : Type} (body : S -> nat -> outcome S) (l : list nat) (s : S)
  : outcome S :=
  match l with
  | [] => Done s
  | i :: rest =>
      match body s i with
      | Done s' => for_each body rest s'
      | Raised e => Raised e
      end
  end.

(* ================================================================== *)
(** ** The environment *)

Record World : Type := mkWorld {
  (* pd.read_excel(pin_file, sheet_name="TBLPINCITY", dtype=str) *)
  read_pin_tblpincity : outcome DataFrame;
  (* pd.ExcelFile(pin_file).sheet_names[0] and the read of that sheet *)
  read_pin_first_sheet : outcome (string * DataFrame);
  (* pd.read_excel(sender_details_file) *)
  read_sender_details : outcome DataFrame;
  (* os.path.exists(input_directory) *)
  input_directory_exists : bool;
  (* os.listdir(input_directory) *)
  listdir_input : list string;
  (* pd.read_excel(file_path, dtype=str) with the first sheet's name *)
  read_excel : string -> outcome (DataFrame * string);
  (* pd.read_csv(file_path, sep='\t', dtype=str, encoding='utf-8') *)
  read_csv : string -> outcome DataFrame;
  (* the regular-expression engine on patterns with special characters:
     whether the pattern compiles, and re.search with re.IGNORECASE *)
  re_compiles : string -> bool;
  re_search_ignorecase : string -> string -> bool;
  (* pd.Timestamp.now().strftime("%d%m%Y") *)
  today : string
}.

(** [os.path.join(a, b)] on POSIX for a relative [b]. *)
Definition path_join (a b : string) : string :=
  if is_empty a || endswith a "/" then (a ++ b)%string else (a ++ "/" ++ b)%string.

(* ================================================================== *)
(** ** The reference table *)

Record RefEntry : Type := mkRef { Pincode : string; City : string }.

(** The columns of [pin_df] after the exact-match loop: the last label
    equal to PINCODE, the last equal to CITY. *)
Definition exact_columns (labels : list string) : option string * option string :=
  fold_left
    (fun found col =>
       if String.eqb (upper (strip col)) "PINCODE" then (Some col, snd found)
       else if String.eqb (upper (strip col)) "CITY" then (fst found, Some col)
       else found)
    labels (None, None).

(** [not col] for a label or [None]. *)
Definition not_col (c : option string) : bool :=
  match c with None => true | Some s => is_empty s end.

Definition partial_column (needle : string) (labels : list string) : option string :=
  find (fun col => contains needle (upper col)) labels.

(** Lines 86-120: the labels chosen for pincode and city with the
    messages logged on the way; [None] when the function returns the
    empty table. *)
Definition identify_columns (labels : list string)
  : list LogMsg * option (string * string) :=
  let (pincode_col, city_col) := exact_columns labels in
  let (log1, pincode_col) :=
    if not_col pincode_col then
      match partial_column "PIN" labels with
      | Some col => ([UsingAsPincode col], Some col)
      | None => ([], pincode_col)
      end
    else ([], pincode_col) in
  let (log2, city_col) :=
    if not_col city_col then
      match partial_column "CITY" labels with
      | Some col => ([UsingAsCity col], Some col)
      | None => ([], city_col)
      end
    else ([], city_col) in
  if not_col pincode_col || not_col city_col then
    match labels with
    | first :: second :: _ =>
        (log1 ++ log2 ++ [UsingFirstTwo first second], Some (first, second))
    | _ => (log1 ++ log2 ++ [CouldNotIdentify], None)
    end
  else
    match pincode_col, city_col with
    | Some p, Some c => (log1 ++ log2, Some (p, c))
    | _, _ => (log1 ++ log2 ++ [CouldNotIdentify], None)
    end.

(** Lines 128-131: [standard_df]. *)
Definition standard_entry (pc : cell * cell) : RefEntry :=
  {| Pincode := clean_pincode (Str (str (fst pc)));
     City := upper (strip (str (snd pc))) |}.

Definition standard_df (pins cities : list cell) : list RefEntry :=
  map standard_entry (combine pins cities).

(** Line 134: [valid_df]. *)
Definition valid_df (standard : list RefEntry) : list RefEntry :=
  filter (fun e => String.length (Pincode e) =? 6) standard.

(** Lines 67-81: the sheet read, TBLPINCITY first and the first sheet of
    the workbook when that fails; [None] when both reads fail. *)
Definition read_pin_sheet (w : World) : list LogMsg * option DataFrame :=
  match read_pin_tblpincity w with
  | Done pin_df => ([LoadedTblpincity], Some pin_df)
  | Raised e =>
      match read_pin_first_sheet w with
      | Done (sheet, pin_df) =>
          ([TblpincityNotFound e; TryingFirstSheet; UsingSheet sheet], Some pin_df)
      | Raised e2 =>
          ([TblpincityNotFound e; TryingFirstSheet; ErrorLoadingPin e2; Traceback], None)
      end
  end.

Definition load_pin_database (w : World) (pin_file_path : string)
  : list RefEntry * list LogMsg :=
  let log0 := [LoadingPinFrom pin_file_path] in
  match read_pin_sheet w with
  | (log1, None) => ([], log0 ++ log1)
  | (log1, Some pin_df) =>
      let log2 := [FoundPinColumns (columns pin_df)] in
      match identify_columns (columns pin_df) with
      | (log3, None) => ([], log0 ++ log1 ++ log2 ++ log3)
      | (log3, Some (pincode_col, city_col)) =>
          if negb (has_column pincode_col pin_df) || negb (has_column city_col pin_df)
          then ([], log0 ++ log1 ++ log2 ++ log3 ++ [PinColumnsMissing pincode_col city_col])
          else
            match getitem pincode_col pin_df, getitem city_col pin_df with
            | Done pins, Done cities =>
                let valid := valid_df (standard_df pins cities) in
                (valid, log0 ++ log1 ++ log2 ++ log3 ++ [LoadedValid (List.length valid)])
            | Raised e, _ | _, Raised e =>
                ([], log0 ++ log1 ++ log2 ++ log3 ++ [ErrorLoadingPin e; Traceback])
            end
      end
  end.

(* ================================================================== *)
(** ** The post-merge pass *)

Fixpoint update {A : Type} (i : nat) (v : A) (l : list A) : list A :=
  match l, i with
  | [], _ => []
  | _ :: r, 0 => v :: r
  | x :: r, S j => x :: update j v r
  end.

(** [df.at[i, name] = v] for a row [i] of the frame. *)
Definition set_at (i : nat) (name : string) (v : cell) (df : DataFrame) : DataFrame :=
  mkDF (nrows df)
       (map (fun c => if labelled name c then (fst c, update i v (snd c)) else c)
            (cols df)).

(** The one column labelled [name].  With a repeated label pandas hands
    back a frame instead of a series, and the caller's use of it raises
    [ambiguous]. *)
Definition unique_column (ambiguous : exn) (name : string) (df : DataFrame)
  : outcome (list cell) :=
  match filter (labelled name) (cols df) with
  | [] => Raised (KeyError name)
  | [c] => Done (snd c)
  | _ => Raised ambiguous
  end.

(** [pin_df[pin_df['Pincode'] == pincode]], then [match.iloc[0]['City']]
    when the match is not empty. *)
Definition lookup_city (pin_df : list RefEntry) (pincode : cell) : option string :=
  option_map City (find (fun e => cell_eqb (Str (Pincode e)) pincode) pin_df).

(** Lines 355-362: the address columns of row [i], in order, up to the
    first extraction that is not empty. *)
Fixpoint scan_address (sources : list (outcome (list cell))) (i : nat) : outcome string :=
  match sources with
  | [] => Done ""
  | Raised e :: _ => Raised e
  | Done col :: rest =>
      let pin := extract_pincode_from_text (nth i col NaN) in
      if negb (is_empty pin) then Done pin else scan_address rest i
  end.

(** The address columns the frame has, as [row.get] reads them. *)
Definition address_sources (df : DataFrame) : list (outcome (list cell)) :=
  map (fun col => unique_column ValueError col df)
      (filter (fun col => has_column col df) ["AddreADD1"; "Addre_ADD2"; "Addre_ADD3"]).

(** Lines 353-362, one row.  [pins] and [sources] are the values
    [iterrows] yields, read when the loop starts. *)
Definition extract_row (pins : list cell) (sources : list (outcome (list cell)))
  (st : DataFrame * nat) (i : nat) : outcome (DataFrame * nat) :=
  if negb (truthy (nth i pins NaN)) then
    match scan_address sources i with
    | Raised e => Raised e
    | Done pin =>
        if negb (is_empty pin)
        then Done (set_at i "AddrePincode" (Str pin) (fst st), snd st + 1)
        else Done st
    end
  else Done st.

(** Lines 375-382, one row. *)
Definition city_row (pin_df : list RefEntry) (cities pins : list cell)
  (st : DataFrame * nat * list LogMsg) (i : nat) : DataFrame * nat * list LogMsg :=
  let '(df, city_found_count, log) := st in
  let city := nth i cities NaN in
  let pin := nth i pins NaN in
  if (negb (truthy city) || cell_eqb city (Str "")) && truthy pin then
    match lookup_city pin_df pin with
    | Some c => (set_at i "AddreCity" (Str c) df, city_found_count + 1, log)
    | None => (df, city_found_count, log ++ [PincodeNotFound (str pin)])
    end
  else st.

(** Lines 346-366: the pincodes are cleaned, and a row without one takes
    the first pincode found in its address columns. *)
Definition process_pincodes (df : DataFrame) : M DataFrame :=
  if has_column "AddrePincode" df then
    tell [ProcessingPincodes] ;;;
    col <- lift (unique_column ValueError "AddrePincode" df) ;;
    let df := setitem "AddrePincode"
                (map (fun v => Str (clean_pincode (Str (str (fillna_empty v))))) col) df in
    pins <- lift (unique_column ValueError "AddrePincode" df) ;;
    st <- lift (for_each (extract_row pins (address_sources df))
                         (seq 0 (nrows df)) (df, 0)) ;;
    tell [ExtractedPincodes (snd st)] ;;;
    ret (fst st)
  else
    tell [NoPincodeColumn] ;;;
    ret (setitem_scalar "AddrePincode" (Str "") df).

(** Lines 368-386: a row without a city takes the city of its pincode. *)
Definition process_cities (pin_df : list RefEntry) (df : DataFrame) : M DataFrame :=
  if has_column "AddreCity" df then
    tell [ProcessingCities] ;;;
    col <- lift (unique_column AttributeError "AddreCity" df) ;;
    let df := setitem "AddreCity"
                (map (fun v => Str (strip (str (fillna_empty v)))) col) df in
    cities <- lift (unique_column ValueError "AddreCity" df) ;;
    pins <- lift (unique_column ValueError "AddrePincode" df) ;;
    let st := fold_left (city_row pin_df cities pins) (seq 0 (nrows df)) (df, 0, []) in
    tell (snd st) ;;;
    tell [MappedCities (snd (fst st))] ;;;
    ret (fst (fst st))
  else
    tell [NoCityColumn] ;;;
    ret (setitem_scalar "AddreCity" (Str "") df).

Definition process_pincodes_and_cities (df : DataFrame) (pin_df : list RefEntry)
  : M DataFrame :=
  tell [ProcessingPincodesAndCities] ;;;
  df <- process_pincodes df ;;
  process_cities pin_df df.

(* ================================================================== *)
(** ** Per-file enrichment *)

(** [filename.split('-')[0].split('.')[0].strip()] *)
Definition base_filename_of (filename : string) : string :=
  strip (split_head "." (split_head "-" filename)).

(** The characters that make a pattern more than a literal. *)
Definition regex_special (c : ascii) : bool :=
  existsb (Ascii.eqb c) (list_ascii_of_string ".^$*+?{}[]\|()").

Definition is_literal_pattern (pat : string) : bool :=
  forallb_string (fun c => negb (regex_special c)) pat.

Definition is_text (v : cell) : bool :=
  match v with Str _ => true | _ => false end.

(** [series.str]: the accessor exists for a series that holds a string
    (and for one without elements); on a series of numbers and missing
    values only, pandas raises [AttributeError]. *)
Definition has_str_accessor (series : list cell) : bool :=
  match series with
  | [] => true
  | _ => existsb is_text series
  end.

(** [series.str.contains(pat, na=False, case=False)]: one boolean per
    element.  The accessor comes first, then the pattern, which is a
    regular expression; one without special characters matches where it
    occurs, letter case aside.  Elements that are not strings count as no
    match. *)
Definition str_contains (w : World) (pat : string) (series : list cell)
  : outcome (list bool) :=
  if negb (has_str_accessor series) then Raised AttributeError
  else if is_literal_pattern pat then
    Done (map (fun v => match v with
                        | Str s => contains (lower pat) (lower s)
                        | _ => false
                        end) series)
  else if re_compiles w pat then
    Done (map (fun v => match v with
                        | Str s => re_search_ignorecase w pat s
                        | _ => false
                        end) series)
  else Raised ReError.

(** Lines 239-241: [sender_row]. *)
Definition find_sender_row (w : World) (sender_details : DataFrame)
  (base_filename : string) : outcome DataFrame :=
  if negb (df_empty sender_details) then
    match getitem "File Name Contain" sender_details with
    | Raised e => Raised e
    | Done keys =>
        match str_contains w base_filename keys with
        | Raised e => Raised e
        | Done mask => Done (filter_rows mask sender_details)
        end
    end
  else Done (mkDF 0 []).

(** Lines 247-252: [actual_mapping] and the messages of the loop. *)
Definition build_mapping (current_df : DataFrame)
  : list (string * string) * list LogMsg :=
  fold_left
    (fun acc entry =>
       match get_single_matching_column current_df (snd entry) with
       | Some source_col =>
           if negb (is_empty source_col)
           then (dict_set source_col (fst entry) (fst acc),
                 snd acc ++ [Mapped source_col (fst entry)])
           else acc
       | None => acc
       end)
    column_mappings ([], []).

(** [', '.join(filter(None, x))] on one row: the false values are
    dropped; [TypeError] when a value kept is not a string. *)
Definition join_row (x : list cell) : outcome cell :=
  let kept := filter truthy x in
  if forallb (fun v => match v with Str _ => true | _ => false end) kept
  then Done (Str (join ", " (map str kept)))
  else Raised TypeError.

Fixpoint sequence {A : Type} (l : list (outcome A)) : outcome (list A) :=
  match l with
  | [] => Done []
  | Raised e :: _ => Raised e
  | Done a :: rest =>
      match sequence rest with
      | Done r => Done (a :: r)
      | Raised e => Raised e
      end
  end.

Definition strip_cell (v : cell) : cell :=
  match v with Str s => Str (strip s) | _ => v end.

(** Lines 267-269: the series assigned to [AddreADD1].  On a frame
    without rows [apply(..., axis=1)] returns a frame, not a series, and
    [.str] on it raises [AttributeError]. *)
Definition address_series (address_cols : list string) (current_df : DataFrame)
  : outcome (list cell) :=
  match getitem_list address_cols current_df with
  | Raised e => Raised e
  | Done sub =>
      if nrows current_df =? 0 then Raised AttributeError
      else
        match sequence (map (fun i => join_row (map fillna_empty (row_values i sub)))
                            (seq 0 (nrows current_df))) with
        | Raised e => Raised e
        | Done joined => Done (map strip_cell joined)
        end
  end.

Definition sender_fields : list string :=
  ["SenderCity"; "SenderPincode"; "SenderName"; "SenderADD1"; "SenderADD2"; "SenderADD3"].

(** Lines 271-287: the sender information. *)
Definition add_sender_information (sender_row : DataFrame) (filename : string)
  (current_df : DataFrame) : M DataFrame :=
  if negb (df_empty sender_row) then
    let sender_info := iloc0 sender_row in
    ret (fold_left
           (fun df field => setitem_scalar field (series_get field (Str "") sender_info) df)
           sender_fields current_df)
  else
    tell [NoSenderDetails filename] ;;;
    ret (fold_left (fun df field => setitem_scalar field (Str "") df)
                   sender_fields current_df).

(** Lines 293-295: every output column exists. *)
Definition ensure_columns (names : list string) (df : DataFrame) : DataFrame :=
  fold_left
    (fun df col => if negb (has_column col df) then setitem_scalar col (Str "") df else df)
    names df.

Definition ensure_output_columns (current_df : DataFrame) : DataFrame :=
  ensure_columns output_columns current_df.

(** Lines 246-261: the columns found by alias are renamed to their
    targets.  ([rename] with a dict raises no [KeyError].) *)
Definition map_columns (current_df : DataFrame) : M DataFrame :=
  let (actual_mapping, mapped) := build_mapping current_df in
  tell mapped ;;;
  ret (match actual_mapping with
       | [] => current_df
       | _ => rename actual_mapping current_df
       end).

(** Lines 263-269: the address columns, joined into [AddreADD1]. *)
Definition process_address_columns (current_df : DataFrame) : M DataFrame :=
  let address_cols := get_matching_columns current_df address_columns in
  match address_cols with
  | [] => ret current_df
  | _ =>
      tell [FoundAddressColumns address_cols] ;;;
      series <- lift (address_series address_cols current_df) ;;
      ret (setitem "AddreADD1" series current_df)
  end.

(** Lines 289-299: the sequence numbers, the missing output columns and
    the file's name and sheet. *)
Definition complete_columns (filename sheet_name : string) (current_df : DataFrame)
  : DataFrame :=
  let current_df :=
    setitem "SL" (map (fun n => Num (Z.of_nat n)) (seq 1 (nrows current_df))) current_df in
  let current_df := ensure_output_columns current_df in
  let current_df := setitem_scalar "Input File Name" (Str filename) current_df in
  setitem_scalar "Sheet Name" (Str sheet_name) current_df.

(** Lines 244-302: the body of [if not sender_row.empty], up to the
    frame that is appended. *)
Definition enrich (sender_row : DataFrame) (filename sheet_name base_filename : string)
  (current_df : DataFrame) : M DataFrame :=
  tell [FoundSender base_filename] ;;;
  current_df <- map_columns current_df ;;
  current_df <- process_address_columns current_df ;;
  current_df <- add_sender_information sender_row filename current_df ;;
  lift (getitem_list output_columns (complete_columns filename sheet_name current_df)).

(* ================================================================== *)
(** ** The merge loop *)

Record LoopState : Type := mkLoop {
  merged_dataframes : list DataFrame;
  processed_count : nat;
  error_count : nat;
  loop_log : list LogMsg
}.

Definition log_to (st : LoopState) (l : list LogMsg) : LoopState :=
  mkLoop (merged_dataframes st) (processed_count st) (error_count st) (loop_log st ++ l).

Definition count_error (st : LoopState) : LoopState :=
  mkLoop (merged_dataframes st) (processed_count st) (error_count st + 1) (loop_log st).

Definition append_frame (df : DataFrame) (st : LoopState) : LoopState :=
  mkLoop (merged_dataframes st ++ [df]) (processed_count st + 1) (error_count st)
         (loop_log st).

(** Lines 215-232: the read of one input file, or the message of its
    [except]. *)
Definition read_input (w : World) (filename : string)
  : (DataFrame * string) + LogMsg :=
  if endswith_any filename [".xlsx"; ".xls"] then
    match read_excel w filename with
    | Done r => inl r
    | Raised e => inr (ErrorReadingExcel filename e)
    end
  else
    match read_csv w filename with
    | Done current_df => inl (current_df, "")
    | Raised e => inr (ErrorReadingCsv filename e)
    end.

(** Lines 234-305: what follows a successful read, inside the file's
    [try]. *)
Definition after_read (w : World) (sender_details : DataFrame) (filename : string)
  (current_df : DataFrame) (sheet_name : string) : M (option DataFrame) :=
  tell [SuccessfullyRead (nrows current_df) (List.length (columns current_df));
        ColumnsFound (firstn 5 (columns current_df))
                     (5 <? List.length (columns current_df))] ;;;
  let base_filename := base_filename_of filename in
  sender_row <- lift (find_sender_row w sender_details base_filename) ;;
  if negb (df_empty sender_row) then
    current_df <- enrich sender_row filename sheet_name base_filename current_df ;;
    ret (Some current_df)
  else ret None.

(** Lines 210-310: one iteration of the loop over the input files. *)
Definition process_file (w : World) (sender_details : DataFrame)
  (st : LoopState) (filename : string) : LoopState :=
  let st := log_to st [ProcessingFile filename] in
  match read_input w filename with
  | inr msg => count_error (log_to st [msg; Traceback])
  | inl (current_df, sheet_name) =>
      match after_read w sender_details filename current_df sheet_name with
      | (l, Done (Some df)) =>
          log_to (append_frame df (log_to st l)) [SuccessfullyProcessed filename]
      | (l, Done None) => log_to st l
      | (l, Raised e) => count_error (log_to st (l ++ [ErrorProcessing filename e; Traceback]))
      end
  end.

Record RunResult : Type := mkRun {
  run_log : list LogMsg;                      (* every message delivered *)
  written : option (string * DataFrame)       (* the file written, if any *)
}.

(** Lines 313-329: after the loop. *)
Definition write_output (w : World) (output_directory : string)
  (pin_df : list RefEntry) (st : LoopState) : RunResult :=
  match merged_dataframes st with
  | [] => mkRun (loop_log st ++ [NoFilesProcessed]) None
  | _ =>
      match (final_df <- lift (concat (merged_dataframes st)) ;;
             process_pincodes_and_cities final_df pin_df) with
      | (l, Raised e) => mkRun (loop_log st ++ l ++ [UnexpectedError e; Traceback]) None
      | (l, Done final_df) =>
          let output_file :=
            path_join output_directory ("Output-Post_File_" ++ today w ++ ".xlsx")%string in
          mkRun (loop_log st ++ l ++
                 [SavingOutput (nrows final_df); OutputSaved output_file;
                  ProcessingSummary; TotalProcessed (processed_count st);
                  TotalErrors (error_count st)])
                (Some (output_file, final_df))
      end
  end.

Definition sender_details_columns : list string :=
  ["File Name Contain"; "SenderCity"; "SenderPincode"; "SenderName";
   "SenderADD1"; "SenderADD2"; "SenderADD3"].

(** Lines 189-195: the sender table, empty when the read fails. *)
Definition load_sender_details (w : World) : DataFrame * list LogMsg :=
  match read_sender_details w with
  | Done sender_details => (sender_details, [LoadedSender (nrows sender_details)])
  | Raised e =>
      (mkDF 0 (map (fun c => (c, [])) sender_details_columns),
       [ErrorLoadingSender e; Traceback])
  end.

Definition input_files_of (w : World) : list string :=
  filter (fun f => endswith_any f [".txt"; ".csv"; ".xlsx"; ".xls"]) (listdir_input w).

(** Lines 209-310: the loop over the input files. *)
Definition process_files (w : World) (sender_details : DataFrame)
  (input_files : list string) (st : LoopState) : LoopState :=
  fold_left (process_file w sender_details) input_files st.

(** Lines 156-160 and 182: the messages before the reference table is
    loaded. *)
Definition preamble (base_directory : string) : list LogMsg :=
  [BaseDirectory base_directory;
   LookingForPin (path_join base_directory "PIN.xlsx");
   LookingForSender (path_join base_directory "Sender Address.xlsx");
   ReadingInputFrom (path_join base_directory "Input");
   OutputWillBeSavedTo (path_join base_directory "Output");
   LoadingPin].

Definition merge_customer_files (w : World) (base_directory : string) : RunResult :=
  let input_directory := path_join base_directory "Input" in
  let output_directory := path_join base_directory "Output" in
  let pin_file := path_join base_directory "PIN.xlsx" in
  let log0 := preamble base_directory in
  let (pin_df, log_pin) := load_pin_database w pin_file in
  match pin_df with
  | [] => mkRun (log0 ++ log_pin ++ [PinNotLoaded]) None
  | _ =>
      let (sender_details, log_sender) := load_sender_details w in
      if negb (input_directory_exists w) then
        mkRun (log0 ++ log_pin ++ log_sender ++ [InputDirNotFound input_directory]) None
      else
        let input_files := input_files_of w in
        let st0 := mkLoop [] 0 0
                     (log0 ++ log_pin ++ log_sender ++
                      [FoundInputFiles (List.length input_files)]) in
        write_output w output_directory pin_df
          (process_files w sender_details input_files st0)
  end.

(* ================================================================== *)
(** ** Notions used in the statements *)

(** Every column of [df] labelled [name] holds [values]. *)
Definition column_is (name : string) (values : list cell) (df : DataFrame) : Prop :=
  forall c, In c (cols df) -> fst c = name -> snd c = values.

(** A run of scalar assignments [df[field] = val field]. *)
Definition assign_all (val : string -> cell) (fields : list string) (df : DataFrame)
  : DataFrame :=
  fold_left (fun df field => setitem_scalar field (val field) df) fields df.

(** How often a label occurs among the columns. *)
Definition occurrences (name : string) (df : DataFrame) : nat :=
  List.length (filter (labelled name) (cols df)).

(** The frame after the renaming of lines 246-261. *)
Definition renamed (current_df : DataFrame) : DataFrame :=
  match fst (build_mapping current_df) with
  | [] => current_df
  | mapping => rename mapping current_df
  end.

Definition SL_values (n : nat) : list cell :=
  map (fun k => Num (Z.of_nat k)) (seq 1 n).

(** The text a cell contributes to the joined address. *)
Definition part_text (v : cell) : string :=
  match v with Str s => s | _ => "" end.

Definition nonempty (s : string) : bool := negb (is_empty s).

(** The cells of row [i] in the columns labelled by [names], taken label
    by label in the order of [names]. *)
Definition cells_of_row (names : list string) (i : nat) (df : DataFrame) : list cell :=
  map (fun c => nth i (snd c) NaN)
      (flat_map (fun n => filter (labelled n) (cols df)) names).

Definition sender_value (sender_row : DataFrame) (field : string) : cell :=
  series_get field (Str "") (iloc0 sender_row).

(** The six sender columns of [out] are copies of the first row of
    [sender_row]. *)
Definition sender_copied (sender_row out : DataFrame) : Prop :=
  forall field, In field sender_fields ->
    has_column field out = true
    /\ column_is field (repeat (sender_value sender_row field) (nrows out)) out.

(** [AddreADD1] of [out] is, row by row, the non-empty texts of the
    matched address columns of [source] joined with a comma and a space,
    then trimmed. *)
Definition address_joined (source out : DataFrame) : Prop :=
  let matched := get_matching_columns source address_columns in
  matched <> [] ->
  exists series,
    has_column "AddreADD1" out = true
    /\ column_is "AddreADD1" series out
    /\ List.length series = nrows out
    /\ forall i, i < nrows out ->
         nth i series NaN =
         Str (strip (join ", "
                (filter nonempty (map part_text (cells_of_row matched i source))))).

(** The labels the pipeline assigns itself. *)
Definition assigned_labels (source : DataFrame) : list string :=
  sender_fields ++ ["SL"; "Input File Name"; "Sheet Name"] ++
  match get_matching_columns source address_columns with
  | [] => []
  | _ => ["AddreADD1"]
  end.

(** An output column that is neither assigned nor present in [source] is
    blank in [out]. *)
Definition blanks_defaulted (source out : DataFrame) : Prop :=
  forall c, In c output_columns -> ~ In c (assigned_labels source) ->
            has_column c source = false ->
            has_column c out = true
            /\ column_is c (repeat (Str "") (nrows out)) out.

(** The labels of the output columns, in order, each at least once. *)
Definition canonical_labels (labels : list string) : Prop :=
  exists times : string -> nat,
    labels = flat_map (fun c => repeat c (times c)) output_columns
    /\ forall c, In c output_columns -> 1 <= times c.

(** The frames one input file adds to [merged_dataframes]: one when the
    file is read, a sender matches and the enrichment raises nothing,
    none otherwise. *)
Definition contribution (w : World) (sender_details : DataFrame) (filename : string)
  : list DataFrame :=
  match read_input w filename with
  | inr _ => []
  | inl (current_df, sheet_name) =>
      match after_read w sender_details filename current_df sheet_name with
      | (_, Done (Some df)) => [df]
      | _ => []
      end
  end.

(** Where an appended frame comes from. *)
Definition appended_from (w : World) (sender_details : DataFrame) (filename : string)
  (current_df sender_row out : DataFrame) : Prop :=
  exists sheet_name l,
    read_input w filename = inl (current_df, sheet_name)
    /\ find_sender_row w sender_details (base_filename_of filename) = Done sender_row
    /\ df_empty sender_row = false
    /\ enrich sender_row filename sheet_name (base_filename_of filename) current_df
       = (l, Done out).

(** [out] has the rows and labels of [df], and the data of every column
    whose label is not in [names]. *)
Definition modified_only (names : list string) (df out : DataFrame) : Prop :=
  nrows out = nrows df
  /\ Forall2 (fun c c' => fst c' = fst c /\ (~ In (fst c) names -> c' = c))
             (cols df) (cols out).


(** The frames appended over the whole loop. *)
Definition merged_batch (w : World) : list DataFrame :=
  flat_map (contribution w (fst (load_sender_details w))) (input_files_of w).

(** The claim's reading of the matcher: the table's columns that match
    some alias, in table order. *)
Definition matching_in_table_order (df : DataFrame) (possible_names : string)
  : list string :=
  filter (fun col => existsb (fun name => col_matches name col)
                             (possible_names_of possible_names))
         (columns df).

(** The claim's reading of the joined address of row [i]: every matched
    column, a missing value as the empty string, in table order. *)
Definition joined_as_claimed (df : DataFrame) (i : nat) : string :=
  strip (join ", "
           (map part_text
                (cells_of_row (matching_in_table_order df address_columns) i df))).

Definition is_no_sender (m : LogMsg) : bool :=
  match m with NoSenderDetails _ => true | _ => false end.

(** No message of [l] comes from the branch of line 281. *)
Definition quiet (l : list LogMsg) : Prop :=
  forallb (fun m => negb (is_no_sender m)) l = true.

(** [key] occurs in [s], letter case aside. *)
Definition occurs_ignorecase (key s : string) : Prop :=
  exists before after, lower s = (before ++ lower key ++ after)%string.

(** The same environment with another directory listing. *)
Definition with_listing (w : World) (listing : list string) : World :=
  mkWorld (read_pin_tblpincity w) (read_pin_first_sheet w) (read_sender_details w)
          (input_directory_exists w) listing (read_excel w) (read_csv w)
          (re_compiles w) (re_search_ignorecase w) (today w).

(** What a match of a pattern looks like: one character per class, in
    order, an optional class contributing one character or none. *)
Fixpoint item_shape (pat : list re_item) (m : string) : Prop :=
  match pat with
  | [] => m = ""
  | Bnd :: pat' => item_shape pat' m
  | Cls p :: pat' => exists c r, m = String c r /\ p c = true /\ item_shape pat' r
  | Opt p :: pat' =>
      item_shape pat' m
      \/ exists c r, m = String c r /\ p c = true /\ item_shape pat' r
  end.

(** Three digits, a whitespace character other than the space, three
    digits. *)
Definition odd_pincode (r : string) : Prop :=
  exists c1 c2 c3 sep c4 c5 c6,
    r = String c1 (String c2 (String c3 (String sep
          (String c4 (String c5 (String c6 ""))))))
    /\ forallb isdigit [c1; c2; c3; c4; c5; c6] = true
    /\ isspace sep = true /\ sep <> " "%char.

(** The values [extract_pincode_from_text] can return. *)
Definition extracted_shape (r : string) : Prop :=
  r = "" \/ is_pincode r = true \/ odd_pincode r.

Definition pincode_cell_ok (v : cell) : Prop :=
  exists s, v = Str s /\ extracted_shape s.

(** Every [AddrePincode] column of [df] holds such values only. *)
Definition pincode_column_ok (df : DataFrame) : Prop :=
  forall c, In c (cols df) -> fst c = "AddrePincode" -> Forall pincode_cell_ok (snd c).




(** The position of the first row a mask keeps. *)
Fixpoint first_true (mask : list bool) : option nat :=
  match mask with
  | [] => None
  | true :: _ => Some 0
  | false :: rest => option_map S (first_true rest)
  end.

(** The value of [field] in row [k] of [table]; the empty string when the
    table has no column of that label. *)
Definition field_of_row (table : DataFrame) (k : nat) (field : string) : cell :=
  match find (labelled field) (cols table) with
  | Some c => nth k (snd c) NaN
  | None => Str ""
  end.

(* ================================================================== *)
(** ** Further notions used in the statements *)

(** The errors one input file adds to [error_count]: one when its read
    fails or its processing raises, none otherwise. *)
Definition file_errors (w : World) (sender_details : DataFrame) (filename : string)
  : nat :=
  match read_input w filename with
  | inr _ => 1
  | inl (current_df, sheet_name) =>
      match after_read w sender_details filename current_df sheet_name with
      | (_, Raised _) => 1
      | _ => 0
      end
  end.

(** The path of the file a run under [base_directory] writes. *)
Definition output_file_of (w : World) (base_directory : string) : string :=
  path_join (path_join base_directory "Output")
            ("Output-Post_File_" ++ today w ++ ".xlsx")%string.

(** [f] applied to the data of every column labelled [name]. *)
Definition map_column (name : string) (f : list cell -> list cell) (df : DataFrame)
  : DataFrame :=
  mkDF (nrows df)
       (map (fun c => if labelled name c then (fst c, f (snd c)) else c) (cols df)).

(** A loop that writes [value i], when there is one, at position [i]. *)
Definition write_each (value : nat -> option cell) (col : list cell) (i : nat)
  : list cell :=
  match value i with
  | Some v => update i v col
  | None => col
  end.

(** The city of a row after lines 375-382: looked up from the pincode
    when the city is empty, the pincode is not, and the table has it. *)
Definition backfilled_city (pin_df : list RefEntry) (city pin : cell) : cell :=
  if (negb (truthy city) || cell_eqb city (Str "")) && truthy pin then
    match lookup_city pin_df pin with
    | Some c => Str c
    | None => city
    end
  else city.



Definition stripped_city (v : cell) : cell :=
  Str (strip (str (fillna_empty v))).

(** The value the city loop writes at row [i], if any. *)
Definition city_value (pin_df : list RefEntry) (cities pins : list cell) (i : nat)
  : option cell :=
  if (negb (truthy (nth i cities NaN)) || cell_eqb (nth i cities NaN) (Str ""))
     && truthy (nth i pins NaN)
  then option_map Str (lookup_city pin_df (nth i pins NaN))
  else None.


(* ================================================================== *)
(** ** Concrete inputs used below *)

(** A regular-expression engine for the patterns made of literal
    characters, each optionally followed by [+]; it rejects every other
    pattern with special characters. *)
Fixpoint parse_plus (pat : string) : option (list (ascii * bool)) :=
  match pat with
  | EmptyString => Some []
  | String c r =>
      if regex_special c then None
      else
        match r with
        | String "+" r' => option_map (cons (c, true)) (parse_plus r')
        | _ => option_map (cons (c, false)) (parse_plus r)
        end
  end.

Definition same_letter (a b : ascii) : bool := Ascii.eqb (to_lower a) (to_lower b).

Fixpoint match_plus (items : list (ascii * bool)) (s : string) : bool :=
  match items with
  | [] => true
  | (c, false) :: rest =>
      match s with
      | String a r => same_letter a c && match_plus rest r
      | EmptyString => false
      end
  | (c, true) :: rest =>
      (fix many (s : string) : bool :=
         match s with
         | String a r => same_letter a c && (many r || match_plus rest r)
         | EmptyString => false
         end) s
  end.

Fixpoint search_plus (items : list (ascii * bool)) (s : string) : bool :=
  match_plus items s ||
  match s with
  | EmptyString => false
  | String _ r => search_plus items r
  end.

Definition plus_compiles (pat : string) : bool :=
  match parse_plus pat with Some _ => true | None => false end.

Definition plus_search (pat s : string) : bool :=
  match parse_plus pat with Some items => search_plus items s | None => false end.

Definition LF : string := String (ascii_of_nat 10) "".

Definition sample_pin_sheet : DataFrame :=
  mkDF 3 [("Pincode", [Str "100000"; Str "100000"; Str "4000"]);
          ("City", [Str " Mumbai"; Str "Delhi"; Str "Pune"])].

Definition sample_senders : DataFrame :=
  mkDF 2 [("File Name Contain", [Str "ACME Corp"; Str "AAB Traders"]);
          ("SenderCity", [Str "Pune"; Str "Nagpur"]);
          ("SenderPincode", [Num 411001; Num 440001]);
          ("SenderName", [Str "Acme"; Str "Aab"]);
          ("SenderADD1", [Str "1 Main Road"; Str "2 Ring Road"]);
          ("SenderADD2", [NaN; NaN]);
          ("SenderADD3", [NaN; NaN])].

Definition sample_input : DataFrame :=
  mkDF 2 [("Name", [Str "Asha"; Str "Ravi"]);
          ("add 2", [Str "near 100 000"; NaN]);
          ("add 1", [Str "Flat 4"; Str ("MG Road 400" ++ LF ++ "001")%string]);
          ("Address", [NaN; Str "Thane"])].

Definition sample_world (listing : list string) : World :=
  mkWorld (Done sample_pin_sheet)
          (Raised (ReadError "no sheets"))
          (Done sample_senders)
          true
          listing
          (fun _ => Raised (ReadError "not a workbook"))
          (fun _ => Done sample_input)
          plus_compiles plus_search
          "03112026".

(** The same directory with no readable reference workbook. *)
Definition world_without_pin : World :=
  mkWorld (Raised (ReadError "No such file"))
          (Raised (ReadError "No such file"))
          (Done sample_senders) true ["acme-1.txt"]
          (fun _ => Raised (ReadError "not a workbook"))
          (fun _ => Done sample_input)
          plus_compiles plus_search "03112026".

(** The frame appended for [acme-1.txt]. *)
Definition sample_appended : DataFrame :=
  Eval vm_compute in
    match merged_batch (sample_world ["acme-1.txt"]) with
    | out :: _ => out
    | [] => mkDF 0 []
    end.

(** A table with both [srno] and [sr. no.] columns. *)
Definition two_serial_columns : DataFrame :=
  mkDF 1 [("sr. no.", [Str "7"]); ("SRNO", [Str "9"])].

(** The sample directory with an unreadable workbook beside the text
    file. *)
Definition world_with_corrupt_file : World :=
  sample_world ["broken.xlsx"; "acme-1.txt"].

(** The sample directory without a sender workbook. *)
Definition world_without_senders : World :=
  mkWorld (Done sample_pin_sheet) (Raised (ReadError "no sheets"))
          (Raised (ReadError "No such file")) true ["acme-1.txt"]
          (fun _ => Raised (ReadError "not a workbook"))
          (fun _ => Done sample_input)
          plus_compiles plus_search "03112026".

(** A sender table whose keys are numbers. *)
Definition numeric_keys : DataFrame :=
  mkDF 2 [("File Name Contain", [Num 12345; Num 678]);
          ("SenderCity", [Str "Pune"; Str "Nagpur"])].

(** A sender workbook without the [File Name Contain] column. *)
Definition world_without_key_column : World :=
  mkWorld (Done sample_pin_sheet) (Raised (ReadError "no sheets"))
          (Done (mkDF 1 [("SenderCity", [Str "Pune"])])) true ["acme-1.txt"]
          (fun _ => Raised (ReadError "not a workbook"))
          (fun _ => Done sample_input)
          plus_compiles plus_search "03112026".




(** A sender workbook that has the key column and none of the six sender
    columns. *)
Definition keys_only : DataFrame :=
  mkDF 1 [("File Name Contain", [Str "ACME Corp"])].

Definition world_with_keys_only : World :=
  mkWorld (Done sample_pin_sheet) (Raised (ReadError "no sheets"))
          (Done keys_only) true ["acme-1.txt"]
          (fun _ => Raised (ReadError "not a workbook"))
          (fun _ => Done sample_input)
          plus_compiles plus_search "03112026".

(** A text file that has a header and no rows. *)
Definition header_only : DataFrame :=
  mkDF 0 [("Name", []); ("add 1", [])].

Definition world_with_header_only : World :=
  mkWorld (Done sample_pin_sheet) (Raised (ReadError "no sheets"))
          (Done sample_senders) true ["acme-0.txt"; "acme-1.txt"]
          (fun _ => Raised (ReadError "not a workbook"))
          (fun f => if String.eqb f "acme-0.txt" then Done header_only else Done sample_input)
          plus_compiles plus_search "03112026".

(* ================================================================== *)
(** * Properties *)

(** ** Pincode helpers *)

Lemma isspace_not_digit (c : ascii) : isspace c = true -> isdigit c = false.
Proof.
  destruct c as [[] [] [] [] [] [] [] []]; vm_compute; intro H;
    first [reflexivity | discriminate H].
Qed.

Lemma digits_lstrip (s : string) : digits_only_of (lstrip s) = digits_only_of s.
Proof.
  induction s as [|c r IH]; simpl; [reflexivity|].
  destruct (isspace c) eqn:Hc; [|reflexivity].
  unfold digits_only_of in *; simpl.
  now rewrite (isspace_not_digit c Hc).
Qed.

Lemma digits_rstrip (s : string) : digits_only_of (rstrip s) = digits_only_of s.
Proof.
  unfold digits_only_of.
  induction s as [|c r IH]; simpl; [reflexivity|].
  destruct (isspace c) eqn:Hc; simpl.
  - rewrite (isspace_not_digit c Hc).
    destruct (rstrip r) eqn:Hr; simpl in *.
    + exact IH.
    + rewrite (isspace_not_digit c Hc). exact IH.
  - now rewrite IH.
Qed.

Lemma digits_strip (s : string) : digits_only_of (strip s) = digits_only_of s.
Proof. unfold strip. now rewrite digits_rstrip, digits_lstrip. Qed.

Lemma forallb_filter_string (p : ascii -> bool) (s : string) :
  forallb_string p (filter_string p s) = true.
Proof.
  induction s as [|c r IH]; simpl; [reflexivity|].
  destruct (p c) eqn:Hc; simpl; [now rewrite Hc|exact IH].
Qed.

Lemma clean_pincode_text (s : string) :
  clean_pincode (Str s) =
    if String.length (digits_only_of s) =? 6 then digits_only_of s else "".
Proof. unfold clean_pincode; simpl. now rewrite digits_strip. Qed.

Lemma clean_pincode_shape (x : cell) :
  clean_pincode x = "" \/ is_pincode (clean_pincode x) = true.
Proof.
  unfold clean_pincode. destruct (isna x); [now left|].
  destruct (String.length _ =? 6) eqn:Hl; [right|now left].
  unfold is_pincode. rewrite Hl. apply forallb_filter_string.
Qed.

(** C4, as the code has it: [clean_pincode] maps a missing value to the
    empty string and any other value to the digits of its text when there
    are exactly six of them, to the empty string otherwise; the result is
    empty or a pincode.  ["110-001"] and ["11 0001"] both clean to
    ["110001"]: each holds six digits. *)
Theorem clean_pincode_spec (s : string) (z : Z) :
  clean_pincode NaN = ""
  /\ clean_pincode (Str s) =
       (if String.length (digits_only_of s) =? 6 then digits_only_of s else "")
  /\ clean_pincode (Num z) =
       (if String.length (digits_only_of (str_of_Z z)) =? 6
        then digits_only_of (str_of_Z z) else "")
  /\ (clean_pincode (Str s) = "" \/ is_pincode (clean_pincode (Str s)) = true)
  /\ clean_pincode (Str "110-001") = "110001"
  /\ clean_pincode (Str "11 0001") = "110001".
Proof.
  repeat split.
  - apply clean_pincode_text.
  - unfold clean_pincode; simpl. now rewrite digits_strip.
  - apply clean_pincode_shape.
Qed.

(** C4 as stated fails: the claim has [clean("11 0001")] empty, the code
    returns the six digits. *)
Lemma clean_pincode_11_0001_not_empty : clean_pincode (Str "11 0001") <> "".
Proof. vm_compute. discriminate. Qed.

(** C5: the text [MG Road 400<LF>001] has no six-digit run and no
    three-digit groups separated by a space or a hyphen, yet
    [extract_pincode_from_text] returns seven characters, the line feed
    among them: the pattern takes any whitespace as separator and only
    spaces and hyphens are removed.  The spec's example yields 110001. *)
Theorem extract_pincode_keeps_line_feed :
  extract_pincode_from_text (Str ("MG Road 400" ++ LF ++ "001"))
    = ("400" ++ LF ++ "001")%string
  /\ is_pincode (extract_pincode_from_text (Str ("MG Road 400" ++ LF ++ "001"))) = false
  /\ extract_pincode_from_text (Str "Address near 110 001 Delhi") = "110001"
  /\ extract_pincode_from_text NaN = "".
Proof. repeat split. Qed.

(** ** The reference table *)


Lemma valid_df_standard (rows : list (cell * cell)) :
  valid_df (map standard_entry rows) =
  map standard_entry
      (filter (fun r => String.length (clean_pincode (Str (str (fst r)))) =? 6) rows).
Proof.
  unfold valid_df.
  induction rows as [|r rows IH]; simpl; [reflexivity|].
  destruct (String.length (clean_pincode (Str (str (fst r)))) =? 6); simpl;
    now rewrite IH.
Qed.





(** ** Lookup of the city *)

Lemma find_first_occurrence {A : Type} (p : A -> bool) (pre post : list A) (x : A) :
  (forall y, In y pre -> p y = false) -> p x = true ->
  find p (pre ++ x :: post) = Some x.
Proof.
  intros Hpre Hx. induction pre as [|y pre IH]; simpl.
  - now rewrite Hx.
  - rewrite (Hpre y (or_introl eq_refl)). apply IH.
    intros y' Hy'. apply Hpre. now right.
Qed.

(** C7: [lookup_city] returns the city of the first entry of the table
    carrying the pincode, whatever follows it; the post-merge pass run on
    a row with pincode 100000 and no city, against a table listing MUMBAI
    before DELHI for 100000, assigns MUMBAI. *)
Theorem lookup_city_first_occurrence (before after : list RefEntry)
  (pincode city : string) :
  (forall e, In e before -> Pincode e <> pincode) ->
  lookup_city (before ++ mkRef pincode city :: after) (Str pincode) = Some city
  /\ snd (process_pincodes_and_cities
            (mkDF 1 [("AddreCity", [Str ""]); ("AddrePincode", [Str "100000"])])
            [mkRef "100000" "MUMBAI"; mkRef "100000" "DELHI"])
     = Done (mkDF 1 [("AddreCity", [Str "MUMBAI"]); ("AddrePincode", [Str "100000"])]).
Proof.
  intro Hbefore. split; [|reflexivity].
  unfold lookup_city.
  rewrite find_first_occurrence with (x := mkRef pincode city); [reflexivity| |].
  - intros e He. simpl. apply String.eqb_neq. now apply Hbefore.
  - simpl. apply String.eqb_refl.
Qed.

Lemma lookup_city_first_occurrence_witness :
  lookup_city [mkRef "100000" "MUMBAI"; mkRef "100000" "DELHI"] (Str "100000")
  = Some "MUMBAI".
Proof.
  apply (proj1 (lookup_city_first_occurrence [] [mkRef "100000" "DELHI"]
                  "100000" "MUMBAI" (fun e (H : In e []) => False_ind _ H))).
Defined.

(** C10: one input file whose second row has no pincode column value and
    the address [MG Road 400<LF>001]: the written [AddrePincode] of that
    row is the seven characters [400<LF>001], neither empty nor six
    digits. *)
Theorem written_pincode_not_six_digits :
  exists output_file final_df,
    written (merge_customer_files (sample_world ["acme-1.txt"]) "/base")
      = Some (output_file, final_df)
    /\ getitem "AddrePincode" final_df
       = Done [Str "100000"; Str ("400" ++ LF ++ "001")]
    /\ is_pincode ("400" ++ LF ++ "001") = false
    /\ ("400" ++ LF ++ "001")%string <> "".
Proof.
  do 2 eexists. split; [vm_compute; reflexivity|].
  split; [reflexivity|]. split; [reflexivity|discriminate].
Qed.

(** ** Fatal conditions *)

Lemma read_pin_sheet_unreadable (w : World) (e e2 : exn) :
  read_pin_tblpincity w = Raised e ->
  read_pin_first_sheet w = Raised e2 ->
  read_pin_sheet w =
    ([TblpincityNotFound e; TryingFirstSheet; ErrorLoadingPin e2; Traceback], None).
Proof. intros H1 H2. unfold read_pin_sheet. now rewrite H1, H2. Qed.

Lemma load_pin_database_unreadable (w : World) (pin_file_path : string) :
  snd (read_pin_sheet w) = None ->
  fst (load_pin_database w pin_file_path) = [].
Proof.
  intro H. unfold load_pin_database.
  destruct (read_pin_sheet w) as [log1 [src|]]; [discriminate|reflexivity].
Qed.

(** C8: when both reads of the reference workbook fail, or the loader
    returns no valid row, or the input directory does not exist, the run
    writes nothing, and its log is the messages emitted up to the abort,
    in order, followed by the abort's own message: the preamble and the
    loader's messages, then [PinNotLoaded]; or, with a table loaded, also
    the sender table's messages, then [InputDirNotFound]. *)
Theorem fatal_conditions_write_nothing (w : World) (base_directory : string) :
  let pin := load_pin_database w (path_join base_directory "PIN.xlsx") in
  (exists e e2, read_pin_tblpincity w = Raised e /\ read_pin_first_sheet w = Raised e2)
  \/ fst pin = []
  \/ input_directory_exists w = false ->
  written (merge_customer_files w base_directory) = None
  /\ run_log (merge_customer_files w base_directory) =
       preamble base_directory ++ snd pin ++
       match fst pin with
       | [] => [PinNotLoaded]
       | _ => snd (load_sender_details w) ++
              [InputDirNotFound (path_join base_directory "Input")]
       end.
Proof.
  intros pin H.
  assert (Hcases : fst pin = [] \/ input_directory_exists w = false).
  { destruct H as [[e [e2 [H1 H2]]]|[H|H]]; [left|now left|now right].
    apply load_pin_database_unreadable.
    now rewrite (read_pin_sheet_unreadable w e e2 H1 H2). }
  clear H. unfold merge_customer_files. fold pin.
  destruct pin as [pin_df log_pin]; simpl in *.
  destruct pin_df as [|entry pin_df].
  - split; reflexivity.
  - destruct Hcases as [Hnil|Hdir]; [discriminate|].
    destruct (load_sender_details w) as [sender_details log_sender].
    rewrite Hdir. split; reflexivity.
Qed.

Lemma fatal_conditions_write_nothing_witness :
  written (merge_customer_files world_without_pin "/base") = None
  /\ run_log (merge_customer_files world_without_pin "/base") =
       preamble "/base" ++
       [LoadingPinFrom "/base/PIN.xlsx"; TblpincityNotFound (ReadError "No such file");
        TryingFirstSheet; ErrorLoadingPin (ReadError "No such file"); Traceback;
        PinNotLoaded].
Proof.
  apply (fatal_conditions_write_nothing world_without_pin "/base").
  left. exists (ReadError "No such file"), (ReadError "No such file").
  split; reflexivity.
Defined.

(** ** Frames *)

Lemma has_column_In (name : string) (df : DataFrame) :
  has_column name df = true <-> In name (columns df).
Proof.
  unfold has_column. rewrite existsb_exists. split.
  - intros [x [Hin Heq]]. apply String.eqb_eq in Heq. now subst.
  - intro Hin. exists name. split; [exact Hin|apply String.eqb_refl].
Qed.

Lemma labelled_true (name : string) (c : string * list cell) :
  labelled name c = true <-> fst c = name.
Proof. unfold labelled. apply String.eqb_eq. Qed.

Lemma labelled_false (name : string) (c : string * list cell) :
  labelled name c = false <-> fst c <> name.
Proof. unfold labelled. apply String.eqb_neq. Qed.

Lemma nrows_setitem (name : string) (values : list cell) (df : DataFrame) :
  nrows (setitem name values df) = nrows df.
Proof. unfold setitem. now destruct (has_column name df). Qed.

Lemma nrows_setitem_scalar (name : string) (v : cell) (df : DataFrame) :
  nrows (setitem_scalar name v df) = nrows df.
Proof. apply nrows_setitem. Qed.

Lemma columns_setitem (name : string) (values : list cell) (df : DataFrame) :
  columns (setitem name values df) =
    if has_column name df then columns df else columns df ++ [name].
Proof.
  unfold setitem, columns. destruct (has_column name df); simpl.
  - rewrite map_map. apply map_ext_in. intros c _.
    destruct (labelled name c) eqn:Hl; [|reflexivity].
    simpl. symmetry. now apply labelled_true.
  - now rewrite map_app.
Qed.

Lemma has_column_setitem_same (name : string) (values : list cell) (df : DataFrame) :
  has_column name (setitem name values df) = true.
Proof.
  apply has_column_In. rewrite columns_setitem.
  destruct (has_column name df) eqn:H.
  - now apply has_column_In.
  - apply in_or_app. right. now left.
Qed.

Lemma has_column_setitem_other (name other : string) (values : list cell)
  (df : DataFrame) :
  other <> name ->
  has_column other (setitem name values df) = has_column other df.
Proof.
  intro Hne. apply eq_true_iff_eq. rewrite !has_column_In, columns_setitem.
  destruct (has_column name df); [tauto|].
  rewrite in_app_iff. simpl. intuition congruence.
Qed.

Lemma column_is_setitem_same (name : string) (values : list cell) (df : DataFrame) :
  column_is name values (setitem name values df).
Proof.
  unfold column_is, setitem. intros c Hin Hc.
  destruct (has_column name df) eqn:Hhas; simpl in Hin.
  - apply in_map_iff in Hin. destruct Hin as [c0 [<- Hin0]].
    destruct (labelled name c0) eqn:Hl; [reflexivity|].
    apply labelled_false in Hl. contradiction.
  - apply in_app_or in Hin. destruct Hin as [Hin|[<-|[]]]; [|reflexivity].
    exfalso. assert (has_column name df = true); [|congruence].
    apply has_column_In. subst name. now apply in_map.
Qed.

Lemma column_is_setitem_other (name other : string) (values v : list cell)
  (df : DataFrame) :
  other <> name ->
  column_is other v df -> column_is other v (setitem name values df).
Proof.
  unfold column_is, setitem. intros Hne H c Hin Hc.
  destruct (has_column name df); simpl in Hin.
  - apply in_map_iff in Hin. destruct Hin as [c0 [<- Hin0]].
    destruct (labelled name c0) eqn:Hl.
    + simpl in Hc. congruence.
    + now apply H.
  - apply in_app_or in Hin. destruct Hin as [Hin|[<-|[]]].
    + now apply H.
    + simpl in Hc. congruence.
Qed.

Lemma column_is_absent (name : string) (v : list cell) (df : DataFrame) :
  has_column name df = false -> column_is name v df.
Proof.
  intros Hno c Hin Hc. exfalso.
  assert (has_column name df = true); [|congruence].
  apply has_column_In. subst name. now apply in_map.
Qed.

Lemma has_column_scalar_same (name : string) (v : cell) (df : DataFrame) :
  has_column name (setitem_scalar name v df) = true.
Proof. apply has_column_setitem_same. Qed.

Lemma has_column_scalar_other (name other : string) (v : cell) (df : DataFrame) :
  other <> name ->
  has_column other (setitem_scalar name v df) = has_column other df.
Proof. apply has_column_setitem_other. Qed.

Lemma column_is_scalar_same (name : string) (v : cell) (df : DataFrame) :
  column_is name (repeat v (nrows df)) (setitem_scalar name v df).
Proof. apply column_is_setitem_same. Qed.

Lemma column_is_scalar_other (name other : string) (v : cell) (vs : list cell)
  (df : DataFrame) :
  other <> name ->
  column_is other vs df -> column_is other vs (setitem_scalar name v df).
Proof. apply column_is_setitem_other. Qed.

(** *** A run of scalar assignments *)

Section ScalarAssignments.
Variable val : string -> cell.

Lemma nrows_assign_all (fields : list string) (df : DataFrame) :
  nrows (assign_all val fields df) = nrows df.
Proof.
  revert df. induction fields as [|f fields IH]; intro df; simpl; [reflexivity|].
  unfold assign_all in *. simpl. rewrite IH. apply nrows_setitem_scalar.
Qed.

Lemma has_column_assign_all_other (fields : list string) (other : string)
  (df : DataFrame) :
  ~ In other fields ->
  has_column other (assign_all val fields df) = has_column other df.
Proof.
  revert df. induction fields as [|f fields IH]; intros df Hno; [reflexivity|].
  unfold assign_all in *. simpl. rewrite IH by (intro; apply Hno; now right).
  apply has_column_scalar_other. intro; apply Hno; now left.
Qed.

Lemma column_is_assign_all_other (fields : list string) (other : string)
  (v : list cell) (df : DataFrame) :
  ~ In other fields ->
  column_is other v df -> column_is other v (assign_all val fields df).
Proof.
  revert df. induction fields as [|f fields IH]; intros df Hno H; [exact H|].
  unfold assign_all in *. simpl. apply IH; [intro; apply Hno; now right|].
  apply column_is_scalar_other; [intro; apply Hno; now left|exact H].
Qed.

Lemma assign_all_assigned (fields : list string) (field : string) (df : DataFrame) :
  In field fields ->
  has_column field (assign_all val fields df) = true
  /\ column_is field (repeat (val field) (nrows df)) (assign_all val fields df).
Proof.
  revert df. induction fields as [|f fields IH]; intros df Hin; [destruct Hin|].
  change (assign_all val (f :: fields) df)
    with (assign_all val fields (setitem_scalar f (val f) df)).
  destruct (in_dec string_dec field fields) as [Hlater|Hnot].
  - specialize (IH (setitem_scalar f (val f) df) Hlater).
    rewrite nrows_setitem_scalar in IH. exact IH.
  - destruct Hin as [->|Hin]; [|contradiction]. split.
    + rewrite has_column_assign_all_other by exact Hnot.
      apply has_column_scalar_same.
    + apply column_is_assign_all_other; [exact Hnot|].
      apply column_is_scalar_same.
Qed.
End ScalarAssignments.

(** *** Missing output columns *)

Lemma nrows_ensure_columns (names : list string) (df : DataFrame) :
  nrows (ensure_columns names df) = nrows df.
Proof.
  revert df. induction names as [|n names IH]; intro df; [reflexivity|].
  unfold ensure_columns in *. simpl. rewrite IH.
  destruct (has_column n df); simpl; [reflexivity|apply nrows_setitem_scalar].
Qed.

Lemma has_column_ensure_keeps (names : list string) (name : string) (df : DataFrame) :
  has_column name df = true -> has_column name (ensure_columns names df) = true.
Proof.
  revert df. induction names as [|n names IH]; intros df H; [exact H|].
  unfold ensure_columns in *. simpl. apply IH.
  destruct (has_column n df) eqn:Hn; simpl; [exact H|].
  rewrite has_column_scalar_other; [exact H|]. intro; subst; congruence.
Qed.

Lemma has_column_ensured (names : list string) (name : string) (df : DataFrame) :
  In name names -> has_column name (ensure_columns names df) = true.
Proof.
  revert df. induction names as [|n names IH]; intros df Hin; [destruct Hin|].
  change (ensure_columns (n :: names) df)
    with (ensure_columns names
            (if negb (has_column n df) then setitem_scalar n (Str "") df else df)).
  destruct Hin as [->|Hin]; [|now apply IH].
  apply has_column_ensure_keeps.
  destruct (has_column name df) eqn:Hn; simpl; [exact Hn|].
  apply has_column_scalar_same.
Qed.

Lemma column_is_ensure_present (names : list string) (name : string) (v : list cell)
  (df : DataFrame) :
  has_column name df = true ->
  column_is name v df -> column_is name v (ensure_columns names df).
Proof.
  revert df. induction names as [|n names IH]; intros df Hhas H; [exact H|].
  change (ensure_columns (n :: names) df)
    with (ensure_columns names
            (if negb (has_column n df) then setitem_scalar n (Str "") df else df)).
  destruct (has_column n df) eqn:Hn; simpl.
  - now apply IH.
  - assert (name <> n) by (intro; subst; congruence).
    apply IH.
    + now rewrite has_column_scalar_other.
    + now apply column_is_scalar_other.
Qed.

Lemma column_is_ensure_absent (names : list string) (name : string) (df : DataFrame) :
  has_column name df = false ->
  column_is name (repeat (Str "") (nrows df)) (ensure_columns names df).
Proof.
  revert df. induction names as [|n names IH]; intros df Hno.
  - now apply column_is_absent.
  - change (ensure_columns (n :: names) df)
      with (ensure_columns names
              (if negb (has_column n df) then setitem_scalar n (Str "") df else df)).
    destruct (has_column n df) eqn:Hn; simpl.
    + now apply IH.
    + destruct (string_dec name n) as [->|Hne].
      * apply column_is_ensure_present.
        -- apply has_column_scalar_same.
        -- apply column_is_scalar_same.
      * specialize (IH (setitem_scalar n (Str "") df)).
        rewrite nrows_setitem_scalar in IH.
        apply IH. now rewrite has_column_scalar_other.
Qed.

(** *** Selection of the output columns *)

Lemma getitem_list_Done (names : list string) (df out : DataFrame) :
  getitem_list names df = Done out ->
  out = mkDF (nrows df) (flat_map (fun n => filter (labelled n) (cols df)) names)
  /\ forall n, In n names -> has_column n df = true.
Proof.
  unfold getitem_list.
  destruct (find (fun n => negb (has_column n df)) names) as [n|] eqn:Hf; [discriminate|].
  intro H. injection H as <-. split; [reflexivity|].
  intros n Hin. pose proof (find_none _ _ Hf n Hin) as Hn. simpl in Hn.
  now destruct (has_column n df).
Qed.

Lemma in_cols_getitem_list (names : list string) (df out : DataFrame)
  (c : string * list cell) :
  getitem_list names df = Done out ->
  In c (cols out) <-> In c (cols df) /\ In (fst c) names.
Proof.
  intro H. apply getitem_list_Done in H. destruct H as [-> _]. simpl.
  rewrite in_flat_map. split.
  - intros [n [Hn Hin]]. apply filter_In in Hin. destruct Hin as [Hin Hl].
    apply labelled_true in Hl. subst n. now split.
  - intros [Hin Hn]. exists (fst c). split; [exact Hn|].
    apply filter_In. split; [exact Hin|]. now apply labelled_true.
Qed.

Lemma column_is_getitem_list (names : list string) (df out : DataFrame)
  (name : string) (v : list cell) :
  getitem_list names df = Done out ->
  column_is name v df -> column_is name v out.
Proof.
  intros H Hv c Hin Hc. apply (in_cols_getitem_list _ _ _ c H) in Hin.
  now apply Hv.
Qed.

Lemma has_column_getitem_list (names : list string) (df out : DataFrame)
  (name : string) :
  getitem_list names df = Done out ->
  In name names -> has_column name out = true.
Proof.
  intros H Hin. pose proof (getitem_list_Done _ _ _ H) as [_ Hall].
  specialize (Hall name Hin). apply has_column_In in Hall.
  apply in_map_iff in Hall. destruct Hall as [c [Hc Hcin]].
  apply has_column_In. apply in_map_iff. exists c. split; [exact Hc|].
  apply (in_cols_getitem_list _ _ _ c H). split; [exact Hcin|]. now rewrite Hc.
Qed.

Lemma labels_of_filter (name : string) (l : list (string * list cell)) :
  map fst (filter (labelled name) l)
  = repeat name (List.length (filter (labelled name) l)).
Proof.
  induction l as [|c l IH]; simpl; [reflexivity|].
  destruct (labelled name c) eqn:Hl; simpl; [|exact IH].
  apply labelled_true in Hl. now rewrite Hl, IH.
Qed.

Lemma columns_getitem_list (names : list string) (df out : DataFrame) :
  getitem_list names df = Done out ->
  columns out = flat_map (fun n => repeat n (occurrences n df)) names
  /\ forall n, In n names -> 1 <= occurrences n df.
Proof.
  intro H. apply getitem_list_Done in H. destruct H as [-> Hall]. split.
  - unfold columns. simpl. clear Hall.
    induction names as [|n names IH]; simpl; [reflexivity|].
    rewrite map_app, IH. f_equal. apply labels_of_filter.
  - intros n Hin. specialize (Hall n Hin). apply has_column_In in Hall.
    apply in_map_iff in Hall. destruct Hall as [c [Hc Hcin]].
    unfold occurrences.
    assert (Hf : In c (filter (labelled n) (cols df)))
      by (apply filter_In; split; [exact Hcin|now apply labelled_true]).
    destruct (filter (labelled n) (cols df)); [destruct Hf|simpl; lia].
Qed.

(** ** Per-file enrichment *)

Lemma bind_Done {A B : Type} (m : M A) (k : A -> M B) (l : list LogMsg) (b : B) :
  bind m k = (l, Done b) ->
  exists l1 a l2, m = (l1, Done a) /\ k a = (l2, Done b) /\ l = l1 ++ l2.
Proof.
  unfold bind. destruct m as [l1 [a|e]]; [|discriminate].
  destruct (k a) as [l2 r] eqn:Hk. intro H. injection H as <- ->.
  now exists l1, a, l2.
Qed.

Lemma lift_Done {A : Type} (o : outcome A) (l : list LogMsg) (a : A) :
  lift o = (l, Done a) -> o = Done a /\ l = [].
Proof. unfold lift. intro H. injection H as <- ->. now split. Qed.

Lemma ret_Done {A : Type} (x a : A) (l : list LogMsg) :
  ret x = (l, Done a) -> x = a /\ l = [].
Proof. unfold ret. intro H. injection H as <- ->. now split. Qed.

Lemma map_columns_renamed (current_df : DataFrame) :
  map_columns current_df = (snd (build_mapping current_df) ++ [], Done (renamed current_df)).
Proof.
  unfold map_columns, renamed.
  destruct (build_mapping current_df) as [mapping mapped].
  destruct mapping; reflexivity.
Qed.

Lemma nrows_renamed (current_df : DataFrame) : nrows (renamed current_df) = nrows current_df.
Proof. unfold renamed. now destruct (fst (build_mapping current_df)). Qed.

Lemma complete_columns_spec (filename sheet_name : string) (df : DataFrame) :
  let out := complete_columns filename sheet_name df in
  nrows out = nrows df
  /\ (forall c, In c output_columns -> has_column c out = true)
  /\ column_is "SL" (SL_values (nrows df)) out
  /\ column_is "Input File Name" (repeat (Str filename) (nrows df)) out
  /\ column_is "Sheet Name" (repeat (Str sheet_name) (nrows df)) out
  /\ (forall c v, c <> "SL" -> c <> "Input File Name" -> c <> "Sheet Name" ->
        has_column c df = true -> column_is c v df -> column_is c v out)
  /\ (forall c, c <> "SL" -> c <> "Input File Name" -> c <> "Sheet Name" ->
        has_column c df = false -> column_is c (repeat (Str "") (nrows df)) out).
Proof.
  unfold complete_columns, ensure_output_columns.
  set (df1 := setitem "SL" _ df).
  set (df2 := ensure_columns output_columns df1).
  set (df3 := setitem_scalar "Input File Name" (Str filename) df2).
  assert (N1 : nrows df1 = nrows df) by apply nrows_setitem.
  assert (N2 : nrows df2 = nrows df)
    by (unfold df2; now rewrite nrows_ensure_columns).
  assert (N3 : nrows df3 = nrows df)
    by (unfold df3; now rewrite nrows_setitem_scalar).
  cbv zeta. repeat split.
  - now rewrite nrows_setitem_scalar.
  - intros c Hc.
    assert (H2 : has_column c df2 = true) by now apply has_column_ensured.
    destruct (string_dec c "Sheet Name") as [->|Hs]; [apply has_column_scalar_same|].
    rewrite has_column_scalar_other by exact Hs.
    destruct (string_dec c "Input File Name") as [->|Hi]; [apply has_column_scalar_same|].
    unfold df3. now rewrite has_column_scalar_other.
  - apply column_is_scalar_other; [discriminate|].
    apply column_is_scalar_other; [discriminate|].
    apply column_is_ensure_present; [apply has_column_setitem_same|].
    apply column_is_setitem_same.
  - apply column_is_scalar_other; [discriminate|].
    rewrite <- N2. apply column_is_scalar_same.
  - rewrite <- N3. apply column_is_scalar_same.
  - intros c v H1 H2 H3 Hhas Hv.
    apply column_is_scalar_other; [exact H3|].
    apply column_is_scalar_other; [exact H2|].
    apply column_is_ensure_present.
    + unfold df1. now rewrite has_column_setitem_other.
    + now apply column_is_setitem_other.
  - intros c H1 H2 H3 Hno.
    apply column_is_scalar_other; [exact H3|].
    apply column_is_scalar_other; [exact H2|].
    rewrite <- N1. apply column_is_ensure_absent.
    unfold df1. now rewrite has_column_setitem_other.
Qed.

Lemma add_sender_information_matched (sender_row : DataFrame) (filename : string)
  (df : DataFrame) :
  df_empty sender_row = false ->
  add_sender_information sender_row filename df =
    ([], Done (assign_all (fun field => series_get field (Str "") (iloc0 sender_row))
                          sender_fields df)).
Proof. intro H. unfold add_sender_information. rewrite H. reflexivity. Qed.

Lemma not_sender_field (c : string) :
  c = "SL" \/ c = "Input File Name" \/ c = "Sheet Name" \/ c = "AddreADD1" ->
  ~ In c sender_fields.
Proof.
  intros [-> | [-> | [-> | ->]]] H; simpl in H;
    repeat (destruct H as [H|H]; [discriminate H|]); exact H.
Qed.

(** What [process_address_columns] leaves: the frame itself when no
    address column is found, otherwise the frame with the joined series
    in [AddreADD1]. *)
Lemma process_address_columns_Done (df out : DataFrame) (l : list LogMsg) :
  process_address_columns df = (l, Done out) ->
  (get_matching_columns df address_columns = [] /\ out = df /\ l = [])
  \/ (get_matching_columns df address_columns <> []
      /\ exists series,
           address_series (get_matching_columns df address_columns) df = Done series
           /\ out = setitem "AddreADD1" series df
           /\ l = [FoundAddressColumns (get_matching_columns df address_columns)]).
Proof.
  unfold process_address_columns.
  destruct (get_matching_columns df address_columns) as [|a rest] eqn:Hm.
  - intro H. apply ret_Done in H. destruct H as [-> ->]. now left.
  - intro H. right. split; [discriminate|].
    apply bind_Done in H. destruct H as [l1 [u [l2 [H1 [H2 ->]]]]].
    unfold tell in H1. injection H1 as <-.
    apply bind_Done in H2. destruct H2 as [l3 [series [l4 [H3 [H4 ->]]]]].
    apply lift_Done in H3. destruct H3 as [H3 ->].
    apply ret_Done in H4. destruct H4 as [<- ->].
    exists series. repeat split. exact H3.
Qed.

(** The stages of [enrich], when it returns a frame. *)
Lemma enrich_Done (sender_row : DataFrame) (filename sheet_name base_filename : string)
  (current_df out : DataFrame) (l : list LogMsg) :
  df_empty sender_row = false ->
  enrich sender_row filename sheet_name base_filename current_df = (l, Done out) ->
  exists with_address l_address,
    process_address_columns (renamed current_df) = (l_address, Done with_address)
    /\ getitem_list output_columns
         (complete_columns filename sheet_name
            (assign_all (fun field => series_get field (Str "") (iloc0 sender_row))
                        sender_fields with_address)) = Done out
    /\ l = [FoundSender base_filename] ++
           (snd (build_mapping current_df) ++ []) ++ l_address ++ [] ++ [].
Proof.
  intros Hrow H. unfold enrich in H.
  apply bind_Done in H. destruct H as [l1 [u [l2 [H1 [H2 ->]]]]].
  unfold tell in H1. injection H1 as <-.
  apply bind_Done in H2. destruct H2 as [l3 [df1 [l4 [H3 [H4 ->]]]]].
  rewrite map_columns_renamed in H3. injection H3 as <- <-.
  apply bind_Done in H4. destruct H4 as [l5 [df2 [l6 [H5 [H6 ->]]]]].
  apply bind_Done in H6. destruct H6 as [l7 [df3 [l8 [H7 [H8 ->]]]]].
  rewrite add_sender_information_matched in H7 by exact Hrow.
  injection H7 as <- <-.
  apply lift_Done in H8. destruct H8 as [H8 ->].
  exists df2, l5. repeat split; assumption.
Qed.

(** *** The joined address *)

Lemma join_row_Done (x : list cell) (v : cell) :
  join_row x = Done v ->
  v = Str (join ", " (filter nonempty (map part_text x))).
Proof.
  unfold join_row.
  destruct (forallb _ (filter truthy x)) eqn:Hall; [|discriminate].
  intro H. injection H as <-. do 2 f_equal.
  induction x as [|a x IH]; [reflexivity|].
  simpl in Hall |- *. destruct a as [|s|z]; simpl in *.
  - discriminate.
  - unfold nonempty at 1. destruct (is_empty s); simpl in *; [now apply IH|].
    f_equal. now apply IH.
  - destruct (Z.eqb z 0); simpl in *; [now apply IH|discriminate].
Qed.

Lemma part_text_fillna (x : list cell) :
  map part_text (map fillna_empty x) = map part_text x.
Proof.
  rewrite map_map. apply map_ext. now intros [|s|z].
Qed.

Lemma sequence_Done {A : Type} (l : list (outcome A)) (r : list A) :
  sequence l = Done r -> l = map Done r.
Proof.
  revert r. induction l as [|[a|e] l IH]; intros r H; simpl in H.
  - injection H as <-. reflexivity.
  - destruct (sequence l) as [r'|e]; [|discriminate].
    injection H as <-. simpl. f_equal. now apply IH.
  - discriminate.
Qed.

Lemma address_series_rows (names : list string) (df : DataFrame) (series : list cell) :
  address_series names df = Done series ->
  List.length series = nrows df
  /\ forall i, i < nrows df ->
       nth i series NaN =
       Str (strip (join ", " (filter nonempty (map part_text (cells_of_row names i df))))).
Proof.
  unfold address_series.
  destruct (getitem_list names df) as [sub|e] eqn:Hsub; [|discriminate].
  apply getitem_list_Done in Hsub. destruct Hsub as [-> _].
  destruct (nrows df =? 0); [discriminate|].
  destruct (sequence _) as [joined|e] eqn:Hseq; [|discriminate].
  intro H. injection H as <-. apply sequence_Done in Hseq.
  assert (Hlen : List.length joined = nrows df).
  { apply (f_equal (@List.length _)) in Hseq.
    now rewrite !length_map, length_seq in Hseq. }
  split; [now rewrite length_map|].
  intros i Hi.
  assert (Hi' : i < List.length joined) by lia.
  apply (f_equal (fun l => nth i l (Raised TypeError))) in Hseq.
  rewrite (nth_indep _ _ (join_row (map fillna_empty (row_values 0 (mkDF (nrows df)
             (flat_map (fun n => filter (labelled n) (cols df)) names))))))
    in Hseq by now rewrite length_map, length_seq.
  rewrite (map_nth (fun i => join_row (map fillna_empty (row_values i _)))) in Hseq.
  rewrite seq_nth in Hseq by exact Hi. simpl in Hseq.
  rewrite (nth_indep _ _ (Done (nth i joined NaN))) in Hseq
    by now rewrite length_map.
  rewrite (map_nth Done) in Hseq.
  apply join_row_Done in Hseq. rewrite part_text_fillna in Hseq.
  rewrite (nth_indep _ _ NaN) in Hseq by exact Hi'.
  change (nth i (map strip_cell joined) NaN)
    with (nth i (map strip_cell joined) (strip_cell NaN)).
  rewrite map_nth, Hseq. reflexivity.
Qed.

(** *** What an appended frame holds *)

Lemma sender_fields_are_output (field : string) :
  In field sender_fields -> In field output_columns.
Proof.
  assert (H : forallb (fun f => existsb (String.eqb f) output_columns) sender_fields = true)
    by (vm_compute; reflexivity).
  rewrite forallb_forall in H. intro Hin. specialize (H field Hin).
  apply existsb_exists in H. destruct H as [x [Hx Heq]].
  apply String.eqb_eq in Heq. now subst.
Qed.

Lemma sender_field_not_meta (field : string) :
  In field sender_fields ->
  field <> "SL" /\ field <> "Input File Name" /\ field <> "Sheet Name"
  /\ field <> "AddreADD1".
Proof.
  intro Hin. repeat split; intros ->; revert Hin; apply not_sender_field; tauto.
Qed.

Lemma enrich_frame (sender_row : DataFrame) (filename sheet_name base_filename : string)
  (current_df out : DataFrame) (l : list LogMsg) :
  df_empty sender_row = false ->
  enrich sender_row filename sheet_name base_filename current_df = (l, Done out) ->
  nrows out = nrows current_df
  /\ canonical_labels (columns out)
  /\ sender_copied sender_row out
  /\ address_joined (renamed current_df) out
  /\ blanks_defaulted (renamed current_df) out
  /\ column_is "SL" (SL_values (nrows out)) out
  /\ column_is "Input File Name" (repeat (Str filename) (nrows out)) out
  /\ column_is "Sheet Name" (repeat (Str sheet_name) (nrows out)) out.
Proof.
  intros Hrow H.
  destruct (enrich_Done _ _ _ _ _ _ _ Hrow H) as [df2 [l2 [Haddr [Hsel _]]]].
  fold (sender_value sender_row) in Hsel.
  set (df3 := assign_all (sender_value sender_row) sender_fields df2) in *.
  set (df4 := complete_columns filename sheet_name df3) in *.
  pose proof (complete_columns_spec filename sheet_name df3)
    as [N4 [Hall [HSL [HIFN [HSN [Hkeep Hblank]]]]]].
  fold df4 in N4, Hall, HSL, HIFN, HSN, Hkeep, Hblank.
  assert (N3 : nrows df3 = nrows df2) by apply nrows_assign_all.
  assert (N2 : nrows df2 = nrows current_df).
  { destruct (process_address_columns_Done _ _ _ Haddr)
      as [[_ [-> _]]|[_ [series [_ [-> _]]]]].
    - apply nrows_renamed.
    - rewrite nrows_setitem. apply nrows_renamed. }
  assert (Nout : nrows out = nrows df4).
  { apply getitem_list_Done in Hsel. destruct Hsel as [-> _]. reflexivity. }
  assert (N : nrows out = nrows current_df) by congruence.
  split; [exact N|]. split.
  { exists (fun n => occurrences n df4).
    destruct (columns_getitem_list _ _ _ Hsel) as [Hcols Hocc]. now split. }
  split.
  { intros field Hin.
    destruct (sender_field_not_meta field Hin) as [F1 [F2 [F3 F4]]].
    destruct (assign_all_assigned (sender_value sender_row) sender_fields field df2 Hin)
      as [Hhas Hval].
    split.
    - eapply has_column_getitem_list; [exact Hsel|].
      now apply sender_fields_are_output.
    - eapply column_is_getitem_list; [exact Hsel|].
      apply Hkeep; try assumption.
      replace (nrows out) with (nrows df2) by congruence. exact Hval. }
  split.
  { unfold address_joined. cbv zeta. intro Hne.
    destruct (process_address_columns_Done _ _ _ Haddr)
      as [[Hnone _]|[_ [series [Hser [Hdf2 _]]]]]; [contradiction|].
    destruct (address_series_rows _ _ _ Hser) as [Hlen Hrows].
    rewrite nrows_renamed in Hlen, Hrows.
    exists series. split; [|split; [|split]].
    - eapply has_column_getitem_list; [exact Hsel|].
      vm_compute. tauto.
    - eapply column_is_getitem_list; [exact Hsel|].
      apply Hkeep; try discriminate.
      + unfold df3. rewrite has_column_assign_all_other
          by (apply not_sender_field; tauto).
        rewrite Hdf2. apply has_column_setitem_same.
      + apply column_is_assign_all_other; [apply not_sender_field; tauto|].
        rewrite Hdf2. apply column_is_setitem_same.
    - congruence.
    - intros i Hi. apply Hrows. congruence. }
  split.
  { intros c Hc Hnot Hno.
    unfold assigned_labels in Hnot. rewrite !in_app_iff in Hnot.
    assert (Hc2 : has_column c df2 = false).
    { destruct (process_address_columns_Done _ _ _ Haddr)
        as [[_ [-> _]]|[Hne [series [_ [-> _]]]]]; [exact Hno|].
      rewrite has_column_setitem_other; [exact Hno|].
      intros ->. apply Hnot. right. right.
      destruct (get_matching_columns (renamed current_df) address_columns);
        [contradiction|now left]. }
    split.
    - eapply has_column_getitem_list; eassumption.
    - eapply column_is_getitem_list; [exact Hsel|].
      replace (nrows out) with (nrows df3) by congruence.
      apply Hblank.
      + intros ->. apply Hnot. right. left. now left.
      + intros ->. apply Hnot. right. left. right. now left.
      + intros ->. apply Hnot. right. left. right. right. now left.
      + unfold df3. rewrite has_column_assign_all_other; [exact Hc2|tauto]. }
  split; [|split].
  - eapply column_is_getitem_list; [exact Hsel|]. now replace (nrows out) with (nrows df3) by congruence.
  - eapply column_is_getitem_list; [exact Hsel|]. now replace (nrows out) with (nrows df3) by congruence.
  - eapply column_is_getitem_list; [exact Hsel|]. now replace (nrows out) with (nrows df3) by congruence.
Qed.

(** ** The merge loop *)

Lemma process_file_merged (w : World) (sender_details : DataFrame) (st : LoopState)
  (filename : string) :
  merged_dataframes (process_file w sender_details st filename)
  = merged_dataframes st ++ contribution w sender_details filename.
Proof.
  unfold process_file, contribution.
  destruct (read_input w filename) as [[current_df sheet_name]|msg]; simpl.
  - destruct (after_read w sender_details filename current_df sheet_name)
      as [l [[df|]|e]]; simpl; now rewrite ?app_nil_r.
  - now rewrite app_nil_r.
Qed.

Lemma process_files_merged (w : World) (sender_details : DataFrame)
  (files : list string) (st : LoopState) :
  merged_dataframes (process_files w sender_details files st)
  = merged_dataframes st ++ flat_map (contribution w sender_details) files.
Proof.
  unfold process_files. revert st.
  induction files as [|f files IH]; intro st; simpl.
  - now rewrite app_nil_r.
  - rewrite IH, process_file_merged. now rewrite <- app_assoc.
Qed.

Lemma after_read_Done (w : World) (sender_details : DataFrame) (filename : string)
  (current_df : DataFrame) (sheet_name : string) (l : list LogMsg) (out : DataFrame) :
  after_read w sender_details filename current_df sheet_name = (l, Done (Some out)) ->
  exists sender_row l',
    find_sender_row w sender_details (base_filename_of filename) = Done sender_row
    /\ df_empty sender_row = false
    /\ enrich sender_row filename sheet_name (base_filename_of filename) current_df
       = (l', Done out).
Proof.
  unfold after_read. intro H.
  apply bind_Done in H. destruct H as [l1 [u [l2 [_ [H ->]]]]].
  apply bind_Done in H. destruct H as [l3 [sender_row [l4 [H3 [H4 ->]]]]].
  apply lift_Done in H3. destruct H3 as [H3 ->].
  destruct (df_empty sender_row) eqn:Hrow; simpl in H4.
  - apply ret_Done in H4. destruct H4 as [H4 _]. discriminate.
  - apply bind_Done in H4. destruct H4 as [l5 [df [l6 [H5 [H6 ->]]]]].
    apply ret_Done in H6. destruct H6 as [H6 ->]. injection H6 as ->.
    now exists sender_row, l5.
Qed.

Lemma contribution_appended (w : World) (sender_details : DataFrame) (filename : string)
  (out : DataFrame) :
  In out (contribution w sender_details filename) ->
  exists current_df sender_row,
    appended_from w sender_details filename current_df sender_row out.
Proof.
  unfold contribution.
  destruct (read_input w filename) as [[current_df sheet_name]|msg] eqn:Hread;
    [|intros []].
  destruct (after_read w sender_details filename current_df sheet_name)
    as [l [[df|]|e]] eqn:Hafter; try (simpl; intro Hf; contradiction).
  intros [<-|[]]. apply after_read_Done in Hafter.
  destruct Hafter as [sender_row [l' [H1 [H2 H3]]]].
  exists current_df, sender_row, sheet_name, l'. tauto.
Qed.

Lemma appended_frame (w : World) (sender_details : DataFrame) (filename : string)
  (current_df sender_row out : DataFrame) :
  appended_from w sender_details filename current_df sender_row out ->
  nrows out = nrows current_df
  /\ canonical_labels (columns out)
  /\ sender_copied sender_row out
  /\ address_joined (renamed current_df) out
  /\ blanks_defaulted (renamed current_df) out.
Proof.
  intros [sheet_name [l [_ [_ [Hrow Henrich]]]]].
  destruct (enrich_frame _ _ _ _ _ _ _ Hrow Henrich) as [H1 [H2 [H3 [H4 [H5 _]]]]].
  tauto.
Qed.

(** *** Canonical labels *)

Lemma repeat_NoDup_once {A : Type} (x : A) (n : nat) :
  1 <= n -> NoDup (repeat x n) -> n = 1.
Proof.
  destruct n as [|[|n]]; intros Hn Hd; [lia|reflexivity|].
  simpl in Hd. apply NoDup_cons_iff in Hd. destruct Hd as [Hd _].
  exfalso. apply Hd. now left.
Qed.

Lemma flat_map_repeat_NoDup (times : string -> nat) (l : list string) :
  (forall c, In c l -> 1 <= times c) ->
  NoDup (flat_map (fun c => repeat c (times c)) l) ->
  flat_map (fun c => repeat c (times c)) l = l.
Proof.
  induction l as [|c l IH]; intros Hone Hd; [reflexivity|]. simpl in *.
  assert (H1 : times c = 1).
  { apply (repeat_NoDup_once c); [apply Hone; now left|].
    eapply NoDup_app_remove_r. exact Hd. }
  rewrite H1. simpl. f_equal. apply IH.
  - intros c' Hc'. apply Hone. now right.
  - eapply NoDup_app_remove_l. exact Hd.
Qed.

Lemma canonical_labels_NoDup (labels : list string) :
  canonical_labels labels -> NoDup labels -> labels = output_columns.
Proof.
  intros [times [-> Hone]] Hd. now apply flat_map_repeat_NoDup.
Qed.

Lemma nodupb_NoDup (l : list string) : nodupb l = true -> NoDup l.
Proof.
  induction l as [|x l IH]; simpl; intro H; [constructor|].
  apply andb_true_iff in H. destruct H as [Hx Hl].
  constructor; [|now apply IH].
  intro Hin. apply negb_true_iff in Hx.
  assert (existsb (String.eqb x) l = true); [|congruence].
  apply existsb_exists. exists x. split; [exact Hin|apply String.eqb_refl].
Qed.

Lemma list_string_eqb_eq (a b : list string) : list_string_eqb a b = true <-> a = b.
Proof.
  unfold list_string_eqb. destruct (list_eq_dec string_dec a b); split; congruence.
Qed.

(** *** Concatenation *)

Lemma labels_of_combine (a b : list (string * list cell)) :
  List.length b = List.length a ->
  map (fun cd : (string * list cell) * (string * list cell) => fst (fst cd)) (combine a b)
  = map fst a.
Proof.
  revert b. induction a as [|x a IH]; intros [|y b] H; simpl in *;
    try discriminate; [reflexivity|].
  f_equal. apply IH. lia.
Qed.

Lemma columns_stack (f g : DataFrame) :
  columns g = columns f -> columns (stack f g) = columns f.
Proof.
  unfold columns, stack. simpl. intro H.
  assert (Hlen : List.length (cols g) = List.length (cols f))
    by (apply (f_equal (@List.length _)) in H; now rewrite !length_map in H).
  rewrite map_map. simpl. now apply labels_of_combine.
Qed.

Lemma columns_fold_stack (rest : list DataFrame) (f : DataFrame) :
  (forall g, In g rest -> columns g = columns f) ->
  columns (fold_left stack rest f) = columns f.
Proof.
  revert f. induction rest as [|g rest IH]; intros f H; [reflexivity|]. simpl.
  assert (Hs : columns (stack f g) = columns f)
    by (apply columns_stack, H; now left).
  rewrite IH; [exact Hs|]. intros g' Hg'. rewrite Hs. apply H. now right.
Qed.

Lemma concat_canonical (frames : list DataFrame) (final_df : DataFrame) :
  (forall g, In g frames -> canonical_labels (columns g)) ->
  concat frames = Done final_df ->
  canonical_labels (columns final_df)
  /\ forall g, In g frames -> columns g = columns final_df.
Proof.
  intros Hcan. unfold concat. destruct frames as [|f rest]; [discriminate|].
  destruct (forallb (fun g => list_string_eqb (columns g) (columns f)) rest) eqn:Hall.
  - intro H. injection H as <-.
    assert (Heq : forall g, In g rest -> columns g = columns f).
    { intros g Hg. rewrite forallb_forall in Hall.
      now apply list_string_eqb_eq, Hall. }
    rewrite columns_fold_stack by exact Heq. split.
    + apply Hcan. now left.
    + intros g [<-|Hg]; [reflexivity|now apply Heq].
  - destruct (forallb (fun g => nodupb (columns g)) (f :: rest)) eqn:Hnd; [|discriminate].
    exfalso. rewrite forallb_forall in Hnd.
    assert (Hout : forall g, In g (f :: rest) -> columns g = output_columns).
    { intros g Hg. apply canonical_labels_NoDup; [now apply Hcan|].
      now apply nodupb_NoDup, Hnd. }
    assert (forallb (fun g => list_string_eqb (columns g) (columns f)) rest = true);
      [|congruence].
    apply forallb_forall. intros g Hg. apply list_string_eqb_eq.
    rewrite (Hout g) by now right. rewrite (Hout f) by now left. reflexivity.
Qed.

(** ** The post-merge pass keeps the other columns *)

Lemma modified_only_refl (names : list string) (df : DataFrame) :
  modified_only names df df.
Proof.
  split; [reflexivity|]. induction (cols df); constructor; auto.
Qed.

Lemma modified_only_trans (names : list string) (a b c : DataFrame) :
  modified_only names a b -> modified_only names b c -> modified_only names a c.
Proof.
  intros [N1 F1] [N2 F2]. split; [congruence|].
  revert F2. generalize (cols c). induction F1 as [|x y l l' [Hl Hx] _ IH];
    intros l'' F2; inversion F2 as [|y' z m m' [Hl' Hy] F2']; subst; constructor.
  - split; [congruence|]. intro Hn. rewrite Hy, Hx; auto. now rewrite Hl.
  - now apply IH.
Qed.

Lemma Forall2_map_relabel (names : list string)
  (f : string * list cell -> string * list cell) (l : list (string * list cell)) :
  (forall c, fst (f c) = fst c /\ (~ In (fst c) names -> f c = c)) ->
  Forall2 (fun c c' => fst c' = fst c /\ (~ In (fst c) names -> c' = c)) l (map f l).
Proof. intro H. induction l; simpl; constructor; auto. Qed.

Lemma modified_only_setitem (names : list string) (name : string) (values : list cell)
  (df : DataFrame) :
  In name names -> has_column name df = true ->
  modified_only names df (setitem name values df).
Proof.
  intros Hin Hhas. unfold setitem. rewrite Hhas. split; [reflexivity|]. simpl.
  apply Forall2_map_relabel. intro c.
  destruct (labelled name c) eqn:Hl.
  - apply labelled_true in Hl. simpl. split; [now symmetry|].
    intro Hn. exfalso. apply Hn. now rewrite Hl.
  - now split.
Qed.

Lemma modified_only_set_at (names : list string) (i : nat) (name : string) (v : cell)
  (df : DataFrame) :
  In name names -> modified_only names df (set_at i name v df).
Proof.
  intro Hin. split; [reflexivity|]. simpl.
  apply Forall2_map_relabel. intro c.
  destruct (labelled name c) eqn:Hl.
  - apply labelled_true in Hl. simpl. split; [reflexivity|].
    intro Hn. exfalso. apply Hn. now rewrite Hl.
  - now split.
Qed.

Lemma modified_only_columns (names : list string) (df out : DataFrame) :
  modified_only names df out -> columns out = columns df.
Proof.
  intros [_ F]. unfold columns.
  induction F as [|x y l l' [Hl _] _ IH]; simpl; [reflexivity|]. now rewrite Hl, IH.
Qed.

Lemma modified_only_nth_error (names : list string) (df out : DataFrame) (j : nat)
  (c : string * list cell) :
  modified_only names df out ->
  nth_error (cols out) j = Some c -> ~ In (fst c) names ->
  nth_error (cols df) j = Some c.
Proof.
  intros [_ F]. revert j.
  induction F as [|x y l l' [Hl Hx] _ IH]; intros [|j] Hj Hn; simpl in *;
    try discriminate.
  - injection Hj as <-. rewrite Hx; [reflexivity|]. now rewrite <- Hl.
  - now apply IH.
Qed.

Lemma for_each_invariant {S : Type} (P : S -> Prop) (body : S -> nat -> outcome S)
  (l : list nat) (s s' : S) :
  (forall s i s', P s -> body s i = Done s' -> P s') ->
  P s -> for_each body l s = Done s' -> P s'.
Proof.
  intro Hstep. revert s. induction l as [|i l IH]; intros s Hs H; simpl in H.
  - now injection H as <-.
  - destruct (body s i) as [s1|e] eqn:Hb; [|discriminate].
    eapply IH; [|exact H]. eapply Hstep; eassumption.
Qed.

Lemma extract_row_modifies (pins : list cell) (sources : list (outcome (list cell)))
  (df : DataFrame) (st st' : DataFrame * nat) (i : nat) :
  modified_only ["AddrePincode"; "AddreCity"] df (fst st) ->
  extract_row pins sources st i = Done st' ->
  modified_only ["AddrePincode"; "AddreCity"] df (fst st').
Proof.
  intros Hst. unfold extract_row.
  destruct (negb (truthy (nth i pins NaN))); [|now intro H; injection H as <-].
  destruct (scan_address sources i) as [pin|e]; [|discriminate].
  destruct (negb (is_empty pin)); intro H; injection H as <-; [|exact Hst].
  simpl. eapply modified_only_trans; [exact Hst|].
  apply modified_only_set_at. now left.
Qed.

Lemma process_pincodes_modifies (df out : DataFrame) (l : list LogMsg) :
  has_column "AddrePincode" df = true ->
  process_pincodes df = (l, Done out) ->
  modified_only ["AddrePincode"; "AddreCity"] df out.
Proof.
  intros Hhas. unfold process_pincodes. rewrite Hhas. intro H.
  apply bind_Done in H. destruct H as [l1 [u [l2 [_ [H ->]]]]].
  apply bind_Done in H. destruct H as [l3 [col [l4 [_ [H ->]]]]].
  apply bind_Done in H. destruct H as [l5 [pins [l6 [_ [H ->]]]]].
  apply bind_Done in H. destruct H as [l7 [st [l8 [Hloop [H ->]]]]].
  apply bind_Done in H. destruct H as [l9 [u' [l10 [_ [H ->]]]]].
  apply ret_Done in H. destruct H as [<- _].
  apply lift_Done in Hloop. destruct Hloop as [Hloop _].
  set (df1 := setitem "AddrePincode" _ df) in *.
  assert (H1 : modified_only ["AddrePincode"; "AddreCity"] df df1)
    by (apply modified_only_setitem; [now left|exact Hhas]).
  apply (for_each_invariant
           (fun s => modified_only ["AddrePincode"; "AddreCity"] df (fst s))
           _ _ (df1, 0) st (fun s i s' => extract_row_modifies _ _ df s s' i) H1 Hloop).
Qed.

Lemma city_rows_modify (pin_df : list RefEntry) (cities pins : list cell)
  (df : DataFrame) (rows : list nat) (st : DataFrame * nat * list LogMsg) :
  modified_only ["AddrePincode"; "AddreCity"] df (fst (fst st)) ->
  modified_only ["AddrePincode"; "AddreCity"] df
    (fst (fst (fold_left (city_row pin_df cities pins) rows st))).
Proof.
  revert st. induction rows as [|i rows IH]; intros st Hst; [exact Hst|]. simpl.
  apply IH. destruct st as [[d n] lg]. unfold city_row.
  destruct ((negb (truthy (nth i cities NaN)) || cell_eqb (nth i cities NaN) (Str ""))
            && truthy (nth i pins NaN)); [|exact Hst].
  destruct (lookup_city pin_df (nth i pins NaN)); [|exact Hst].
  simpl in *. eapply modified_only_trans; [exact Hst|].
  apply modified_only_set_at. right. now left.
Qed.

Lemma process_cities_modifies (pin_df : list RefEntry) (df out : DataFrame)
  (l : list LogMsg) :
  has_column "AddreCity" df = true ->
  process_cities pin_df df = (l, Done out) ->
  modified_only ["AddrePincode"; "AddreCity"] df out.
Proof.
  intros Hhas. unfold process_cities. rewrite Hhas. intro H.
  apply bind_Done in H. destruct H as [l1 [u [l2 [_ [H ->]]]]].
  apply bind_Done in H. destruct H as [l3 [col [l4 [_ [H ->]]]]].
  apply bind_Done in H. destruct H as [l5 [cities [l6 [_ [H ->]]]]].
  apply bind_Done in H. destruct H as [l7 [pins [l8 [_ [H ->]]]]].
  apply bind_Done in H. destruct H as [l9 [u' [l10 [_ [H ->]]]]].
  apply bind_Done in H. destruct H as [l11 [u'' [l12 [_ [H ->]]]]].
  apply ret_Done in H. destruct H as [<- _].
  apply city_rows_modify. simpl.
  apply modified_only_setitem; [right; now left|exact Hhas].
Qed.

Lemma process_pincodes_and_cities_modifies (pin_df : list RefEntry)
  (df out : DataFrame) (l : list LogMsg) :
  has_column "AddrePincode" df = true ->
  has_column "AddreCity" df = true ->
  process_pincodes_and_cities df pin_df = (l, Done out) ->
  modified_only ["AddrePincode"; "AddreCity"] df out.
Proof.
  intros Hp Hc H. unfold process_pincodes_and_cities in H.
  apply bind_Done in H. destruct H as [l1 [u [l2 [_ [H ->]]]]].
  apply bind_Done in H. destruct H as [l3 [df1 [l4 [H1 [H2 ->]]]]].
  pose proof (process_pincodes_modifies _ _ _ Hp H1) as M1.
  eapply modified_only_trans; [exact M1|].
  eapply process_cities_modifies; [|exact H2].
  apply has_column_In. rewrite (modified_only_columns _ _ _ M1).
  now apply has_column_In.
Qed.

(** *** Stacked columns *)




(** ** The run *)

Lemma written_Some (w : World) (base_directory output_file : string)
  (final_df : DataFrame) :
  written (merge_customer_files w base_directory) = Some (output_file, final_df) ->
  exists concatenated l,
    concat (merged_batch w) = Done concatenated
    /\ process_pincodes_and_cities concatenated
         (fst (load_pin_database w (path_join base_directory "PIN.xlsx")))
       = (l, Done final_df).
Proof.
  unfold merge_customer_files, merged_batch.
  destruct (load_pin_database w (path_join base_directory "PIN.xlsx"))
    as [pin_df log_pin].
  destruct pin_df as [|entry pin_df]; [discriminate|].
  destruct (load_sender_details w) as [sender_details log_sender].
  destruct (negb (input_directory_exists w)); [discriminate|].
  cbv zeta. unfold write_output. rewrite process_files_merged.
  cbn [merged_dataframes app fst].
  destruct (flat_map (contribution w sender_details) (input_files_of w))
    as [|f rest] eqn:Hm; [discriminate|].
  destruct (concat (f :: rest)) as [concatenated|e] eqn:Hc.
  - unfold lift, bind.
    destruct (process_pincodes_and_cities concatenated (entry :: pin_df))
      as [l [final|e]] eqn:Hp; [|discriminate].
    cbn [written]. intro H. injection H as _ <-.
    now exists concatenated, l.
  - discriminate.
Qed.

Lemma merged_batch_appended (w : World) (out : DataFrame) :
  In out (merged_batch w) ->
  exists filename current_df sender_row,
    In filename (input_files_of w)
    /\ appended_from w (fst (load_sender_details w)) filename current_df sender_row out.
Proof.
  unfold merged_batch. intro H. apply in_flat_map in H.
  destruct H as [filename [Hf Hout]].
  apply contribution_appended in Hout. destruct Hout as [current_df [sender_row H]].
  now exists filename, current_df, sender_row.
Qed.

Lemma merged_batch_canonical (w : World) (out : DataFrame) :
  In out (merged_batch w) -> canonical_labels (columns out).
Proof.
  intro H. apply merged_batch_appended in H.
  destruct H as [filename [current_df [sender_row [_ H]]]].
  now apply appended_frame in H.
Qed.

Lemma canonical_labels_In (labels : list string) (c : string) :
  canonical_labels labels -> In c output_columns -> In c labels.
Proof.
  intros [times [-> Hone]] Hc. apply in_flat_map. exists c. split; [exact Hc|].
  specialize (Hone c Hc). destruct (times c); [lia|now left].
Qed.

(** *** How often a label occurs *)





















(** ** The address columns *)

Lemma get_matching_columns_In (df : DataFrame) (possible_names col : string) :
  In col (get_matching_columns df possible_names) <->
  In col (columns df)
  /\ exists name, In name (possible_names_of possible_names)
                  /\ lower (strip col) = lower name.
Proof.
  unfold get_matching_columns. rewrite in_flat_map. split.
  - intros [name [Hn Hin]]. apply filter_In in Hin. destruct Hin as [Hin Hm].
    split; [exact Hin|]. exists name. split; [exact Hn|].
    now apply String.eqb_eq.
  - intros [Hin [name [Hn Hm]]]. exists name. split; [exact Hn|].
    apply filter_In. split; [exact Hin|]. now apply String.eqb_eq.
Qed.

Lemma get_matching_columns_alias_order (df : DataFrame) (name : string)
  (names : list string) :
  flat_map (fun n => filter (col_matches n) (columns df)) (name :: names)
  = filter (col_matches name) (columns df)
    ++ flat_map (fun n => filter (col_matches n) (columns df)) names.
Proof. reflexivity. Qed.

(** C3, as the code has it: in every frame appended to the batch, when
    some address column matched, [AddreADD1] holds for each row the
    texts of the matched columns that are not empty (a missing value is
    empty), joined with a comma and a space and then trimmed.  The
    matched columns come alias by alias in the order of the alias list,
    and within one alias in table order; a column matched by several
    aliases comes once for each.  [get_matching_columns] returns exactly
    the columns whose trimmed, lowercased label equals a lowercased
    alias. *)
Theorem address_joined_in_alias_order (w : World) (out : DataFrame) :
  In out (merged_batch w) ->
  (exists filename current_df sender_row,
      appended_from w (fst (load_sender_details w)) filename current_df sender_row out
      /\ address_joined (renamed current_df) out)
  /\ (forall df possible_names col,
        In col (get_matching_columns df possible_names) <->
        In col (columns df)
        /\ exists name, In name (possible_names_of possible_names)
                        /\ lower (strip col) = lower name)
  /\ (forall df possible_names,
        get_matching_columns df possible_names =
        flat_map (fun name => filter (fun col => String.eqb (lower (strip col)) (lower name))
                                     (columns df))
                 (map strip (split_Or possible_names))).
Proof.
  intro Hout. split; [|split].
  - destruct (merged_batch_appended w out Hout)
      as [filename [current_df [sender_row [_ Happ]]]].
    exists filename, current_df, sender_row. split; [exact Happ|].
    now apply appended_frame in Happ.
  - apply get_matching_columns_In.
  - reflexivity.
Qed.

Lemma address_joined_in_alias_order_witness :
  In sample_appended (merged_batch (sample_world ["acme-1.txt"]))
  /\ exists filename current_df sender_row,
       appended_from (sample_world ["acme-1.txt"])
         (fst (load_sender_details (sample_world ["acme-1.txt"])))
         filename current_df sender_row sample_appended
       /\ address_joined (renamed current_df) sample_appended.
Proof.
  assert (H : In sample_appended (merged_batch (sample_world ["acme-1.txt"])))
    by (vm_compute; left; reflexivity).
  split; [exact H|].
  exact (proj1 (address_joined_in_alias_order (sample_world ["acme-1.txt"])
                  sample_appended H)).
Defined.

(** C3 as stated fails.  The input has the columns [Name], [add 2],
    [add 1], [Address], in that order.  The matcher returns [add 1]
    before [add 2] and [Address] twice, not the table order; and the
    first row, whose [Address] is missing, is written as
    [Flat 4, near 100 000], not as the claim's
    [near 100 000, Flat 4,]. *)
Lemma address_not_in_table_order :
  get_matching_columns sample_input address_columns
    = ["add 1"; "add 2"; "Address"; "Address"]
  /\ matching_in_table_order sample_input address_columns
     = ["add 2"; "add 1"; "Address"]
  /\ get_matching_columns sample_input address_columns
     <> matching_in_table_order sample_input address_columns
  /\ joined_as_claimed sample_input 0 = "near 100 000, Flat 4,"
  /\ exists output_file final_df,
       written (merge_customer_files (sample_world ["acme-1.txt"]) "/base")
         = Some (output_file, final_df)
       /\ getitem "AddreADD1" final_df
          = Done [Str "Flat 4, near 100 000";
                  Str ("MG Road 400" ++ LF ++ "001, Thane, Thane")]
       /\ getitem "AddreADD1" final_df
          <> Done [Str (joined_as_claimed sample_input 0);
                   Str (joined_as_claimed sample_input 1)].
Proof.
  split; [vm_compute; reflexivity|]. split; [vm_compute; reflexivity|].
  split; [vm_compute; discriminate|]. split; [vm_compute; reflexivity|].
  do 2 eexists. split; [vm_compute; reflexivity|].
  split; [vm_compute; reflexivity|]. vm_compute. discriminate.
Qed.

(** ** The branch that blanks the sender fields *)

Lemma quiet_app (a b : list LogMsg) : quiet (a ++ b) <-> quiet a /\ quiet b.
Proof. unfold quiet. rewrite forallb_app. apply andb_true_iff. Qed.

Lemma quiet_not_In (l : list LogMsg) (filename : string) :
  quiet l -> ~ In (NoSenderDetails filename) l.
Proof.
  unfold quiet. rewrite forallb_forall. intros H Hin.
  specialize (H _ Hin). discriminate.
Qed.

Lemma quiet_bind {A B : Type} (m : M A) (k : A -> M B) :
  quiet (fst m) -> (forall a, quiet (fst (k a))) -> quiet (fst (bind m k)).
Proof.
  intros Hm Hk. unfold bind. destruct m as [l [a|e]]; simpl in *; [|exact Hm].
  specialize (Hk a). destruct (k a) as [l' r]. simpl in *.
  apply quiet_app. now split.
Qed.

Lemma quiet_lift {A : Type} (o : outcome A) : quiet (fst (lift o)).
Proof. reflexivity. Qed.

Lemma quiet_ret {A : Type} (a : A) : quiet (fst (ret a)).
Proof. reflexivity. Qed.

Ltac quiet_steps :=
  repeat first
    [ apply quiet_lift
    | apply quiet_ret
    | reflexivity
    | apply quiet_bind; [|intro] ].

Lemma quiet_build_mapping (current_df : DataFrame) :
  quiet (snd (build_mapping current_df)).
Proof.
  unfold build_mapping.
  assert (H : forall entries acc, quiet (snd acc) ->
    quiet (snd (fold_left
      (fun acc entry =>
         match get_single_matching_column current_df (snd entry) with
         | Some source_col =>
             if negb (is_empty source_col)
             then (dict_set source_col (fst entry) (fst acc),
                   snd acc ++ [Mapped source_col (fst entry)])
             else acc
         | None => acc
         end) entries acc))).
  { induction entries as [|entry entries IH]; intros acc Hacc; [exact Hacc|].
    simpl. apply IH.
    destruct (get_single_matching_column current_df (snd entry)) as [c|]; [|exact Hacc].
    destruct (negb (is_empty c)); [|exact Hacc].
    simpl. apply quiet_app. now split. }
  now apply H.
Qed.

Lemma quiet_enrich (sender_row : DataFrame) (filename sheet_name base_filename : string)
  (current_df : DataFrame) :
  df_empty sender_row = false ->
  quiet (fst (enrich sender_row filename sheet_name base_filename current_df)).
Proof.
  intro Hrow. unfold enrich. quiet_steps.
  - rewrite map_columns_renamed. simpl. apply quiet_app. split; [|reflexivity].
    apply quiet_build_mapping.
  - unfold process_address_columns.
    destruct (get_matching_columns a0 address_columns); quiet_steps.
  - now rewrite add_sender_information_matched.
Qed.

Lemma quiet_after_read (w : World) (sender_details : DataFrame) (filename : string)
  (current_df : DataFrame) (sheet_name : string) :
  quiet (fst (after_read w sender_details filename current_df sheet_name)).
Proof.
  unfold after_read. quiet_steps.
  destruct (df_empty a0) eqn:Hrow; simpl; [reflexivity|].
  apply quiet_bind; [now apply quiet_enrich|intro; reflexivity].
Qed.

Lemma process_file_log (w : World) (sender_details : DataFrame) (st : LoopState)
  (filename : string) :
  exists l, loop_log (process_file w sender_details st filename)
            = loop_log st ++ ProcessingFile filename :: l
            /\ quiet l.
Proof.
  unfold process_file.
  destruct (read_input w filename) as [[current_df sheet_name]|msg] eqn:Hread.
  - pose proof (quiet_after_read w sender_details filename current_df sheet_name) as Hq.
    destruct (after_read w sender_details filename current_df sheet_name)
      as [l [[df|]|e]]; simpl in *.
    + exists (l ++ [SuccessfullyProcessed filename]).
      split; [now rewrite <- !app_assoc|]. apply quiet_app. now split.
    + exists l. split; [now rewrite <- !app_assoc|exact Hq].
    + exists (l ++ [ErrorProcessing filename e; Traceback]).
      split; [now rewrite <- !app_assoc|]. apply quiet_app. now split.
  - exists [msg; Traceback]. simpl. split; [now rewrite <- !app_assoc|].
    unfold read_input in Hread.
    destruct (endswith_any filename [".xlsx"; ".xls"]).
    + destruct (read_excel w filename); [discriminate|]. now injection Hread as <-.
    + destruct (read_csv w filename); [discriminate|]. now injection Hread as <-.
Qed.

Lemma process_files_log (w : World) (sender_details : DataFrame)
  (files : list string) (st : LoopState) :
  exists l, loop_log (process_files w sender_details files st) = loop_log st ++ l
            /\ quiet l
            /\ forall filename, In filename files -> In (ProcessingFile filename) l.
Proof.
  unfold process_files. revert st.
  induction files as [|f files IH]; intro st; simpl.
  - exists []. rewrite app_nil_r. repeat split. intros ? [].
  - destruct (IH (process_file w sender_details st f)) as [l [Hl [Hq Hin]]].
    destruct (process_file_log w sender_details st f) as [l1 [Hl1 Hq1]].
    exists (ProcessingFile f :: l1 ++ l). rewrite Hl, Hl1. split; [|split].
    + now rewrite <- app_assoc.
    + change (quiet ([ProcessingFile f] ++ l1 ++ l)).
      apply quiet_app. split; [reflexivity|]. apply quiet_app. now split.
    + intros filename [->|Hf]; [now left|].
      right. apply in_or_app. right. now apply Hin.
Qed.

Lemma quiet_city_rows (pin_df : list RefEntry) (cities pins : list cell)
  (rows : list nat) (st : DataFrame * nat * list LogMsg) :
  quiet (snd st) ->
  quiet (snd (fold_left (city_row pin_df cities pins) rows st)).
Proof.
  revert st. induction rows as [|i rows IH]; intros st Hst; [exact Hst|]. simpl.
  apply IH. destruct st as [[d n] lg]. unfold city_row.
  destruct ((negb (truthy (nth i cities NaN)) || cell_eqb (nth i cities NaN) (Str ""))
            && truthy (nth i pins NaN)); [|exact Hst].
  destruct (lookup_city pin_df (nth i pins NaN)); [exact Hst|].
  simpl in *. apply quiet_app. now split.
Qed.

Lemma quiet_process_pincodes_and_cities (df : DataFrame) (pin_df : list RefEntry) :
  quiet (fst (process_pincodes_and_cities df pin_df)).
Proof.
  unfold process_pincodes_and_cities. quiet_steps.
  - unfold process_pincodes. destruct (has_column "AddrePincode" df); quiet_steps.
  - unfold process_cities. destruct (has_column "AddreCity" a0); quiet_steps.
    unfold tell. simpl. now apply quiet_city_rows.
Qed.

Lemma write_output_log (w : World) (output_directory : string)
  (pin_df : list RefEntry) (st : LoopState) :
  exists l, run_log (write_output w output_directory pin_df st) = loop_log st ++ l
            /\ quiet l.
Proof.
  unfold write_output. destruct (merged_dataframes st) as [|f rest].
  - now exists [NoFilesProcessed].
  - assert (Hq : quiet (fst (final_df <- lift (concat (f :: rest)) ;;
                             process_pincodes_and_cities final_df pin_df))).
    { apply quiet_bind; [apply quiet_lift|].
      intro. apply quiet_process_pincodes_and_cities. }
    destruct (final_df <- lift (concat (f :: rest)) ;;
              process_pincodes_and_cities final_df pin_df) as [l [final|e]];
      simpl in *; eexists; (split; [reflexivity|]); apply quiet_app; now split.
Qed.

Lemma quiet_identify_columns (labels : list string) :
  quiet (fst (identify_columns labels)).
Proof.
  unfold identify_columns.
  destruct (exact_columns labels) as [p c].
  destruct (not_col p); destruct (partial_column "PIN" labels);
    destruct (not_col c); destruct (partial_column "CITY" labels);
    repeat match goal with
           | |- context [if ?b then _ else _] => destruct b
           | |- context [match ?x with _ => _ end] => destruct x
           end; reflexivity.
Qed.

Lemma quiet_load_pin_database (w : World) (pin_file_path : string) :
  quiet (snd (load_pin_database w pin_file_path)).
Proof.
  unfold load_pin_database.
  assert (Hr : quiet (fst (read_pin_sheet w))).
  { unfold read_pin_sheet. destruct (read_pin_tblpincity w); [reflexivity|].
    destruct (read_pin_first_sheet w) as [[sheet pin_df]|e2]; reflexivity. }
  destruct (read_pin_sheet w) as [log1 [pin_df|]]; simpl in *.
  - pose proof (quiet_identify_columns (columns pin_df)) as Hi.
    destruct (identify_columns (columns pin_df)) as [log3 [[pc cc]|]]; simpl in *.
    + destruct (negb (has_column pc pin_df) || negb (has_column cc pin_df)); simpl.
      * apply (quiet_app [_]). split; [reflexivity|].
        apply quiet_app. split; [exact Hr|].
        apply (quiet_app [_]). split; [reflexivity|]. apply quiet_app. now split.
      * destruct (getitem pc pin_df), (getitem cc pin_df); simpl;
          apply (quiet_app [_]); (split; [reflexivity|]);
          apply quiet_app; (split; [exact Hr|]);
          apply (quiet_app [_]); (split; [reflexivity|]); apply quiet_app; now split.
    + apply (quiet_app [_]). split; [reflexivity|].
      apply quiet_app. split; [exact Hr|].
      apply (quiet_app [_]). now split.
  - apply (quiet_app [_]). now split.
Qed.

Lemma quiet_run (w : World) (base_directory : string) :
  quiet (run_log (merge_customer_files w base_directory)).
Proof.
  unfold merge_customer_files.
  pose proof (quiet_load_pin_database w (path_join base_directory "PIN.xlsx")) as Hpin.
  destruct (load_pin_database w (path_join base_directory "PIN.xlsx"))
    as [pin_df log_pin]. simpl in Hpin.
  assert (H0 : quiet (preamble base_directory)) by reflexivity.
  destruct pin_df as [|entry pin_df].
  - cbn [run_log]. apply quiet_app. split; [exact H0|]. apply quiet_app. now split.
  - assert (Hs : quiet (snd (load_sender_details w)))
      by (unfold load_sender_details; now destruct (read_sender_details w)).
    destruct (load_sender_details w) as [sender_details log_sender]. simpl in Hs.
    destruct (negb (input_directory_exists w)).
    + cbn [run_log]. apply quiet_app. split; [exact H0|]. apply quiet_app.
      split; [exact Hpin|]. apply quiet_app. now split.
    + cbv zeta.
      match goal with
      | |- quiet (run_log (write_output ?w' ?d ?p (process_files ?w' ?sd ?fs ?st0))) =>
          destruct (write_output_log w' d p (process_files w' sd fs st0)) as [l [-> Hl]];
          destruct (process_files_log w' sd fs st0) as [l' [-> [Hl' _]]]
      end.
      cbn [loop_log]. repeat (apply quiet_app; split); try assumption; reflexivity.
Qed.

(** *** The first matching sender row *)

Lemma first_true_of_kept (mask : list bool) :
  filter (fun b : bool => b) mask <> [] -> exists k, first_true mask = Some k.
Proof.
  induction mask as [|[|] mask IH]; simpl; intro H.
  - contradiction.
  - now exists 0.
  - destruct (IH H) as [k ->]. now exists (S k).
Qed.

Lemma first_true_spec (mask : list bool) (k : nat) :
  first_true mask = Some k ->
  nth k mask false = true /\ forall j, j < k -> nth j mask false = false.
Proof.
  revert k. induction mask as [|[|] mask IH]; simpl; intros k H.
  - discriminate.
  - injection H as <-. split; [reflexivity|]. intros j Hj. lia.
  - destruct (first_true mask) as [k'|]; [|discriminate]. injection H as <-.
    destruct (IH k' eq_refl) as [Hk Hbefore]. split; [exact Hk|].
    intros [|j] Hj; [reflexivity|]. apply Hbefore. lia.
Qed.

Lemma keep_masked_first {A : Type} (mask : list bool) (l : list A) (k : nat) (d : A) :
  first_true mask = Some k -> nth 0 (keep_masked mask l) d = nth k l d.
Proof.
  unfold keep_masked. revert l k.
  induction mask as [|[|] mask IH]; simpl; intros l k H.
  - discriminate.
  - injection H as <-. now destruct l.
  - destruct (first_true mask) as [k'|]; [|discriminate]. injection H as <-.
    destruct l as [|x l]; simpl; [reflexivity|]. now apply IH.
Qed.

(** What [iloc[0].get] finds in the rows a mask keeps is the field of
    the first row kept. *)
Lemma sender_value_first_row (mask : list bool) (sender_details : DataFrame)
  (k : nat) (field : string) :
  first_true mask = Some k ->
  sender_value (filter_rows mask sender_details) field
  = field_of_row sender_details k field.
Proof.
  intro Hk. unfold sender_value, series_get, iloc0, field_of_row, filter_rows, labelled.
  cbn [cols]. rewrite map_map. cbn [fst snd].
  induction (cols sender_details) as [|c l IH]; simpl; [reflexivity|].
  destruct (String.eqb (fst c) field); simpl; [|exact IH].
  now apply keep_masked_first.
Qed.

Lemma find_sender_row_first (w : World) (sender_details sender_row : DataFrame)
  (base_filename : string) :
  find_sender_row w sender_details base_filename = Done sender_row ->
  df_empty sender_row = false ->
  exists keys mask k,
    getitem "File Name Contain" sender_details = Done keys
    /\ str_contains w base_filename keys = Done mask
    /\ first_true mask = Some k
    /\ sender_row = filter_rows mask sender_details.
Proof.
  unfold find_sender_row. intros H Hrow.
  destruct (negb (df_empty sender_details));
    [|injection H as <-; discriminate].
  destruct (getitem "File Name Contain" sender_details) as [keys|e]; [|discriminate].
  destruct (str_contains w base_filename keys) as [mask|e] eqn:Hmask; [|discriminate].
  injection H as <-.
  assert (Hkept : filter (fun b : bool => b) mask <> []).
  { intro Hnil. unfold df_empty, filter_rows in Hrow. cbn [nrows] in Hrow.
    rewrite Hnil in Hrow. discriminate. }
  destruct (first_true_of_kept mask Hkept) as [k Hk].
  now exists keys, mask, k.
Qed.

(** C9, as the code has it: no run logs the message of the branch that
    blanks the sender fields, so that branch is never taken; every frame
    appended to the merged batch belongs to a file whose key matched a
    row of the sender table, and carries in each of its six sender
    columns, on every row, the value of that field in the first matching
    row of the table, and the empty string when the table has no column
    of that name. *)
Theorem blank_sender_branch_unreachable (w : World) (base_directory : string) :
  (forall filename,
      ~ In (NoSenderDetails filename) (run_log (merge_customer_files w base_directory)))
  /\ (forall out, In out (merged_batch w) ->
        exists filename current_df sender_row keys mask k,
          In filename (input_files_of w)
          /\ appended_from w (fst (load_sender_details w))
               filename current_df sender_row out
          /\ df_empty sender_row = false
          /\ getitem "File Name Contain" (fst (load_sender_details w)) = Done keys
          /\ str_contains w (base_filename_of filename) keys = Done mask
          /\ first_true mask = Some k
          /\ nth k mask false = true
          /\ (forall j, j < k -> nth j mask false = false)
          /\ forall field, In field sender_fields ->
               has_column field out = true
               /\ column_is field
                    (repeat (field_of_row (fst (load_sender_details w)) k field)
                            (nrows out))
                    out).
Proof.
  split.
  - intro filename. apply quiet_not_In, quiet_run.
  - intros out Hout.
    destruct (merged_batch_appended w out Hout)
      as [filename [current_df [sender_row [Hf Happ]]]].
    pose proof Happ as [sheet_name [l [_ [Hfind [Hrow _]]]]].
    destruct (find_sender_row_first _ _ _ _ Hfind Hrow)
      as [keys [mask [k [Hkeys [Hmask [Hk Hsel]]]]]].
    destruct (first_true_spec mask k Hk) as [Hat Hbefore].
    exists filename, current_df, sender_row, keys, mask, k.
    repeat (split; [assumption|]).
    intros field Hfield.
    destruct (appended_frame _ _ _ _ _ _ Happ) as [_ [_ [Hcopied _]]].
    destruct (Hcopied field Hfield) as [Hhas Hval]. split; [exact Hhas|].
    rewrite <- (sender_value_first_row mask _ k field Hk), <- Hsel. exact Hval.
Qed.

Lemma blank_sender_branch_unreachable_witness :
  exists filename current_df sender_row keys mask k,
    In filename (input_files_of (sample_world ["acme-1.txt"]))
    /\ appended_from (sample_world ["acme-1.txt"])
         (fst (load_sender_details (sample_world ["acme-1.txt"])))
         filename current_df sender_row sample_appended
    /\ df_empty sender_row = false
    /\ getitem "File Name Contain"
         (fst (load_sender_details (sample_world ["acme-1.txt"]))) = Done keys
    /\ str_contains (sample_world ["acme-1.txt"]) (base_filename_of filename) keys
       = Done mask
    /\ first_true mask = Some k
    /\ nth k mask false = true
    /\ (forall j, j < k -> nth j mask false = false)
    /\ forall field, In field sender_fields ->
         has_column field sample_appended = true
         /\ column_is field
              (repeat (field_of_row
                         (fst (load_sender_details (sample_world ["acme-1.txt"]))) k field)
                      (nrows sample_appended))
              sample_appended.
Proof.
  apply (proj2 (blank_sender_branch_unreachable (sample_world ["acme-1.txt"]) "/base")).
  vm_compute. left. reflexivity.
Defined.

(** C9 as stated fails: a sender table that has the key column and none
    of the six sender columns matches the file, the frame is appended,
    and each of its six sender columns holds the empty string on every
    row: the default of [get], not a value of the matching row. *)
Lemma sender_fields_blank_defaulted :
  exists out,
    merged_batch world_with_keys_only = [out]
    /\ nrows out = 2
    /\ map (fun field => getitem field out) sender_fields
       = repeat (Done [Str ""; Str ""]) 6
    /\ map (fun field => has_column field (fst (load_sender_details world_with_keys_only)))
           sender_fields
       = repeat false 6
    /\ forall filename,
         ~ In (NoSenderDetails filename)
              (run_log (merge_customer_files world_with_keys_only "/base")).
Proof.
  eexists. split; [vm_compute; reflexivity|].
  split; [reflexivity|]. split; [reflexivity|]. split; [reflexivity|].
  intro filename. apply quiet_not_In, quiet_run.
Qed.

(** ** Files without a sender *)

Lemma prefix_occurs (k s : string) :
  String.prefix k s = true -> exists after, s = (k ++ after)%string.
Proof.
  revert s. induction k as [|a k IH]; intros [|b s] H; simpl in *.
  - now exists "".
  - now exists (String b s).
  - discriminate.
  - destruct (ascii_dec a b) as [->|]; [|discriminate].
    destruct (IH s H) as [after ->]. now exists after.
Qed.

Lemma contains_occurs (k s : string) :
  contains k s = true -> exists before after, s = (before ++ k ++ after)%string.
Proof.
  induction s as [|c s IH]; intro H; cbn [contains] in H; apply orb_true_iff in H.
  - destruct H as [H|H]; [|discriminate].
    apply prefix_occurs in H. destruct H as [after ->]. now exists "", after.
  - destruct H as [H|H].
    + apply prefix_occurs in H. destruct H as [after ->]. now exists "", after.
    + destruct (IH H) as [before [after ->]]. now exists (String c before), after.
Qed.

Lemma contains_unfold (k s : string) :
  contains k s = String.prefix k s
                 || match s with EmptyString => false | String _ r => contains k r end.
Proof. now destruct s. Qed.

Lemma prefix_append (k after : string) : String.prefix k (k ++ after) = true.
Proof.
  induction k as [|a k IH]; simpl; [now destruct after|].
  destruct (ascii_dec a a); [exact IH|congruence].
Qed.

Lemma occurs_contains (k before after : string) :
  contains k (before ++ k ++ after) = true.
Proof.
  induction before as [|c before IH]; simpl.
  - rewrite contains_unfold, prefix_append. reflexivity.
  - rewrite IH. apply orb_true_r.
Qed.

Lemma filter_rows_none (mask : list bool) (df : DataFrame) :
  (forall b, In b mask -> b = false) -> df_empty (filter_rows mask df) = true.
Proof.
  intro H. unfold df_empty, filter_rows. simpl.
  replace (filter (fun b : bool => b) mask) with (@nil bool); [reflexivity|].
  symmetry. induction mask as [|b mask IH]; [reflexivity|]. simpl.
  rewrite (H b (or_introl eq_refl)). apply IH. intros b' Hb'. apply H. now right.
Qed.

Lemma find_sender_row_unmatched (w : World) (sender_details : DataFrame)
  (key : string) (sender_row : DataFrame) :
  is_literal_pattern key = true ->
  (forall keys s, getitem "File Name Contain" sender_details = Done keys ->
                  In (Str s) keys -> ~ occurs_ignorecase key s) ->
  find_sender_row w sender_details key = Done sender_row ->
  df_empty sender_row = true.
Proof.
  intros Hlit Hnone. unfold find_sender_row.
  destruct (negb (df_empty sender_details)); [|now intro H; injection H as <-].
  destruct (getitem "File Name Contain" sender_details) as [keys|e] eqn:Hkeys;
    [|discriminate].
  unfold str_contains. destruct (negb (has_str_accessor keys)); [discriminate|].
  rewrite Hlit. intro H. injection H as <-.
  apply filter_rows_none. intros b Hb. apply in_map_iff in Hb.
  destruct Hb as [v [<- Hv]]. destruct v as [|s|z]; try reflexivity.
  destruct (contains (lower key) (lower s)) eqn:Hc; [|reflexivity].
  exfalso. apply (Hnone keys s eq_refl Hv). now apply contains_occurs.
Qed.

Lemma contribution_unmatched (w : World) (sender_details : DataFrame)
  (filename : string) :
  is_literal_pattern (base_filename_of filename) = true ->
  (forall keys s, getitem "File Name Contain" sender_details = Done keys ->
                  In (Str s) keys -> ~ occurs_ignorecase (base_filename_of filename) s) ->
  contribution w sender_details filename = [].
Proof.
  intros Hlit Hnone.
  destruct (contribution w sender_details filename) as [|out rest] eqn:Hc;
    [reflexivity|].
  exfalso.
  assert (Hin : In out (contribution w sender_details filename))
    by (rewrite Hc; now left).
  apply contribution_appended in Hin.
  destruct Hin as [current_df [sender_row [sheet_name [l [_ [Hfind [Hrow _]]]]]]].
  rewrite (find_sender_row_unmatched _ _ _ _ Hlit Hnone Hfind) in Hrow. discriminate.
Qed.

Lemma written_with_listing (w : World) (base_directory : string) (listing : list string) :
  merged_batch (with_listing w listing) = merged_batch w ->
  written (merge_customer_files (with_listing w listing) base_directory)
  = written (merge_customer_files w base_directory).
Proof.
  intro Hsame. unfold merge_customer_files.
  change (load_pin_database (with_listing w listing))
    with (load_pin_database w).
  destruct (load_pin_database w (path_join base_directory "PIN.xlsx"))
    as [pin_df log_pin].
  destruct pin_df as [|entry pin_df]; [reflexivity|].
  change (load_sender_details (with_listing w listing))
    with (load_sender_details w) in *.
  change (input_directory_exists (with_listing w listing))
    with (input_directory_exists w).
  unfold merged_batch in Hsame.
  change (load_sender_details (with_listing w listing))
    with (load_sender_details w) in Hsame.
  destruct (load_sender_details w) as [sender_details log_sender].
  destruct (negb (input_directory_exists w)); [reflexivity|].
  cbv zeta. unfold write_output. rewrite !process_files_merged.
  cbn [merged_dataframes app fst] in *. rewrite Hsame.
  destruct (flat_map (contribution w sender_details) (input_files_of w));
    [reflexivity|].
  change (today (with_listing w listing)) with (today w).
  destruct (final_df <- lift (concat (d :: l)) ;;
            process_pincodes_and_cities final_df (entry :: pin_df)) as [lg [final|e]];
    reflexivity.
Qed.

Lemma merged_batch_without (w : World) (before after : list string) (filename : string) :
  listdir_input w = before ++ filename :: after ->
  contribution w (fst (load_sender_details w)) filename = [] ->
  merged_batch (with_listing w (before ++ after)) = merged_batch w.
Proof.
  intros Hlist Hnone. unfold merged_batch, input_files_of.
  change (load_sender_details (with_listing w (before ++ after)))
    with (load_sender_details w).
  change (listdir_input (with_listing w (before ++ after))) with (before ++ after).
  change (contribution (with_listing w (before ++ after)))
    with (contribution w).
  rewrite Hlist, !filter_app, !flat_map_app. f_equal.
  cbn [filter].
  destruct (endswith_any filename [".txt"; ".csv"; ".xlsx"; ".xls"]); [|reflexivity].
  cbn [flat_map]. now rewrite Hnone.
Qed.

Lemma run_logs_every_file (w : World) (base_directory filename : string) :
  fst (load_pin_database w (path_join base_directory "PIN.xlsx")) <> [] ->
  input_directory_exists w = true ->
  In filename (input_files_of w) ->
  In (ProcessingFile filename) (run_log (merge_customer_files w base_directory)).
Proof.
  intros Hpin Hdir Hin. unfold merge_customer_files.
  destruct (load_pin_database w (path_join base_directory "PIN.xlsx"))
    as [pin_df log_pin].
  destruct pin_df as [|entry pin_df]; [now elim Hpin|].
  destruct (load_sender_details w) as [sender_details log_sender].
  rewrite Hdir. cbv zeta. cbn [negb].
  match goal with
  | |- In _ (run_log (write_output ?w' ?d ?p (process_files ?w' ?sd ?fs ?st0))) =>
      destruct (write_output_log w' d p (process_files w' sd fs st0)) as [l [-> _]];
      destruct (process_files_log w' sd fs st0) as [l' [-> [_ Hl']]]
  end.
  apply in_or_app. left. apply in_or_app. right. now apply Hl'.
Qed.

(** C2, as the code has it: an input file whose truncated name holds no
    character special to regular expressions, and occurs, letter case
    aside, in no string of the sender table's [File Name Contain] column,
    adds no frame to the merged batch; the file written, or its absence,
    is what the run gives without that file in the directory; and when
    the run reaches the loop and the file has one of the four extensions,
    its [ProcessingFile] message is in the log. *)
Theorem unmatched_file_adds_nothing (w : World) (base_directory : string)
  (before after : list string) (filename : string) :
  listdir_input w = before ++ filename :: after ->
  is_literal_pattern (base_filename_of filename) = true ->
  (forall keys s,
      getitem "File Name Contain" (fst (load_sender_details w)) = Done keys ->
      In (Str s) keys -> ~ occurs_ignorecase (base_filename_of filename) s) ->
  contribution w (fst (load_sender_details w)) filename = []
  /\ merged_batch w = merged_batch (with_listing w (before ++ after))
  /\ written (merge_customer_files w base_directory)
     = written (merge_customer_files (with_listing w (before ++ after)) base_directory)
  /\ (fst (load_pin_database w (path_join base_directory "PIN.xlsx")) <> [] ->
      input_directory_exists w = true ->
      endswith_any filename [".txt"; ".csv"; ".xlsx"; ".xls"] = true ->
      In (ProcessingFile filename) (run_log (merge_customer_files w base_directory))).
Proof.
  intros Hlist Hlit Hnone.
  pose proof (contribution_unmatched w _ filename Hlit Hnone) as Hc.
  pose proof (merged_batch_without w before after filename Hlist Hc) as Hm.
  split; [exact Hc|]. split; [now symmetry|]. split.
  - symmetry. now apply written_with_listing.
  - intros Hpin Hdir Hext. apply run_logs_every_file; try assumption.
    unfold input_files_of. rewrite Hlist. apply filter_In. split; [|exact Hext].
    apply in_or_app. right. now left.
Qed.

Lemma unmatched_file_adds_nothing_witness :
  written (merge_customer_files (sample_world ["acme-1.txt"; "zeta.txt"]) "/base")
  = written (merge_customer_files
               (with_listing (sample_world ["acme-1.txt"; "zeta.txt"]) ["acme-1.txt"])
               "/base")
  /\ In (ProcessingFile "zeta.txt")
        (run_log (merge_customer_files (sample_world ["acme-1.txt"; "zeta.txt"]) "/base")).
Proof.
  assert (Hnone : forall keys s,
             getitem "File Name Contain"
               (fst (load_sender_details (sample_world ["acme-1.txt"; "zeta.txt"])))
             = Done keys ->
             In (Str s) keys -> ~ occurs_ignorecase (base_filename_of "zeta.txt") s).
  { intros keys s Hk Hs [b [a Heq]]. injection Hk as <-.
    pose proof (occurs_contains (lower (base_filename_of "zeta.txt")) b a) as Hc.
    rewrite <- Heq in Hc.
    simpl in Hs. destruct Hs as [Hs|[Hs|[]]]; injection Hs as <-;
      vm_compute in Hc; discriminate Hc. }
  destruct (unmatched_file_adds_nothing (sample_world ["acme-1.txt"; "zeta.txt"]) "/base"
              ["acme-1.txt"] [] "zeta.txt" eq_refl eq_refl Hnone)
    as [_ [_ [Hw Hlog]]].
  split; [exact Hw|].
  apply Hlog; [vm_compute; discriminate|reflexivity|reflexivity].
Defined.

(** C2 as stated fails: the truncated name [A+B] of [A+B.txt] occurs in
    no sender key as a substring, letter case aside, yet as a regular
    expression it matches the key [AAB Traders], so the file's two rows
    are written. *)
Lemma regex_key_matches_without_occurring :
  (forall s, In (Str s) [Str "ACME Corp"; Str "AAB Traders"] ->
             ~ occurs_ignorecase (base_filename_of "A+B.txt") s)
  /\ is_literal_pattern (base_filename_of "A+B.txt") = false
  /\ exists output_file final_df,
       written (merge_customer_files (sample_world ["A+B.txt"]) "/base")
         = Some (output_file, final_df)
       /\ nrows final_df = 2
       /\ getitem "Input File Name" final_df = Done [Str "A+B.txt"; Str "A+B.txt"].
Proof.
  split; [|split; [reflexivity|]].
  - intros s Hs [b [a Heq]].
    pose proof (occurs_contains (lower (base_filename_of "A+B.txt")) b a) as Hc.
    rewrite <- Heq in Hc.
    simpl in Hs. destruct Hs as [Hs|[Hs|[]]]; injection Hs as <-;
      vm_compute in Hc; discriminate Hc.
  - do 2 eexists. split; [vm_compute; reflexivity|]. split; reflexivity.
Qed.

(** ** What the extraction can return *)

Lemma re_match_here_shape (pat : list re_item) (prev : option ascii) (s m : string) :
  re_match_here pat prev s = Some m -> item_shape pat m.
Proof.
  revert prev s m. induction pat as [|item pat IH]; intros prev s m H; simpl in *.
  - now injection H as <-.
  - destruct item as [|p|p].
    + destruct (at_boundary prev s); [|discriminate]. now apply IH in H.
    + unfold take_class in H. destruct s as [|c r]; [discriminate|].
      destruct (p c) eqn:Hc; [|discriminate].
      destruct (re_match_here pat (Some c) r) as [m'|] eqn:Hm; [|discriminate].
      injection H as <-. exists c, m'. split; [reflexivity|]. split; [exact Hc|].
      now apply IH in Hm.
    + unfold take_class in H. destruct s as [|c r].
      * left. now apply IH in H.
      * destruct (p c) eqn:Hc.
        -- destruct (re_match_here pat (Some c) r) as [m'|] eqn:Hm.
           ++ injection H as <-. right. exists c, m'.
              split; [reflexivity|]. split; [exact Hc|]. now apply IH in Hm.
           ++ left. now apply IH in H.
        -- left. now apply IH in H.
Qed.

Lemma re_search_shape (pat : list re_item) (s m : string) :
  re_search pat s = Some m -> item_shape pat m.
Proof.
  unfold re_search. generalize (@None ascii). induction s as [|c r IH]; intros prev H.
  - simpl in H. destruct (re_match_here pat prev "") eqn:Hm; [|discriminate].
    injection H as <-. now apply re_match_here_shape in Hm.
  - simpl in H. destruct (re_match_here pat prev (String c r)) eqn:Hm.
    + injection H as <-. now apply re_match_here_shape in Hm.
    + now apply IH in H.
Qed.

Lemma digit_is_not (c x : ascii) :
  isdigit c = true -> isdigit x = false -> Ascii.eqb c x = false.
Proof.
  intros Hc Hx. destruct (Ascii.eqb c x) eqn:E; [|reflexivity].
  apply Ascii.eqb_eq in E. subst. congruence.
Qed.

Lemma remove_char_cons (x c : ascii) (r : string) :
  remove_char x (String c r)
  = if Ascii.eqb c x then remove_char x r else String c (remove_char x r).
Proof. unfold remove_char. simpl. now destruct (Ascii.eqb c x). Qed.

Lemma six_digits_shape (m : string) : item_shape re_six_digits m -> is_pincode m = true.
Proof.
  unfold re_six_digits. simpl.
  intros [c1 [r1 [-> [H1 [c2 [r2 [-> [H2 [c3 [r3 [-> [H3
         [c4 [r4 [-> [H4 [c5 [r5 [-> [H5 [c6 [r6 [-> [H6 ->]]]]]]]]]]]]]]]]]]]]]]]].
  unfold is_pincode. simpl. now rewrite H1, H2, H3, H4, H5, H6.
Qed.

Ltac drop_separators :=
  repeat (rewrite remove_char_cons;
          match goal with
          | H : Ascii.eqb ?c ?x = _ |- context [Ascii.eqb ?c ?x] => rewrite H
          end).

Lemma three_three_shape (m : string) :
  item_shape re_three_three m ->
  extracted_shape (remove_char "-" (remove_char " " m)).
Proof.
  unfold re_three_three. simpl.
  intros [c1 [r1 [-> [H1 [c2 [r2 [-> [H2 [c3 [r3 [-> [H3 Hrest]]]]]]]]]]]].
  assert (Hs : forall c, isdigit c = true -> Ascii.eqb c " " = false)
    by (intros c Hc; now apply digit_is_not).
  assert (Hh : forall c, isdigit c = true -> Ascii.eqb c "-" = false)
    by (intros c Hc; now apply digit_is_not).
  destruct Hrest as
    [[c4 [r4 [-> [H4 [c5 [r5 [-> [H5 [c6 [r6 [-> [H6 ->]]]]]]]]]]]]
    |[sep [r0 [-> [Hsep [c4 [r4 [-> [H4 [c5 [r5 [-> [H5 [c6 [r6 [-> [H6 ->]]]]]]]]]]]]]]]]];
    pose proof (Hs c1 H1) as S1; pose proof (Hs c2 H2) as S2;
    pose proof (Hs c3 H3) as S3; pose proof (Hs c4 H4) as S4;
    pose proof (Hs c5 H5) as S5; pose proof (Hs c6 H6) as S6;
    pose proof (Hh c1 H1) as D1; pose proof (Hh c2 H2) as D2;
    pose proof (Hh c3 H3) as D3; pose proof (Hh c4 H4) as D4;
    pose proof (Hh c5 H5) as D5; pose proof (Hh c6 H6) as D6.
  - right. left. drop_separators. unfold is_pincode. simpl.
    now rewrite H1, H2, H3, H4, H5, H6.
  - destruct (Ascii.eqb sep " ") eqn:Es.
    + right. left. drop_separators. unfold is_pincode. simpl.
      now rewrite H1, H2, H3, H4, H5, H6.
    + destruct (Ascii.eqb sep "-") eqn:Ed.
      * right. left. drop_separators. unfold is_pincode. simpl.
        now rewrite H1, H2, H3, H4, H5, H6.
      * right. right. drop_separators.
        exists c1, c2, c3, sep, c4, c5, c6. split; [reflexivity|]. split.
        -- simpl. now rewrite H1, H2, H3, H4, H5, H6.
        -- unfold sep_class in Hsep. rewrite Ed, orb_false_r in Hsep.
           split; [exact Hsep|]. now apply Ascii.eqb_neq.
Qed.

(** The values [extract_pincode_from_text] returns: the empty string, six
    digits, or three digits, a whitespace character that is not a space,
    and three digits. *)
Lemma extract_pincode_shape (text : cell) :
  extracted_shape (extract_pincode_from_text text).
Proof.
  unfold extract_pincode_from_text. destruct (isna text); [now left|].
  destruct (re_search re_six_digits (str text)) as [m|] eqn:H6.
  - right. left. now apply six_digits_shape, re_search_shape with (s := str text).
  - destruct (re_search re_three_three (str text)) as [m|] eqn:H3; [|now left].
    now apply three_three_shape, re_search_shape with (s := str text).
Qed.

(** ** The pincodes after the post-merge pass *)

Lemma Forall_update {A : Type} (P : A -> Prop) (i : nat) (v : A) (l : list A) :
  P v -> Forall P l -> Forall P (update i v l).
Proof.
  intros Hv H. revert i. induction H as [|x l Hx Hl IH]; intros [|i]; simpl;
    constructor; auto.
Qed.

Lemma pincode_column_ok_setitem (values : list cell) (df : DataFrame) :
  Forall pincode_cell_ok values ->
  pincode_column_ok (setitem "AddrePincode" values df).
Proof.
  intros Hv c Hin Hc.
  now rewrite (column_is_setitem_same "AddrePincode" values df c Hin Hc).
Qed.

Lemma pincode_column_ok_setitem_other (name : string) (values : list cell)
  (df : DataFrame) :
  name <> "AddrePincode" ->
  pincode_column_ok df -> pincode_column_ok (setitem name values df).
Proof.
  intros Hne H c Hin Hc. unfold setitem in Hin.
  destruct (has_column name df); simpl in Hin.
  - apply in_map_iff in Hin. destruct Hin as [c0 [<- Hin0]].
    destruct (labelled name c0) eqn:Hl; [simpl in Hc; congruence|now apply H].
  - apply in_app_or in Hin. destruct Hin as [Hin|[<-|[]]]; [now apply H|].
    simpl in Hc. congruence.
Qed.

Lemma pincode_column_ok_set_at (i : nat) (name : string) (v : cell) (df : DataFrame) :
  (name = "AddrePincode" -> pincode_cell_ok v) ->
  pincode_column_ok df -> pincode_column_ok (set_at i name v df).
Proof.
  intros Hv H c Hin Hc. unfold set_at in Hin. simpl in Hin.
  apply in_map_iff in Hin. destruct Hin as [c0 [<- Hin0]].
  destruct (labelled name c0) eqn:Hl; [|now apply H].
  simpl in *. apply labelled_true in Hl.
  apply Forall_update; [apply Hv; congruence|now apply H].
Qed.

Lemma scan_address_shape (sources : list (outcome (list cell))) (i : nat) (pin : string) :
  scan_address sources i = Done pin -> extracted_shape pin.
Proof.
  induction sources as [|[col|e] sources IH]; simpl; intro H.
  - injection H as <-. now left.
  - destruct (negb (is_empty (extract_pincode_from_text (nth i col NaN)))).
    + injection H as <-. apply extract_pincode_shape.
    + now apply IH.
  - discriminate.
Qed.

Lemma process_pincodes_ok (df out : DataFrame) (l : list LogMsg) :
  process_pincodes df = (l, Done out) -> pincode_column_ok out.
Proof.
  unfold process_pincodes. destruct (has_column "AddrePincode" df); intro H.
  - apply bind_Done in H. destruct H as [l1 [u [l2 [_ [H ->]]]]].
    apply bind_Done in H. destruct H as [l3 [col [l4 [_ [H ->]]]]].
    apply bind_Done in H. destruct H as [l5 [pins [l6 [_ [H ->]]]]].
    apply bind_Done in H. destruct H as [l7 [st [l8 [Hloop [H ->]]]]].
    apply bind_Done in H. destruct H as [l9 [u' [l10 [_ [H ->]]]]].
    apply ret_Done in H. destruct H as [<- _].
    apply lift_Done in Hloop. destruct Hloop as [Hloop _].
    set (df1 := setitem "AddrePincode" _ df) in *.
    assert (H1 : pincode_column_ok df1).
    { apply pincode_column_ok_setitem. apply Forall_forall. intros v Hv.
      apply in_map_iff in Hv. destruct Hv as [v0 [<- _]].
      eexists. split; [reflexivity|].
      destruct (clean_pincode_shape (Str (str (fillna_empty v0)))) as [->|E];
        [now left|right; now left]. }
    apply (for_each_invariant (fun s => pincode_column_ok (fst s))
             (extract_row pins (address_sources df1)) (seq 0 (nrows df1)) (df1, 0) st);
      [|exact H1|exact Hloop].
    intros s i s' Hs. unfold extract_row.
    destruct (negb (truthy (nth i pins NaN))); [|now intro E; injection E as <-].
    destruct (scan_address (address_sources df1) i) as [pin|e] eqn:Hscan; [|discriminate].
    destruct (negb (is_empty pin)); intro E; injection E as <-; [|exact Hs].
    simpl. apply pincode_column_ok_set_at; [|exact Hs].
    intros _. exists pin. split; [reflexivity|]. now apply scan_address_shape in Hscan.
  - apply bind_Done in H. destruct H as [l1 [u [l2 [_ [H ->]]]]].
    apply ret_Done in H. destruct H as [<- _].
    apply pincode_column_ok_setitem. apply Forall_forall. intros v Hv.
    apply repeat_spec in Hv. subst. exists "". split; [reflexivity|now left].
Qed.

Lemma process_cities_keeps_pincodes (pin_df : list RefEntry) (df out : DataFrame)
  (l : list LogMsg) :
  pincode_column_ok df ->
  process_cities pin_df df = (l, Done out) -> pincode_column_ok out.
Proof.
  intro Hok. unfold process_cities. destruct (has_column "AddreCity" df); intro H.
  - apply bind_Done in H. destruct H as [l1 [u [l2 [_ [H ->]]]]].
    apply bind_Done in H. destruct H as [l3 [col [l4 [_ [H ->]]]]].
    apply bind_Done in H. destruct H as [l5 [cities [l6 [_ [H ->]]]]].
    apply bind_Done in H. destruct H as [l7 [pins [l8 [_ [H ->]]]]].
    apply bind_Done in H. destruct H as [l9 [u' [l10 [_ [H ->]]]]].
    apply bind_Done in H. destruct H as [l11 [u'' [l12 [_ [H ->]]]]].
    apply ret_Done in H. destruct H as [<- _].
    set (df1 := setitem "AddreCity" _ df).
    assert (H1 : pincode_column_ok df1)
      by (apply pincode_column_ok_setitem_other; [discriminate|exact Hok]).
    assert (Hfold : forall rows st, pincode_column_ok (fst (fst st)) ->
              pincode_column_ok
                (fst (fst (fold_left (city_row pin_df cities pins) rows st)))).
    { induction rows as [|i rows IH]; intros st Hst; [exact Hst|]. simpl.
      apply IH. destruct st as [[d n] lg]. unfold city_row.
      destruct ((negb (truthy (nth i cities NaN))
                 || cell_eqb (nth i cities NaN) (Str "")) && truthy (nth i pins NaN));
        [|exact Hst].
      destruct (lookup_city pin_df (nth i pins NaN)); [|exact Hst].
      simpl in *. apply pincode_column_ok_set_at; [discriminate|exact Hst]. }
    now apply Hfold.
  - apply bind_Done in H. destruct H as [l1 [u [l2 [_ [H ->]]]]].
    apply ret_Done in H. destruct H as [<- _].
    apply pincode_column_ok_setitem_other; [discriminate|exact Hok].
Qed.

(** What does hold of the written pincodes: each is a string, empty, six
    digits, or the seven characters of a match whose separator is a
    whitespace character other than the space. *)
Lemma written_pincodes_shape (w : World) (base_directory output_file : string)
  (final_df : DataFrame) :
  written (merge_customer_files w base_directory) = Some (output_file, final_df) ->
  pincode_column_ok final_df.
Proof.
  intro H. apply written_Some in H. destruct H as [concatenated [l [_ Hp]]].
  unfold process_pincodes_and_cities in Hp.
  apply bind_Done in Hp. destruct Hp as [l1 [u [l2 [_ [Hp ->]]]]].
  apply bind_Done in Hp. destruct Hp as [l3 [df1 [l4 [H1 [H2 ->]]]]].
  eapply process_cities_keeps_pincodes; [|exact H2].
  eapply process_pincodes_ok. exact H1.
Qed.

(* ================================================================== *)
(** * Further properties *)

(** ** Pincode helpers *)

Lemma filter_string_all (p : ascii -> bool) (s : string) :
  forallb_string p s = true -> filter_string p s = s.
Proof.
  induction s as [|c r IH]; simpl; [reflexivity|]. intro H.
  apply andb_true_iff in H. destruct H as [Hc Hr]. rewrite Hc. now rewrite IH.
Qed.

Lemma clean_pincode_fixed (s : string) :
  is_pincode s = true -> clean_pincode (Str s) = s.
Proof.
  unfold is_pincode. intro H. apply andb_true_iff in H. destruct H as [Hl Hd].
  rewrite clean_pincode_text. unfold digits_only_of.
  rewrite (filter_string_all _ _ Hd). now rewrite Hl.
Qed.

(** X1: [clean_pincode] is idempotent, and the texts it leaves unchanged
    are exactly the empty string and the six-digit strings; leading
    zeros are kept, the value is never read as a number. *)
Theorem clean_pincode_idempotent (x : cell) (s : string) :
  clean_pincode (Str (clean_pincode x)) = clean_pincode x
  /\ (clean_pincode (Str s) = s <-> s = "" \/ is_pincode s = true).
Proof.
  split.
  - destruct (clean_pincode_shape x) as [->|H]; [reflexivity|].
    now apply clean_pincode_fixed.
  - split.
    + intro H. rewrite <- H. apply clean_pincode_shape.
    + intros [->|H]; [reflexivity|now apply clean_pincode_fixed].
Qed.

Lemma clean_pincode_idempotent_witness : clean_pincode (Str "012345") = "012345".
Proof.
  apply (proj2 (proj2 (clean_pincode_idempotent NaN "012345"))).
  right. reflexivity.
Defined.

(** X2: whatever its input, [extract_pincode_from_text] returns the empty
    string, six digits, or seven characters: three digits, one whitespace
    character other than the space, three digits. *)
Theorem extract_pincode_results (text : cell) :
  extracted_shape (extract_pincode_from_text text).
Proof. apply extract_pincode_shape. Qed.

Lemma digit_is_word (c : ascii) : isdigit c = true -> isword c = true.
Proof. unfold isword. now intros ->. Qed.

(** X3: a text that is a pincode is extracted as itself, and cleaning
    the extraction gives it back. *)
Theorem extract_pincode_of_pincode (s : string) :
  is_pincode s = true ->
  extract_pincode_from_text (Str s) = s
  /\ clean_pincode (Str (extract_pincode_from_text (Str s))) = s.
Proof.
  intro H. assert (Hx : extract_pincode_from_text (Str s) = s).
  { unfold is_pincode in H. apply andb_true_iff in H. destruct H as [Hl Hd].
    destruct s as [|c1 [|c2 [|c3 [|c4 [|c5 [|c6 [|c7 r]]]]]]]; try discriminate.
    simpl in Hd.
    repeat match goal with
           | H : _ && _ = true |- _ => apply andb_true_iff in H; destruct H
           end.
    assert (W1 : isword c1 = true) by now apply digit_is_word.
    assert (W6 : isword c6 = true) by now apply digit_is_word.
    unfold extract_pincode_from_text, re_search, re_six_digits.
    simpl. try unfold at_boundary. try unfold take_class.
    repeat (match goal with
            | H : isdigit ?c = true |- context [isdigit ?c] => rewrite H
            | H : isword ?c = true |- context [isword ?c] => rewrite H
            end; simpl; try unfold at_boundary; try unfold take_class).
    reflexivity. }
  split; [exact Hx|]. rewrite Hx. now apply clean_pincode_fixed.
Qed.

Lemma extract_pincode_of_pincode_witness :
  extract_pincode_from_text (Str "012345") = "012345".
Proof. apply (proj1 (extract_pincode_of_pincode "012345" eq_refl)). Defined.

(** ** Column matching *)

Lemma first_match_head (cols names : list string) :
  first_match cols names
  = hd_error (flat_map (fun name => filter (col_matches name) cols) names).
Proof.
  induction names as [|name names IH]; simpl; [reflexivity|].
  destruct (filter (col_matches name) cols) as [|c rest]; [exact IH|reflexivity].
Qed.

(** X4: [get_single_matching_column] returns the first of the columns
    [get_matching_columns] returns, and nothing exactly when that list is
    empty; a column it returns is a column of the frame whose trimmed,
    lowercased label equals a lowercased alias. *)
Theorem get_single_is_first_of_all (df : DataFrame) (possible_names : string) :
  get_single_matching_column df possible_names
    = hd_error (get_matching_columns df possible_names)
  /\ (get_single_matching_column df possible_names = None
      <-> get_matching_columns df possible_names = [])
  /\ (forall col, get_single_matching_column df possible_names = Some col ->
        In col (columns df)
        /\ exists name, In name (possible_names_of possible_names)
                        /\ lower (strip col) = lower name).
Proof.
  assert (H : get_single_matching_column df possible_names
              = hd_error (get_matching_columns df possible_names))
    by apply first_match_head.
  split; [exact H|]. split.
  - rewrite H. destruct (get_matching_columns df possible_names); simpl;
      split; congruence.
  - intros col Hc. rewrite H in Hc. apply get_matching_columns_In.
    destruct (get_matching_columns df possible_names); [discriminate|].
    injection Hc as ->. now left.
Qed.

Lemma get_single_is_first_of_all_witness :
  get_single_matching_column sample_input address_columns = Some "add 1".
Proof.
  rewrite (proj1 (get_single_is_first_of_all sample_input address_columns)).
  reflexivity.
Defined.

Lemma filter_none {A : Type} (p : A -> bool) (l : list A) :
  (forall x, In x l -> p x = false) -> filter p l = [].
Proof.
  induction l as [|x l IH]; intro H; [reflexivity|]. simpl.
  rewrite (H x (or_introl eq_refl)). apply IH. intros y Hy. apply H. now right.
Qed.

Lemma first_match_priority (cols before after : list string) (name c : string)
  (rest : list string) :
  (forall n col, In n before -> In col cols -> col_matches n col = false) ->
  filter (col_matches name) cols = c :: rest ->
  first_match cols (before ++ name :: after) = Some c.
Proof.
  intros Hbefore Hname. induction before as [|n before IH]; simpl.
  - now rewrite Hname.
  - rewrite (filter_none (col_matches n) cols)
      by (intros col Hcol; apply Hbefore; [now left|exact Hcol]).
    apply IH. intros n' col Hn' Hcol. apply Hbefore; [now right|exact Hcol].
Qed.

(** X5: among the aliases, order decides: when no column matches an
    earlier alias, the first column matching the alias is returned, also
    when a column matching a later alias comes first in the table. *)
Theorem get_single_prefers_earlier_alias (df : DataFrame) (possible_names : string)
  (before after : list string) (name c : string) (rest : list string) :
  possible_names_of possible_names = before ++ name :: after ->
  (forall n col, In n before -> In col (columns df) -> col_matches n col = false) ->
  filter (col_matches name) (columns df) = c :: rest ->
  get_single_matching_column df possible_names = Some c.
Proof.
  intros Hnames Hbefore Hname. unfold get_single_matching_column.
  rewrite Hnames. eapply first_match_priority; eassumption.
Qed.

Lemma get_single_prefers_earlier_alias_witness :
  get_single_matching_column two_serial_columns
    "SL Or sr Or srno Or SR. NO. Or sr. no." = Some "SRNO".
Proof.
  apply (get_single_prefers_earlier_alias two_serial_columns
           "SL Or sr Or srno Or SR. NO. Or sr. no."
           ["SL"; "sr"] ["SR. NO."; "sr. no."] "srno" "SRNO" []).
  - reflexivity.
  - intros n col Hn Hcol. simpl in Hn, Hcol.
    destruct Hn as [<-|[<-|[]]]; destruct Hcol as [<-|[<-|[]]]; reflexivity.
  - reflexivity.
Defined.

(** ** The reference table, whatever the workbook *)

Lemma isspace_to_upper (c : ascii) : isspace (to_upper c) = isspace c.
Proof. destruct c as [[] [] [] [] [] [] [] []]; reflexivity. Qed.

Lemma to_upper_idempotent (c : ascii) : to_upper (to_upper c) = to_upper c.
Proof. destruct c as [[] [] [] [] [] [] [] []]; reflexivity. Qed.

Lemma upper_idempotent (s : string) : upper (upper s) = upper s.
Proof.
  unfold upper. induction s as [|c r IH]; simpl; [reflexivity|].
  now rewrite to_upper_idempotent, IH.
Qed.

Lemma lstrip_upper (s : string) : lstrip (upper s) = upper (lstrip s).
Proof.
  unfold upper. induction s as [|c r IH]; simpl; [reflexivity|].
  rewrite isspace_to_upper. now destruct (isspace c).
Qed.

Lemma is_empty_map_string (f : ascii -> ascii) (s : string) :
  is_empty (map_string f s) = is_empty s.
Proof. now destruct s. Qed.

Lemma rstrip_upper (s : string) : rstrip (upper s) = upper (rstrip s).
Proof.
  unfold upper. induction s as [|c r IH]; simpl; [reflexivity|].
  rewrite isspace_to_upper, IH, is_empty_map_string.
  now destruct (isspace c && is_empty (rstrip r)).
Qed.

Lemma rstrip_idempotent (s : string) : rstrip (rstrip s) = rstrip s.
Proof.
  induction s as [|c r IH]; simpl; [reflexivity|].
  destruct (isspace c && is_empty (rstrip r)) eqn:E; [reflexivity|].
  simpl. rewrite IH, E. reflexivity.
Qed.

Lemma lstrip_rstrip_lstrip (s : string) : lstrip (rstrip (lstrip s)) = rstrip (lstrip s).
Proof.
  induction s as [|c r IH]; simpl; [reflexivity|].
  destruct (isspace c) eqn:E; [exact IH|].
  simpl. rewrite E. simpl. now rewrite E.
Qed.

Lemma strip_idempotent (s : string) : strip (strip s) = strip s.
Proof. unfold strip. now rewrite lstrip_rstrip_lstrip, rstrip_idempotent. Qed.

Lemma strip_upper (s : string) : strip (upper s) = upper (strip s).
Proof. unfold strip. now rewrite lstrip_upper, rstrip_upper. Qed.

Lemma load_pin_database_table (w : World) (pin_file_path : string) :
  exists rows, fst (load_pin_database w pin_file_path)
               = valid_df (map standard_entry rows).
Proof.
  unfold load_pin_database.
  destruct (read_pin_sheet w) as [log1 [src|]]; [|now exists []].
  destruct (identify_columns (columns src)) as [log3 [[pc cc]|]]; [|now exists []].
  destruct (negb (has_column pc src) || negb (has_column cc src)); [now exists []|].
  destruct (getitem pc src) as [pins|e]; [|now exists []].
  destruct (getitem cc src) as [cities|e]; [|now exists []].
  now exists (combine pins cities).
Qed.

(** X6: whatever the workbook holds and however its columns were found,
    every entry of the table [load_pin_database] returns has a six-digit
    [Pincode] and a [City] that is trimmed and in upper case. *)
Theorem loaded_entries_normalised (w : World) (pin_file_path : string) (e : RefEntry) :
  In e (fst (load_pin_database w pin_file_path)) ->
  is_pincode (Pincode e) = true
  /\ strip (City e) = City e
  /\ upper (City e) = City e.
Proof.
  destruct (load_pin_database_table w pin_file_path) as [rows ->].
  rewrite valid_df_standard. intro H. apply in_map_iff in H.
  destruct H as [[p c] [<- Hin]]. apply filter_In in Hin. destruct Hin as [_ Hlen].
  simpl in *. split; [|split].
  - destruct (clean_pincode_shape (Str (str p))) as [E|E]; [|exact E].
    rewrite E in Hlen. discriminate.
  - now rewrite strip_upper, strip_idempotent.
  - apply upper_idempotent.
Qed.

Lemma loaded_entries_normalised_witness :
  is_pincode "100000" = true /\ strip "MUMBAI" = "MUMBAI" /\ upper "MUMBAI" = "MUMBAI".
Proof.
  apply (loaded_entries_normalised (sample_world []) "/base/PIN.xlsx"
           (mkRef "100000" "MUMBAI")).
  vm_compute. left. reflexivity.
Defined.

Lemma exact_columns_members (labels : list string) :
  (forall p, fst (exact_columns labels) = Some p -> In p labels)
  /\ (forall c, snd (exact_columns labels) = Some c -> In c labels).
Proof.
  unfold exact_columns.
  assert (H : forall l acc,
             (forall x, In x l -> In x labels) ->
             (forall p, fst acc = Some p -> In p labels) ->
             (forall c, snd acc = Some c -> In c labels) ->
             let r := fold_left
                        (fun found col =>
                           if String.eqb (upper (strip col)) "PINCODE"
                           then (Some col, snd found)
                           else if String.eqb (upper (strip col)) "CITY"
                                then (fst found, Some col)
                                else found) l acc in
             (forall p, fst r = Some p -> In p labels)
             /\ (forall c, snd r = Some c -> In c labels)).
  { induction l as [|x l IH]; intros acc Hl Hp Hc; simpl; [now split|].
    apply IH.
    - intros y Hy. apply Hl. now right.
    - destruct (String.eqb (upper (strip x)) "PINCODE"); simpl.
      + intros p E. injection E as <-. apply Hl. now left.
      + destruct (String.eqb (upper (strip x)) "CITY"); simpl; exact Hp.
    - destruct (String.eqb (upper (strip x)) "PINCODE"); simpl; [exact Hc|].
      destruct (String.eqb (upper (strip x)) "CITY"); simpl; [|exact Hc].
      intros c E. injection E as <-. apply Hl. now left. }
  apply H; auto; discriminate.
Qed.

Lemma identify_columns_members (labels : list string) (l : list LogMsg)
  (pincode_col city_col : string) :
  identify_columns labels = (l, Some (pincode_col, city_col)) ->
  In pincode_col labels /\ In city_col labels.
Proof.
  unfold identify_columns.
  destruct (exact_columns_members labels) as [Hp Hc].
  destruct (exact_columns labels) as [p c]. simpl in Hp, Hc.
  assert (Hp' : forall x,
             snd (if not_col p
                  then match partial_column "PIN" labels with
                       | Some col => ([UsingAsPincode col], Some col)
                       | None => ([], p)
                       end
                  else ([], p)) = Some x -> In x labels).
  { intro x. destruct (not_col p); [|exact (Hp x)].
    destruct (partial_column "PIN" labels) as [col|] eqn:E; [|exact (Hp x)].
    simpl. intro H. injection H as <-. now apply find_some in E. }
  assert (Hc' : forall x,
             snd (if not_col c
                  then match partial_column "CITY" labels with
                       | Some col => ([UsingAsCity col], Some col)
                       | None => ([], c)
                       end
                  else ([], c)) = Some x -> In x labels).
  { intro x. destruct (not_col c); [|exact (Hc x)].
    destruct (partial_column "CITY" labels) as [col|] eqn:E; [|exact (Hc x)].
    simpl. intro H. injection H as <-. now apply find_some in E. }
  destruct (if not_col p then _ else _) as [log1 p'].
  destruct (if not_col c then _ else _) as [log2 c']. simpl in Hp', Hc'.
  destruct (not_col p' || not_col c').
  - destruct labels as [|first [|second rest]]; try discriminate.
    intro H. injection H as _ <- <-. split; [now left|right; now left].
  - destruct p' as [p'|], c' as [c'|]; try discriminate.
    intro H. injection H as _ <- <-. split; [now apply Hp'|now apply Hc'].
Qed.

Lemma In_getitem (name : string) (df : DataFrame) :
  In name (columns df) -> exists col, getitem name df = Done col.
Proof.
  intro H. unfold getitem.
  destruct (find (labelled name) (cols df)) as [c|] eqn:E; [now exists (snd c)|].
  exfalso. apply in_map_iff in H. destruct H as [c [Hc Hin]].
  pose proof (find_none _ _ E c Hin) as Hn. apply labelled_false in Hn. contradiction.
Qed.

(** X7: the two labels [load_pin_database] settles on are always labels
    of the sheet it read, so the check of lines 122-125 never fails: once
    a sheet is read and two columns are chosen, the table returned is the
    standardised rows of those two columns with the invalid pincodes
    removed. *)
Theorem identified_columns_exist (w : World) (pin_file_path : string)
  (log1 log3 : list LogMsg) (src : DataFrame) (pincode_col city_col : string) :
  read_pin_sheet w = (log1, Some src) ->
  identify_columns (columns src) = (log3, Some (pincode_col, city_col)) ->
  has_column pincode_col src = true
  /\ has_column city_col src = true
  /\ exists pins cities,
       getitem pincode_col src = Done pins
       /\ getitem city_col src = Done cities
       /\ load_pin_database w pin_file_path
          = (valid_df (standard_df pins cities),
             [LoadingPinFrom pin_file_path] ++ log1 ++ [FoundPinColumns (columns src)]
             ++ log3 ++ [LoadedValid (List.length (valid_df (standard_df pins cities)))]).
Proof.
  intros Hread Hid.
  destruct (identify_columns_members _ _ _ _ Hid) as [Hp Hc].
  destruct (In_getitem _ _ Hp) as [pins Hpins].
  destruct (In_getitem _ _ Hc) as [cities Hcities].
  split; [now apply has_column_In|]. split; [now apply has_column_In|].
  exists pins, cities. split; [exact Hpins|]. split; [exact Hcities|].
  unfold load_pin_database. rewrite Hread, Hid.
  rewrite (proj2 (has_column_In _ _) Hp), (proj2 (has_column_In _ _) Hc).
  simpl. rewrite Hpins, Hcities. reflexivity.
Qed.

Lemma identified_columns_exist_witness :
  has_column "Pincode" sample_pin_sheet = true
  /\ has_column "City" sample_pin_sheet = true
  /\ exists pins cities,
       getitem "Pincode" sample_pin_sheet = Done pins
       /\ getitem "City" sample_pin_sheet = Done cities
       /\ load_pin_database (sample_world []) "/base/PIN.xlsx"
          = (valid_df (standard_df pins cities),
             [LoadingPinFrom "/base/PIN.xlsx"] ++ [LoadedTblpincity]
             ++ [FoundPinColumns (columns sample_pin_sheet)]
             ++ [] ++ [LoadedValid (List.length (valid_df (standard_df pins cities)))]).
Proof.
  apply (identified_columns_exist (sample_world []) "/base/PIN.xlsx"
           [LoadedTblpincity] [] sample_pin_sheet "Pincode" "City");
    reflexivity.
Defined.

(** ** Counters and summary of a run *)

Lemma process_file_counts (w : World) (sender_details : DataFrame) (st : LoopState)
  (filename : string) :
  processed_count (process_file w sender_details st filename)
    = processed_count st + List.length (contribution w sender_details filename)
  /\ error_count (process_file w sender_details st filename)
     = error_count st + file_errors w sender_details filename.
Proof.
  unfold process_file, contribution, file_errors.
  destruct (read_input w filename) as [[current_df sheet_name]|msg]; simpl.
  - destruct (after_read w sender_details filename current_df sheet_name)
      as [l [[df|]|e]]; simpl; lia.
  - lia.
Qed.

Lemma process_files_counts (w : World) (sender_details : DataFrame)
  (files : list string) (st : LoopState) :
  processed_count (process_files w sender_details files st)
    = processed_count st
      + List.length (flat_map (contribution w sender_details) files)
  /\ error_count (process_files w sender_details files st)
     = error_count st + list_sum (map (file_errors w sender_details) files).
Proof.
  unfold process_files. revert st.
  induction files as [|f files IH]; intro st; simpl; [lia|].
  destruct (IH (process_file w sender_details st f)) as [-> ->].
  destruct (process_file_counts w sender_details st f) as [-> ->].
  rewrite length_app. lia.
Qed.

Lemma one_outcome_per_file (w : World) (sender_details : DataFrame) (filename : string) :
  List.length (contribution w sender_details filename)
  + file_errors w sender_details filename <= 1.
Proof.
  unfold contribution, file_errors.
  destruct (read_input w filename) as [[current_df sheet_name]|msg]; simpl; [|lia].
  destruct (after_read w sender_details filename current_df sheet_name)
    as [l [[df|]|e]]; simpl; lia.
Qed.

Lemma outcomes_bounded (w : World) (sender_details : DataFrame) (files : list string) :
  List.length (flat_map (contribution w sender_details) files)
  + list_sum (map (file_errors w sender_details) files) <= List.length files.
Proof.
  induction files as [|f files IH]; simpl; [lia|].
  rewrite length_app. pose proof (one_outcome_per_file w sender_details f). lia.
Qed.

Lemma nrows_stack_all (rest : list DataFrame) (f : DataFrame) :
  nrows (fold_left stack rest f) = nrows f + list_sum (map nrows rest).
Proof.
  revert f. induction rest as [|g rest IH]; intro f; simpl; [lia|].
  rewrite IH. simpl. lia.
Qed.

Lemma nrows_concat (frames : list DataFrame) (final_df : DataFrame) :
  (forall g, In g frames -> canonical_labels (columns g)) ->
  concat frames = Done final_df ->
  nrows final_df = list_sum (map nrows frames).
Proof.
  intros Hcan H.
  destruct (concat_canonical _ _ Hcan H) as [_ Heq].
  unfold concat in H. destruct frames as [|f rest]; [discriminate|].
  assert (Hall : forallb (fun g => list_string_eqb (columns g) (columns f)) rest = true).
  { apply forallb_forall. intros g Hg. apply list_string_eqb_eq.
    rewrite (Heq g) by now right. rewrite (Heq f) by now left. reflexivity. }
  rewrite Hall in H. injection H as <-. apply nrows_stack_all.
Qed.

Lemma written_modified (w : World) (base_directory output_file : string)
  (final_df : DataFrame) :
  written (merge_customer_files w base_directory) = Some (output_file, final_df) ->
  exists concatenated,
    concat (merged_batch w) = Done concatenated
    /\ modified_only ["AddrePincode"; "AddreCity"] concatenated final_df.
Proof.
  intro H. apply written_Some in H. destruct H as [concatenated [l [Hc Hp]]].
  exists concatenated. split; [exact Hc|].
  destruct (concat_canonical _ _ (merged_batch_canonical w) Hc) as [Hcan _].
  eapply process_pincodes_and_cities_modifies; [| |exact Hp];
    apply has_column_In, (canonical_labels_In _ _ Hcan); vm_compute; tauto.
Qed.

Lemma run_log_of_written (w : World) (base_directory output_file : string)
  (final_df : DataFrame) :
  written (merge_customer_files w base_directory) = Some (output_file, final_df) ->
  output_file = output_file_of w base_directory
  /\ exists l,
       run_log (merge_customer_files w base_directory)
       = l ++ [SavingOutput (nrows final_df); OutputSaved output_file;
               ProcessingSummary;
               TotalProcessed (List.length (merged_batch w));
               TotalErrors (list_sum (map (file_errors w (fst (load_sender_details w)))
                                          (input_files_of w)))].
Proof.
  unfold merge_customer_files, merged_batch, output_file_of.
  destruct (load_pin_database w (path_join base_directory "PIN.xlsx"))
    as [pin_df log_pin].
  destruct pin_df as [|entry pin_df]; [discriminate|].
  destruct (load_sender_details w) as [sender_details log_sender].
  destruct (negb (input_directory_exists w)); [discriminate|].
  cbv zeta. unfold write_output.
  match goal with
  | |- context [process_files w sender_details (input_files_of w) ?st0] =>
      destruct (process_files_counts w sender_details (input_files_of w) st0)
        as [Hp He];
      pose proof (process_files_merged w sender_details (input_files_of w) st0) as Hm;
      generalize dependent (process_files w sender_details (input_files_of w) st0)
  end.
  intros st Hp He Hm. cbn [merged_dataframes processed_count error_count app fst] in *.
  rewrite Hm.
  destruct (flat_map (contribution w sender_details) (input_files_of w))
    as [|f rest] eqn:Hbatch; [discriminate|].
  destruct (final_df0 <- lift (concat (f :: rest)) ;;
            process_pincodes_and_cities final_df0 (entry :: pin_df))
    as [l [final|e]]; [|discriminate].
  cbn [written run_log]. intro H. injection H as <- <-.
  split; [reflexivity|].
  exists (loop_log st ++ l). rewrite Hp, He. simpl. now rewrite <- app_assoc.
Qed.

(** X8: when a run writes its file, the file is
    [Output/Output-Post_File_<date>.xlsx] under the base directory; it has
    one row for each row of each appended frame; the log ends with the
    summary, whose two counts are the number of frames appended and the
    number of input files that failed; and the two counts together never
    exceed the number of input files. *)
Theorem run_summary_is_accurate (w : World) (base_directory output_file : string)
  (final_df : DataFrame) :
  written (merge_customer_files w base_directory) = Some (output_file, final_df) ->
  output_file = output_file_of w base_directory
  /\ nrows final_df = list_sum (map nrows (merged_batch w))
  /\ (exists l,
        run_log (merge_customer_files w base_directory)
        = l ++ [SavingOutput (nrows final_df); OutputSaved output_file;
                ProcessingSummary;
                TotalProcessed (List.length (merged_batch w));
                TotalErrors (list_sum (map (file_errors w (fst (load_sender_details w)))
                                           (input_files_of w)))])
  /\ List.length (merged_batch w)
     + list_sum (map (file_errors w (fst (load_sender_details w))) (input_files_of w))
     <= List.length (input_files_of w).
Proof.
  intro H. destruct (run_log_of_written _ _ _ _ H) as [Hfile Hlog].
  destruct (written_modified _ _ _ _ H) as [concatenated [Hc [Hn _]]].
  split; [exact Hfile|]. split; [|split; [exact Hlog|apply outcomes_bounded]].
  rewrite Hn. apply nrows_concat; [apply merged_batch_canonical|exact Hc].
Qed.

Lemma run_summary_is_accurate_witness :
  exists r l,
    written (merge_customer_files world_with_header_only "/base") = Some r
    /\ fst r = output_file_of world_with_header_only "/base"
    /\ nrows (snd r) = 2
    /\ run_log (merge_customer_files world_with_header_only "/base")
       = l ++ [SavingOutput 2; OutputSaved (fst r); ProcessingSummary;
               TotalProcessed 1; TotalErrors 1].
Proof.
  assert (Hw : exists f d,
             written (merge_customer_files world_with_header_only "/base") = Some (f, d))
    by (do 2 eexists; vm_compute; reflexivity).
  destruct Hw as [f [d Hw]].
  destruct (run_summary_is_accurate _ _ _ _ Hw) as [Hf [Hn [[l Hl] _]]].
  assert (H1 : List.length (merged_batch world_with_header_only) = 1)
    by (vm_compute; reflexivity).
  assert (H2 : list_sum (map (file_errors world_with_header_only
                                (fst (load_sender_details world_with_header_only)))
                             (input_files_of world_with_header_only)) = 1)
    by (vm_compute; reflexivity).
  assert (H3 : nrows d = 2) by (rewrite Hn; vm_compute; reflexivity).
  rewrite H1, H2, H3 in Hl.
  exists (f, d), l. split; [exact Hw|]. split; [exact Hf|]. split; [exact H3|exact Hl].
Defined.

(** ** What an appended frame records of its file *)

Lemma read_input_text_sheet (w : World) (filename sheet_name : string)
  (current_df : DataFrame) :
  read_input w filename = inl (current_df, sheet_name) ->
  endswith_any filename [".xlsx"; ".xls"] = false -> sheet_name = "".
Proof.
  unfold read_input. intros H Hext. rewrite Hext in H.
  destruct (read_csv w filename); [|discriminate]. now injection H as _ <-.
Qed.

(** X9: every frame appended to the batch has the rows of the file it
    was read from, numbers them 1, 2, ... in [SL] (a sequence per file),
    carries the file's name in [Input File Name] on every row and one
    sheet name in [Sheet Name], the empty string for a file that is not a
    workbook. *)
Theorem appended_frame_metadata (w : World) (out : DataFrame) :
  In out (merged_batch w) ->
  exists filename current_df sheet_name,
    In filename (input_files_of w)
    /\ read_input w filename = inl (current_df, sheet_name)
    /\ nrows out = nrows current_df
    /\ has_column "SL" out = true
    /\ column_is "SL" (map (fun k => Num (Z.of_nat k)) (seq 1 (nrows out))) out
    /\ has_column "Input File Name" out = true
    /\ column_is "Input File Name" (repeat (Str filename) (nrows out)) out
    /\ has_column "Sheet Name" out = true
    /\ column_is "Sheet Name" (repeat (Str sheet_name) (nrows out)) out
    /\ (endswith_any filename [".xlsx"; ".xls"] = false -> sheet_name = "").
Proof.
  intro Hout.
  destruct (merged_batch_appended w out Hout)
    as [filename [current_df [sender_row [Hf [sheet_name [l [Hread [_ [Hrow He]]]]]]]]].
  destruct (enrich_frame _ _ _ _ _ _ _ Hrow He)
    as [Hn [Hcan [_ [_ [_ [HSL [HIFN HSN]]]]]]].
  assert (Hhas : forall c, In c output_columns -> has_column c out = true)
    by (intros c Hc; now apply has_column_In, (canonical_labels_In _ _ Hcan)).
  exists filename, current_df, sheet_name.
  split; [exact Hf|]. split; [exact Hread|]. split; [exact Hn|].
  split; [apply Hhas; vm_compute; tauto|]. split; [exact HSL|].
  split; [apply Hhas; vm_compute; tauto|]. split; [exact HIFN|].
  split; [apply Hhas; vm_compute; tauto|]. split; [exact HSN|].
  intro Hext. exact (read_input_text_sheet w filename sheet_name current_df Hread Hext).
Qed.

Lemma appended_frame_metadata_witness :
  exists filename current_df sheet_name,
    In filename (input_files_of (sample_world ["acme-1.txt"]))
    /\ read_input (sample_world ["acme-1.txt"]) filename = inl (current_df, sheet_name)
    /\ nrows sample_appended = nrows current_df
    /\ has_column "SL" sample_appended = true
    /\ column_is "SL" (map (fun k => Num (Z.of_nat k)) (seq 1 (nrows sample_appended)))
         sample_appended
    /\ has_column "Input File Name" sample_appended = true
    /\ column_is "Input File Name" (repeat (Str filename) (nrows sample_appended))
         sample_appended
    /\ has_column "Sheet Name" sample_appended = true
    /\ column_is "Sheet Name" (repeat (Str sheet_name) (nrows sample_appended))
         sample_appended
    /\ (endswith_any filename [".xlsx"; ".xls"] = false -> sheet_name = "").
Proof.
  apply (appended_frame_metadata (sample_world ["acme-1.txt"]) sample_appended).
  vm_compute. left. reflexivity.
Defined.

(** ** Input columns pass through *)

Lemma cols_renamed (current_df : DataFrame) :
  cols (renamed current_df)
  = map (fun c => (rename_label (fst (build_mapping current_df)) (fst c), snd c))
        (cols current_df).
Proof.
  unfold renamed. destruct (fst (build_mapping current_df)) as [|entry mapping].
  - unfold rename_label, dict_get. simpl.
    induction (cols current_df) as [|[n d] l IH]; simpl; [reflexivity|].
    now rewrite <- IH.
  - reflexivity.
Qed.

(** X10: renaming changes labels only: the renamed frame has the columns
    of the input, in order, each with its data and with the label the
    mapping gives it.  And an output column that the pipeline does not
    assign itself and that the renamed input has reaches the appended
    frame with the data it has there. *)
Theorem input_columns_pass_through (w : World) (out : DataFrame) :
  In out (merged_batch w) ->
  exists filename current_df sender_row,
    appended_from w (fst (load_sender_details w)) filename current_df sender_row out
    /\ cols (renamed current_df)
       = map (fun c => (rename_label (fst (build_mapping current_df)) (fst c), snd c))
             (cols current_df)
    /\ forall c data,
         In c output_columns ->
         ~ In c (assigned_labels (renamed current_df)) ->
         has_column c (renamed current_df) = true ->
         column_is c data (renamed current_df) ->
         has_column c out = true /\ column_is c data out.
Proof.
  intro Hout.
  destruct (merged_batch_appended w out Hout)
    as [filename [current_df [sender_row [_ Happ]]]].
  exists filename, current_df, sender_row. split; [exact Happ|].
  split; [apply cols_renamed|].
  destruct Happ as [sheet_name [l [_ [_ [Hrow He]]]]].
  destruct (enrich_Done _ _ _ _ _ _ _ Hrow He) as [df2 [l2 [Haddr [Hsel _]]]].
  intros c data Hc Hnot Hhas Hdata.
  unfold assigned_labels in Hnot. rewrite !in_app_iff in Hnot.
  assert (Hc2 : has_column c df2 = true /\ column_is c data df2).
  { destruct (process_address_columns_Done _ _ _ Haddr)
      as [[_ [-> _]]|[Hne [series [_ [-> _]]]]]; [now split|].
    assert (c <> "AddreADD1").
    { intros ->. apply Hnot. right. right.
      destruct (get_matching_columns (renamed current_df) address_columns);
        [contradiction|now left]. }
    split; [now rewrite has_column_setitem_other|now apply column_is_setitem_other]. }
  destruct Hc2 as [Hhas2 Hdata2].
  set (val := fun field => series_get field (Str "") (iloc0 sender_row)) in *.
  assert (Hc3 : has_column c (assign_all val sender_fields df2) = true
                /\ column_is c data (assign_all val sender_fields df2)).
  { split.
    - rewrite has_column_assign_all_other; [exact Hhas2|tauto].
    - apply column_is_assign_all_other; [tauto|exact Hdata2]. }
  destruct Hc3 as [Hhas3 Hdata3].
  pose proof (complete_columns_spec filename sheet_name (assign_all val sender_fields df2))
    as [_ [_ [_ [_ [_ [Hkeep _]]]]]].
  split.
  - eapply has_column_getitem_list; eassumption.
  - eapply column_is_getitem_list; [exact Hsel|].
    apply Hkeep; try assumption.
    + intros ->. apply Hnot. right. left. now left.
    + intros ->. apply Hnot. right. left. right. now left.
    + intros ->. apply Hnot. right. left. right. right. now left.
Qed.

Lemma input_columns_pass_through_witness :
  exists filename current_df sender_row,
    appended_from (sample_world ["acme-1.txt"])
      (fst (load_sender_details (sample_world ["acme-1.txt"])))
      filename current_df sender_row sample_appended
    /\ cols (renamed current_df)
       = map (fun c => (rename_label (fst (build_mapping current_df)) (fst c), snd c))
             (cols current_df)
    /\ forall c data,
         In c output_columns ->
         ~ In c (assigned_labels (renamed current_df)) ->
         has_column c (renamed current_df) = true ->
         column_is c data (renamed current_df) ->
         has_column c sample_appended = true /\ column_is c data sample_appended.
Proof.
  apply (input_columns_pass_through (sample_world ["acme-1.txt"]) sample_appended).
  vm_compute. left. reflexivity.
Defined.

(** ** Files that add nothing *)

Lemma written_None_of_empty_batch (w : World) (base_directory : string) :
  merged_batch w = [] -> written (merge_customer_files w base_directory) = None.
Proof.
  intro Hm.
  destruct (written (merge_customer_files w base_directory)) as [[f d]|] eqn:E;
    [|reflexivity].
  apply written_Some in E. destruct E as [c [l [Hc _]]].
  rewrite Hm in Hc. discriminate.
Qed.

(** X11: an input file whose read fails adds no frame and counts as one
    error, and the other files are processed as if it were not there:
    the run writes what it writes without that file in the directory. *)
Theorem unreadable_file_is_skipped (w : World) (base_directory : string)
  (before after : list string) (filename : string) (msg : LogMsg) :
  listdir_input w = before ++ filename :: after ->
  read_input w filename = inr msg ->
  contribution w (fst (load_sender_details w)) filename = []
  /\ file_errors w (fst (load_sender_details w)) filename = 1
  /\ merged_batch w = merged_batch (with_listing w (before ++ after))
  /\ written (merge_customer_files w base_directory)
     = written (merge_customer_files (with_listing w (before ++ after)) base_directory).
Proof.
  intros Hlist Hread.
  assert (Hc : contribution w (fst (load_sender_details w)) filename = [])
    by (unfold contribution; now rewrite Hread).
  pose proof (merged_batch_without w before after filename Hlist Hc) as Hm.
  split; [exact Hc|]. split; [unfold file_errors; now rewrite Hread|].
  split; [now symmetry|]. symmetry. now apply written_with_listing.
Qed.

Lemma unreadable_file_is_skipped_witness :
  file_errors world_with_corrupt_file
    (fst (load_sender_details world_with_corrupt_file)) "broken.xlsx" = 1
  /\ written (merge_customer_files world_with_corrupt_file "/base")
     = written (merge_customer_files
                  (with_listing world_with_corrupt_file ([] ++ ["acme-1.txt"])) "/base").
Proof.
  destruct (unreadable_file_is_skipped world_with_corrupt_file "/base"
              [] ["acme-1.txt"] "broken.xlsx"
              (ErrorReadingExcel "broken.xlsx" (ReadError "not a workbook"))
              eq_refl eq_refl) as [_ [He [_ Hw]]].
  split; [exact He|exact Hw].
Defined.

Lemma find_sender_row_of_empty_table (w : World) (sender_details : DataFrame)
  (key : string) :
  df_empty sender_details = true ->
  find_sender_row w sender_details key = Done (mkDF 0 []).
Proof. intro H. unfold find_sender_row. now rewrite H. Qed.

Lemma load_sender_details_failed (w : World) (e : exn) :
  read_sender_details w = Raised e ->
  df_empty (fst (load_sender_details w)) = true.
Proof. intro H. unfold load_sender_details. now rewrite H. Qed.

(** X12: without a readable sender workbook, or with one that has no
    rows, no file finds a sender: nothing is appended and nothing is
    written. *)
Theorem no_sender_table_no_output (w : World) (base_directory : string) :
  (exists e, read_sender_details w = Raised e)
  \/ df_empty (fst (load_sender_details w)) = true ->
  merged_batch w = []
  /\ written (merge_customer_files w base_directory) = None.
Proof.
  intro H.
  assert (Hempty : df_empty (fst (load_sender_details w)) = true)
    by (destruct H as [[e He]|H]; [now apply load_sender_details_failed with e|exact H]).
  assert (Hm : merged_batch w = []).
  { destruct (merged_batch w) as [|out rest] eqn:E; [reflexivity|]. exfalso.
    assert (Hin : In out (merged_batch w)) by (rewrite E; now left).
    apply merged_batch_appended in Hin.
    destruct Hin as [filename [current_df [sender_row
                      [_ [sheet_name [l [_ [Hfind [Hrow _]]]]]]]]].
    rewrite (find_sender_row_of_empty_table _ _ _ Hempty) in Hfind.
    injection Hfind as <-. discriminate. }
  split; [exact Hm|now apply written_None_of_empty_batch].
Qed.

Lemma no_sender_table_no_output_witness :
  merged_batch world_without_senders = []
  /\ written (merge_customer_files world_without_senders "/base") = None.
Proof.
  apply (no_sender_table_no_output world_without_senders "/base").
  left. exists (ReadError "No such file"). reflexivity.
Defined.

Lemma getitem_absent (name : string) (df : DataFrame) :
  has_column name df = false -> getitem name df = Raised (KeyError name).
Proof.
  intro H. unfold getitem.
  destruct (find (labelled name) (cols df)) as [c|] eqn:E; [|reflexivity].
  exfalso. apply find_some in E. destruct E as [Hin Hl]. apply labelled_true in Hl.
  assert (has_column name df = true); [|congruence].
  apply has_column_In. subst name. now apply in_map.
Qed.

(** X13: when the sender table has rows but no [File Name Contain]
    column, looking a sender up raises [KeyError]: every file that is
    read counts as an error, nothing is appended and nothing is
    written. *)
Theorem missing_key_column_fails_every_file (w : World) (base_directory : string)
  (sender_details : DataFrame) :
  read_sender_details w = Done sender_details ->
  df_empty sender_details = false ->
  has_column "File Name Contain" sender_details = false ->
  (forall filename current_df sheet_name,
      read_input w filename = inl (current_df, sheet_name) ->
      file_errors w sender_details filename = 1)
  /\ merged_batch w = []
  /\ written (merge_customer_files w base_directory) = None.
Proof.
  intros Hread Hrows Hkey.
  assert (Hsd : fst (load_sender_details w) = sender_details)
    by (unfold load_sender_details; now rewrite Hread).
  assert (Hfind : forall key,
             find_sender_row w sender_details key
             = Raised (KeyError "File Name Contain")).
  { intro key. unfold find_sender_row. rewrite Hrows. simpl.
    now rewrite (getitem_absent _ _ Hkey). }
  assert (Hm : merged_batch w = []).
  { destruct (merged_batch w) as [|out rest] eqn:E; [reflexivity|]. exfalso.
    assert (Hin : In out (merged_batch w)) by (rewrite E; now left).
    apply merged_batch_appended in Hin.
    destruct Hin as [filename [current_df [sender_row
                      [_ [sheet_name [l [_ [Hf _]]]]]]]].
    rewrite Hsd, Hfind in Hf. discriminate. }
  split; [|split; [exact Hm|now apply written_None_of_empty_batch]].
  intros filename current_df sheet_name Hin. unfold file_errors. rewrite Hin.
  unfold after_read, bind, tell, lift. now rewrite Hfind.
Qed.

Lemma missing_key_column_fails_every_file_witness :
  file_errors world_without_key_column (mkDF 1 [("SenderCity", [Str "Pune"])])
    "acme-1.txt" = 1
  /\ written (merge_customer_files world_without_key_column "/base") = None.
Proof.
  destruct (missing_key_column_fails_every_file world_without_key_column "/base"
              (mkDF 1 [("SenderCity", [Str "Pune"])]) eq_refl eq_refl eq_refl)
    as [He [_ Hw]].
  split; [|exact Hw].
  apply (He "acme-1.txt" sample_input ""). reflexivity.
Defined.

(** X14: a directory entry whose name ends in none of [.txt], [.csv],
    [.xlsx], [.xls] changes nothing: the run logs and writes exactly
    what it does without that entry. *)
Theorem other_extensions_are_ignored (w : World) (base_directory : string)
  (before after : list string) (filename : string) :
  listdir_input w = before ++ filename :: after ->
  endswith_any filename [".txt"; ".csv"; ".xlsx"; ".xls"] = false ->
  merge_customer_files w base_directory
  = merge_customer_files (with_listing w (before ++ after)) base_directory.
Proof.
  intros Hlist Hext.
  assert (Hfiles : input_files_of (with_listing w (before ++ after)) = input_files_of w).
  { unfold input_files_of.
    change (listdir_input (with_listing w (before ++ after))) with (before ++ after).
    rewrite Hlist, !filter_app. cbn [filter]. now rewrite Hext. }
  unfold merge_customer_files. rewrite Hfiles.
  change (load_pin_database (with_listing w (before ++ after)))
    with (load_pin_database w).
  change (load_sender_details (with_listing w (before ++ after)))
    with (load_sender_details w).
  change (input_directory_exists (with_listing w (before ++ after)))
    with (input_directory_exists w).
  change (process_files (with_listing w (before ++ after))) with (process_files w).
  change (write_output (with_listing w (before ++ after))) with (write_output w).
  reflexivity.
Qed.

Lemma other_extensions_are_ignored_witness :
  merge_customer_files (sample_world ["notes.pdf"; "acme-1.txt"]) "/base"
  = merge_customer_files
      (with_listing (sample_world ["notes.pdf"; "acme-1.txt"]) ([] ++ ["acme-1.txt"]))
      "/base".
Proof.
  apply (other_extensions_are_ignored (sample_world ["notes.pdf"; "acme-1.txt"]) "/base"
           [] ["acme-1.txt"] "notes.pdf"); reflexivity.
Defined.

(** ** The key a file is looked up by *)

Lemma contains_empty (s : string) : contains "" s = true.
Proof. rewrite contains_unfold. now destruct s. Qed.

(** X15: a file whose truncated name is empty (as when its name starts
    with a dash or a dot) matches every sender row whose key is a text,
    when the key column holds a text at all: its sender rows are all of
    those, so it takes the first of them.  When the key column holds
    numbers and missing values only, the lookup raises
    [AttributeError]. *)
Theorem empty_key_matches_every_text_key (w : World) (sender_details : DataFrame)
  (filename : string) (keys : list cell) :
  base_filename_of filename = "" ->
  df_empty sender_details = false ->
  getitem "File Name Contain" sender_details = Done keys ->
  (existsb is_text keys = true ->
   find_sender_row w sender_details (base_filename_of filename)
   = Done (filter_rows (map is_text keys) sender_details))
  /\ (existsb is_text keys = false -> keys <> [] ->
      find_sender_row w sender_details (base_filename_of filename)
      = Raised AttributeError).
Proof.
  intros Hkey Hrows Hkeys. rewrite Hkey. unfold find_sender_row.
  rewrite Hrows, Hkeys. cbn [negb]. unfold str_contains, has_str_accessor. split.
  - intro Htext. destruct keys as [|k keys]; [discriminate|].
    rewrite Htext. cbn [negb is_literal_pattern forallb_string]. do 2 f_equal.
    apply map_ext. intros [|s|z]; try reflexivity. simpl. apply contains_empty.
  - intros Hnone Hne. destruct keys as [|k keys]; [contradiction|].
    rewrite Hnone. reflexivity.
Qed.

Lemma empty_key_matches_every_text_key_witness :
  find_sender_row (sample_world []) sample_senders (base_filename_of "-march.txt")
  = Done sample_senders
  /\ find_sender_row (sample_world []) numeric_keys (base_filename_of "-march.txt")
     = Raised AttributeError.
Proof.
  split.
  - apply (empty_key_matches_every_text_key (sample_world []) sample_senders "-march.txt"
             [Str "ACME Corp"; Str "AAB Traders"]); reflexivity.
  - apply (empty_key_matches_every_text_key (sample_world []) numeric_keys "-march.txt"
             [Num 12345; Num 678]); [reflexivity|reflexivity|reflexivity|reflexivity|discriminate].
Defined.

Lemma forallb_split_head (p : ascii -> bool) (c : ascii) (s : string) :
  forallb_string p s = true -> forallb_string p (split_head c s) = true.
Proof.
  induction s as [|a r IH]; simpl; [reflexivity|]. intro H.
  apply andb_true_iff in H. destruct H as [Ha Hr].
  destruct (Ascii.eqb a c); simpl; [reflexivity|]. now rewrite Ha, IH.
Qed.

Lemma split_head_excludes (c : ascii) (s : string) :
  forallb_string (fun a => negb (Ascii.eqb a c)) (split_head c s) = true.
Proof.
  induction s as [|a r IH]; simpl; [reflexivity|].
  destruct (Ascii.eqb a c) eqn:E; simpl; [reflexivity|]. now rewrite E, IH.
Qed.

Lemma forallb_lstrip (p : ascii -> bool) (s : string) :
  forallb_string p s = true -> forallb_string p (lstrip s) = true.
Proof.
  induction s as [|a r IH]; simpl; [reflexivity|]. intro H.
  destruct (isspace a); [|exact H].
  apply andb_true_iff in H. now apply IH.
Qed.

Lemma forallb_rstrip (p : ascii -> bool) (s : string) :
  forallb_string p s = true -> forallb_string p (rstrip s) = true.
Proof.
  induction s as [|a r IH]; simpl; [reflexivity|]. intro H.
  apply andb_true_iff in H. destruct H as [Ha Hr].
  destruct (isspace a && is_empty (rstrip r)); simpl; [reflexivity|].
  now rewrite Ha, IH.
Qed.

Lemma forallb_string_and (p q : ascii -> bool) (s : string) :
  forallb_string p s = true -> forallb_string q s = true ->
  forallb_string (fun a => p a && q a) s = true.
Proof.
  induction s as [|a r IH]; simpl; [reflexivity|]. intros Hp Hq.
  apply andb_true_iff in Hp. apply andb_true_iff in Hq.
  destruct Hp as [-> Hp], Hq as [-> Hq]. simpl. now apply IH.
Qed.

(** X16: the key has no dash and no dot, and no whitespace at either
    end. *)
Theorem base_filename_has_no_dash_or_dot (filename : string) :
  forallb_string (fun a => negb (Ascii.eqb a "-") && negb (Ascii.eqb a "."))
                 (base_filename_of filename) = true
  /\ strip (base_filename_of filename) = base_filename_of filename.
Proof.
  unfold base_filename_of. split; [|apply strip_idempotent].
  unfold strip. apply forallb_rstrip, forallb_lstrip, forallb_string_and.
  - apply forallb_split_head, split_head_excludes.
  - apply split_head_excludes.
Qed.

(** ** The post-merge pass *)

(** X17: on a frame that has the [AddrePincode] and [AddreCity] columns,
    the post-merge pass keeps the number of rows, the labels and their
    order, and every column under another label as it is. *)
Theorem post_merge_pass_touches_two_columns (pin_df : list RefEntry)
  (df out : DataFrame) (l : list LogMsg) :
  has_column "AddrePincode" df = true ->
  has_column "AddreCity" df = true ->
  process_pincodes_and_cities df pin_df = (l, Done out) ->
  nrows out = nrows df
  /\ columns out = columns df
  /\ forall j c, nth_error (cols out) j = Some c ->
                 fst c <> "AddrePincode" -> fst c <> "AddreCity" ->
                 nth_error (cols df) j = Some c.
Proof.
  intros Hp Hc H.
  pose proof (process_pincodes_and_cities_modifies _ _ _ _ Hp Hc H) as Hmod.
  split; [exact (proj1 Hmod)|]. split; [now apply modified_only_columns in Hmod|].
  intros j c Hj H1 H2. eapply modified_only_nth_error; [exact Hmod|exact Hj|].
  simpl. intuition congruence.
Qed.

Lemma post_merge_pass_touches_two_columns_witness :
  exists out,
    snd (process_pincodes_and_cities
           (mkDF 1 [("AddreCity", [Str ""]); ("AddrePincode", [Str "100000"]);
                    ("AddreName", [Str "Asha"])])
           [mkRef "100000" "MUMBAI"]) = Done out
    /\ nrows out = 1
    /\ columns out = ["AddreCity"; "AddrePincode"; "AddreName"].
Proof.
  eexists. split; [vm_compute; reflexivity|].
  match goal with
  | |- nrows ?o = _ /\ _ =>
      destruct (post_merge_pass_touches_two_columns [mkRef "100000" "MUMBAI"]
                  (mkDF 1 [("AddreCity", [Str ""]); ("AddrePincode", [Str "100000"]);
                           ("AddreName", [Str "Asha"])])
                  o
                  [ProcessingPincodesAndCities; ProcessingPincodes; ExtractedPincodes 0;
                   ProcessingCities; MappedCities 1]
                  eq_refl eq_refl eq_refl) as [Hn [Hcols _]]
  end.
  split; [exact Hn|exact Hcols].
Defined.

(** ** The two loops of the post-merge pass, row by row *)

Lemma nth_update {A : Type} (i j : nat) (v d : A) (l : list A) :
  nth j (update i v l) d
  = if (j =? i) && (i <? List.length l) then v else nth j l d.
Proof.
  revert i j. induction l as [|x l IH]; intros [|i] [|j]; simpl; try reflexivity.
  - now rewrite andb_false_r.
  - rewrite IH. reflexivity.
Qed.

Lemma length_update {A : Type} (i : nat) (v : A) (l : list A) :
  List.length (update i v l) = List.length l.
Proof.
  revert i. induction l as [|x l IH]; intros [|i]; simpl; auto.
Qed.

Lemma length_write_each (value : nat -> option cell) (idxs : list nat) (col : list cell) :
  List.length (fold_left (write_each value) idxs col) = List.length col.
Proof.
  revert col. induction idxs as [|i idxs IH]; intro col; simpl; [reflexivity|].
  rewrite IH. unfold write_each. destruct (value i); [apply length_update|reflexivity].
Qed.

Lemma nth_write_each (value : nat -> option cell) (idxs : list nat) (col : list cell)
  (j : nat) (d : cell) :
  nth j (fold_left (write_each value) idxs col) d
  = match (if existsb (Nat.eqb j) idxs && (j <? List.length col)
           then value j else None) with
    | Some v => v
    | None => nth j col d
    end.
Proof.
  revert col. induction idxs as [|i idxs IH]; intro col; simpl; [reflexivity|].
  rewrite IH.
  assert (Hlen : List.length (write_each value col i) = List.length col)
    by (unfold write_each; destruct (value i); [apply length_update|reflexivity]).
  rewrite Hlen.
  assert (Hnth : nth j (write_each value col i) d
                 = match (if (j =? i) && (j <? List.length col)
                          then value j else None) with
                   | Some v => v
                   | None => nth j col d
                   end).
  { unfold write_each. destruct (j =? i) eqn:E.
    - apply Nat.eqb_eq in E. subst j. simpl.
      destruct (value i) as [v|].
      + rewrite nth_update, Nat.eqb_refl. simpl.
        now destruct (i <? List.length col).
      + now destruct (i <? List.length col).
    - simpl. destruct (value i) as [v|]; [|reflexivity].
      rewrite nth_update, E. reflexivity. }
  destruct (existsb (Nat.eqb j) idxs) eqn:Ex; simpl.
  - destruct (j <? List.length col) eqn:Hj; simpl.
    + rewrite orb_true_r. simpl. destruct (value j); [reflexivity|].
      rewrite Hnth. now destruct ((j =? i) && true).
    + rewrite andb_false_r. rewrite Hnth, andb_false_r. reflexivity.
  - rewrite orb_false_r. exact Hnth.
Qed.

Lemma existsb_seq (j n : nat) : existsb (Nat.eqb j) (seq 0 n) = (j <? n).
Proof.
  apply eq_true_iff_eq. rewrite existsb_exists, Nat.ltb_lt. split.
  - intros [x [Hx E]]. apply Nat.eqb_eq in E. subst. apply in_seq in Hx. lia.
  - intro H. exists j. split; [apply in_seq; lia|apply Nat.eqb_refl].
Qed.

Lemma labelled_map_column (name other : string) (f : list cell -> list cell)
  (c : string * list cell) :
  labelled other (if labelled name c then (fst c, f (snd c)) else c) = labelled other c.
Proof. now destruct (labelled name c). Qed.

Lemma set_at_map_column (i : nat) (name : string) (v : cell) (df : DataFrame) :
  set_at i name v df = map_column name (update i v) df.
Proof. reflexivity. Qed.

Lemma map_column_compose (name : string) (f g : list cell -> list cell) (df : DataFrame) :
  map_column name f (map_column name g df) = map_column name (fun l => f (g l)) df.
Proof.
  unfold map_column. simpl. f_equal. rewrite map_map. apply map_ext. intro c.
  destruct (labelled name c) eqn:E; simpl.
  - unfold labelled in *. simpl. now rewrite E.
  - now rewrite E.
Qed.

Lemma map_column_same (name : string) (f : list cell -> list cell) (df : DataFrame) :
  (forall l, f l = l) -> map_column name f df = df.
Proof.
  intro H. destruct df as [n cs]. unfold map_column. simpl. f_equal.
  induction cs as [|[label data] cs IH]; simpl; [reflexivity|].
  rewrite IH. destruct (labelled name (label, data)); simpl; [now rewrite H|reflexivity].
Qed.

Lemma map_column_ext (name : string) (f g : list cell -> list cell) (df : DataFrame) :
  (forall l, f l = g l) -> map_column name f df = map_column name g df.
Proof.
  intro H. unfold map_column. f_equal. apply map_ext. intro c.
  destruct (labelled name c); [now rewrite H|reflexivity].
Qed.

Lemma setitem_map_column (name : string) (values : list cell) (df : DataFrame) :
  has_column name df = true ->
  setitem name values df = map_column name (fun _ => values) df.
Proof.
  intro H. unfold setitem, map_column. rewrite H. f_equal. apply map_ext. intro c.
  destruct (labelled name c) eqn:E; [|reflexivity].
  apply labelled_true in E. now rewrite E.
Qed.

Lemma filter_labelled_map_column (name other : string) (f : list cell -> list cell)
  (l : list (string * list cell)) :
  filter (labelled other)
         (map (fun c => if labelled name c then (fst c, f (snd c)) else c) l)
  = map (fun c => if labelled name c then (fst c, f (snd c)) else c)
        (filter (labelled other) l).
Proof.
  induction l as [|c l IH]; simpl; [reflexivity|].
  rewrite labelled_map_column. destruct (labelled other c); simpl; now rewrite IH.
Qed.

Lemma unique_column_map_column (e : exn) (name : string) (f : list cell -> list cell)
  (df : DataFrame) (col : list cell) :
  unique_column e name df = Done col ->
  unique_column e name (map_column name f df) = Done (f col).
Proof.
  unfold unique_column, map_column. simpl. rewrite filter_labelled_map_column.
  destruct (filter (labelled name) (cols df)) as [|c [|c' rest]] eqn:E; try discriminate.
  intro H. injection H as <-. simpl.
  assert (Hc : labelled name c = true).
  { assert (Hin : In c (filter (labelled name) (cols df))) by (rewrite E; now left).
    now apply filter_In in Hin. }
  now rewrite Hc.
Qed.

Lemma unique_column_map_column_other (e : exn) (name other : string)
  (f : list cell -> list cell) (df : DataFrame) :
  other <> name ->
  unique_column e other (map_column name f df) = unique_column e other df.
Proof.
  intro Hne. unfold unique_column, map_column. simpl.
  rewrite filter_labelled_map_column.
  replace (map (fun c => if labelled name c then (fst c, f (snd c)) else c)
               (filter (labelled other) (cols df)))
    with (filter (labelled other) (cols df)); [reflexivity|].
  induction (cols df) as [|c l IH]; simpl; [reflexivity|].
  destruct (labelled other c) eqn:E; [|exact IH]. simpl. rewrite <- IH.
  apply labelled_true in E.
  destruct (labelled name c) eqn:E'; [|reflexivity].
  apply labelled_true in E'. congruence.
Qed.

Lemma unique_column_any_exn (e e' : exn) (name : string) (df : DataFrame)
  (col : list cell) :
  unique_column e name df = Done col -> unique_column e' name df = Done col.
Proof.
  unfold unique_column.
  now destruct (filter (labelled name) (cols df)) as [|c [|c' rest]].
Qed.

Lemma unique_column_has (e : exn) (name : string) (df : DataFrame) (col : list cell) :
  unique_column e name df = Done col -> has_column name df = true.
Proof.
  unfold unique_column.
  destruct (filter (labelled name) (cols df)) as [|c rest] eqn:E; [discriminate|].
  intros _.
  assert (Hin : In c (filter (labelled name) (cols df))) by (rewrite E; now left).
  apply filter_In in Hin. destruct Hin as [Hin Hl]. apply labelled_true in Hl.
  apply has_column_In. subst name. now apply in_map.
Qed.


Lemma fold_map_column (name : string) (step : list cell -> nat -> list cell)
  (idxs : list nat) (df : DataFrame) :
  fold_left (fun d i => map_column name (fun col => step col i) d) idxs df
  = map_column name (fun col => fold_left step idxs col) df.
Proof.
  revert df. induction idxs as [|i idxs IH]; intro df; simpl.
  - symmetry. now apply map_column_same.
  - rewrite IH. apply map_column_compose.
Qed.

Lemma city_rows_frame (pin_df : list RefEntry) (cities pins : list cell)
  (idxs : list nat) (st : DataFrame * nat * list LogMsg) :
  fst (fst (fold_left (city_row pin_df cities pins) idxs st))
  = map_column "AddreCity"
      (fun col => fold_left (write_each (city_value pin_df cities pins)) idxs col)
      (fst (fst st)).
Proof.
  rewrite <- fold_map_column. revert st.
  induction idxs as [|i idxs IH]; intro st; simpl; [reflexivity|].
  rewrite IH. f_equal. destruct st as [[d n] lg]. unfold city_row, write_each, city_value.
  destruct ((negb (truthy (nth i cities NaN)) || cell_eqb (nth i cities NaN) (Str ""))
            && truthy (nth i pins NaN)); simpl.
  - destruct (lookup_city pin_df (nth i pins NaN)); simpl; [reflexivity|].
    symmetry. now apply map_column_same.
  - symmetry. now apply map_column_same.
Qed.

Lemma nth_map_within {A B : Type} (f : A -> B) (l : list A) (i : nat) (d : A) (d' : B) :
  i < List.length l -> nth i (map f l) d' = f (nth i l d).
Proof.
  intro H. rewrite (nth_indep _ d' (f d)) by now rewrite length_map.
  apply map_nth.
Qed.

(** X18: the city loop, row by row.  On a frame with one [AddreCity] and
    one [AddrePincode] column, [process_cities] raises nothing and leaves
    the pincodes as they are; each city is first read as text and
    trimmed (a missing one as the empty string), and a row of the frame
    whose city is then empty and whose pincode is not takes the city of
    the first reference entry with that pincode, staying empty when
    there is none; every other city is the trimmed text. *)
Theorem city_backfill_by_row (pin_df : list RefEntry) (df : DataFrame)
  (cities pins : list cell) :
  unique_column ValueError "AddreCity" df = Done cities ->
  unique_column ValueError "AddrePincode" df = Done pins ->
  exists l out new_cities,
    process_cities pin_df df = (l, Done out)
    /\ unique_column ValueError "AddreCity" out = Done new_cities
    /\ unique_column ValueError "AddrePincode" out = Done pins
    /\ List.length new_cities = List.length cities
    /\ forall i, i < List.length cities ->
         nth i new_cities NaN
         = if i <? nrows df
           then backfilled_city pin_df (stripped_city (nth i cities NaN)) (nth i pins NaN)
           else stripped_city (nth i cities NaN).
Proof.
  intros Hc Hp.
  pose proof (unique_column_has _ _ _ _ Hc) as Hhas.
  set (cities' := map stripped_city cities).
  set (df1 := setitem "AddreCity" cities' df).
  assert (Hdf1 : df1 = map_column "AddreCity" (fun _ => cities') df)
    by now apply setitem_map_column.
  assert (Hc1 : unique_column ValueError "AddreCity" df1 = Done cities')
    by (rewrite Hdf1; now apply (unique_column_map_column _ _ (fun _ => cities') df cities)).
  assert (Hp1 : unique_column ValueError "AddrePincode" df1 = Done pins)
    by (rewrite Hdf1, unique_column_map_column_other; [exact Hp|discriminate]).
  set (st := fold_left (city_row pin_df cities' pins) (seq 0 (nrows df1)) (df1, 0, [])).
  set (final := fold_left (write_each (city_value pin_df cities' pins))
                          (seq 0 (nrows df1)) cities').
  assert (Hout : fst (fst st)
                 = map_column "AddreCity"
                     (fun col => fold_left (write_each (city_value pin_df cities' pins))
                                           (seq 0 (nrows df1)) col) df1)
    by apply city_rows_frame.
  assert (Hrun : exists l, process_cities pin_df df = (l, Done (fst (fst st)))).
  { unfold process_cities. rewrite Hhas.
    unfold bind, tell, lift, ret.
    rewrite (unique_column_any_exn _ AttributeError _ _ _ Hc).
    cbv beta iota zeta.
    change (map (fun v => Str (strip (str (fillna_empty v)))) cities) with cities'.
    change (setitem "AddreCity" cities' df) with df1.
    rewrite Hc1. cbv beta iota zeta. rewrite Hp1. cbv beta iota zeta.
    eexists. reflexivity. }
  destruct Hrun as [l Hrun].
  exists l, (fst (fst st)), final.
  split; [exact Hrun|].
  split; [rewrite Hout; now apply (unique_column_map_column _ _ _ df1 cities')|].
  split; [rewrite Hout, unique_column_map_column_other; [exact Hp1|discriminate]|].
  split; [unfold final, cities'; now rewrite length_write_each, length_map|].
  intros i Hi. unfold final. rewrite nth_write_each.
  assert (Hn : nrows df1 = nrows df) by apply nrows_setitem.
  assert (Hi' : (i <? List.length cities') = true)
    by (apply Nat.ltb_lt; unfold cities'; now rewrite length_map).
  assert (Hcity : nth i cities' NaN = stripped_city (nth i cities NaN))
    by (unfold cities'; now apply nth_map_within).
  rewrite existsb_seq, Hi', andb_true_r, Hn.
  destruct (i <? nrows df); [|exact Hcity].
  unfold city_value, backfilled_city. rewrite Hcity.
  destruct ((negb (truthy (stripped_city (nth i cities NaN)))
             || cell_eqb (stripped_city (nth i cities NaN)) (Str ""))
            && truthy (nth i pins NaN)); [|reflexivity].
  destruct (lookup_city pin_df (nth i pins NaN)); reflexivity.
Qed.

Lemma city_backfill_by_row_witness :
  exists l out new_cities,
    process_cities [mkRef "100000" "MUMBAI"; mkRef "100000" "DELHI"]
      (mkDF 3 [("AddreCity", [NaN; Str " Pune "; Str ""]);
               ("AddrePincode", [Str "100000"; Str "100000"; Str "999999"])])
    = (l, Done out)
    /\ unique_column ValueError "AddreCity" out = Done new_cities
    /\ nth 0 new_cities NaN = Str "MUMBAI"
    /\ nth 1 new_cities NaN = Str "Pune"
    /\ nth 2 new_cities NaN = Str "".
Proof.
  destruct (city_backfill_by_row [mkRef "100000" "MUMBAI"; mkRef "100000" "DELHI"]
              (mkDF 3 [("AddreCity", [NaN; Str " Pune "; Str ""]);
                       ("AddrePincode", [Str "100000"; Str "100000"; Str "999999"])])
              [NaN; Str " Pune "; Str ""]
              [Str "100000"; Str "100000"; Str "999999"] eq_refl eq_refl)
    as [l [out [new_cities [Hrun [Hcol [_ [_ Hrows]]]]]]].
  exists l, out, new_cities. split; [exact Hrun|]. split; [exact Hcol|].
  split; [|split].
  - rewrite (Hrows 0) by (simpl; lia). reflexivity.
  - rewrite (Hrows 1) by (simpl; lia). reflexivity.
  - rewrite (Hrows 2) by (simpl; lia). reflexivity.
Defined.





(** ** A file without rows *)

Lemma address_series_needs_rows (names : list string) (df : DataFrame)
  (series : list cell) :
  nrows df = 0 -> address_series names df <> Done series.
Proof.
  intros Hn. unfold address_series.
  destruct (getitem_list names df); [|discriminate].
  rewrite Hn. discriminate.
Qed.

Lemma enrich_needs_rows (sender_row : DataFrame) (filename sheet_name base_filename : string)
  (current_df out : DataFrame) (l : list LogMsg) :
  df_empty sender_row = false ->
  nrows current_df = 0 ->
  get_matching_columns (renamed current_df) address_columns <> [] ->
  enrich sender_row filename sheet_name base_filename current_df <> (l, Done out).
Proof.
  intros Hrow Hn Haddr H.
  destruct (enrich_Done _ _ _ _ _ _ _ Hrow H) as [df2 [l2 [H2 _]]].
  destruct (process_address_columns_Done _ _ _ H2)
    as [[Hnone _]|[_ [series [Hser _]]]]; [contradiction|].
  revert Hser. apply address_series_needs_rows. now rewrite nrows_renamed.
Qed.

(** X20: a file that is read with a header and no rows, and has a
    column that matches an address alias after renaming, is never
    appended: joining the address columns raises; when a sender row
    matches the file it counts as one error. *)
Theorem file_without_rows_is_an_error (w : World) (sender_details : DataFrame)
  (filename sheet_name : string) (current_df : DataFrame) :
  read_input w filename = inl (current_df, sheet_name) ->
  nrows current_df = 0 ->
  get_matching_columns (renamed current_df) address_columns <> [] ->
  contribution w sender_details filename = []
  /\ (forall sender_row,
        find_sender_row w sender_details (base_filename_of filename) = Done sender_row ->
        df_empty sender_row = false ->
        file_errors w sender_details filename = 1).
Proof.
  intros Hread Hn Haddr. split.
  - destruct (contribution w sender_details filename) as [|out rest] eqn:Hc;
      [reflexivity|].
    exfalso.
    assert (Hin : In out (contribution w sender_details filename))
      by (rewrite Hc; now left).
    apply contribution_appended in Hin.
    destruct Hin as [current_df' [sender_row [sheet_name' [l [Hread' [_ [Hrow Henrich]]]]]]].
    rewrite Hread in Hread'. injection Hread' as <- <-.
    exact (enrich_needs_rows _ _ _ _ _ _ _ Hrow Hn Haddr Henrich).
  - intros sender_row Hfind Hrow. unfold file_errors. rewrite Hread.
    unfold after_read. rewrite Hfind. cbn [tell lift bind]. rewrite Hrow. cbn [negb].
    destruct (enrich sender_row filename sheet_name (base_filename_of filename) current_df)
      as [l [out|e]] eqn:Henrich.
    + exfalso. exact (enrich_needs_rows _ _ _ _ _ _ _ Hrow Hn Haddr Henrich).
    + reflexivity.
Qed.

Lemma file_without_rows_is_an_error_witness :
  contribution world_with_header_only
    (fst (load_sender_details world_with_header_only)) "acme-0.txt" = []
  /\ file_errors world_with_header_only
       (fst (load_sender_details world_with_header_only)) "acme-0.txt" = 1.
Proof.
  destruct (file_without_rows_is_an_error world_with_header_only
              (fst (load_sender_details world_with_header_only))
              "acme-0.txt" "" header_only eq_refl eq_refl)
    as [Hc He].
  - vm_compute. discriminate.
  - split; [exact Hc|].
    apply (He (filter_rows [true; false] sample_senders)); reflexivity.
Defined.
